(** * djblets: API-token policy validation and the conditions form field

    A shallow embedding of

    - [djblets/webapi/models.py]: [BaseWebAPIToken.validate_policy],
      [_validate_policy_section] and [_get_valid_policy_ids];
    - [djblets/forms/widgets.py]: [ConditionsWidget] (the lazy [choices]
      property and [get_context]);
    - [djblets/forms/fields.py]: [ConditionsField.to_python].

    Python dictionaries whose iteration order is observable are association
    lists in insertion order; sets and index-keyed dictionaries are stdpp's
    [gset] and [gmap]; raised exceptions are the [Raise] branch of a small
    error monad. *)

From Stdlib Require Import ZArith String Ascii List.
From stdpp Require Import base option list gmap strings pretty.

#[local] Set Warnings "-register-all".

Local Open Scope string_scope.
Local Open Scope list_scope.

(** ** Python values *)

(** Hashable values usable as dictionary keys and set members.  [KStr] is
    the only one for which [isinstance(k, str)] holds. *)
Inductive pykey : Type :=
| KNone
| KInt (n : Z)
| KStr (s : string).

(** JSON-like Python values.  A [dict] keeps its items in insertion order. *)
Inductive pyval : Type :=
| VNone
| VBool (b : bool)
| VInt (n : Z)
| VStr (s : string)
| VList (items : list pyval)
| VDict (items : list (pykey * pyval)).

#[global] Instance pykey_eq_dec : EqDecision pykey.
Proof. solve_decision. Defined.

Definition pykey_to_sum (k : pykey) : unit + Z + string :=
  match k with
  | KNone => inl (inl tt)
  | KInt n => inl (inr n)
  | KStr s => inr s
  end.

Definition pykey_of_sum (x : unit + Z + string) : pykey :=
  match x with
  | inl (inl _) => KNone
  | inl (inr n) => KInt n
  | inr s => KStr s
  end.

#[global] Instance pykey_countable : Countable pykey.
Proof.
  apply (inj_countable' pykey_to_sum pykey_of_sum).
  intros [| |]; reflexivity.
Defined.

(** [str(k)], as used by [%s] formatting. *)
Definition str_of_key (k : pykey) : string :=
  match k with
  | KNone => "None"
  | KInt n => pretty n
  | KStr s => s
  end.

(** [isinstance(k, str)]. *)
Definition is_str (k : pykey) : bool :=
  match k with KStr _ => true | _ => false end.

(** [isinstance(v, list)]. *)
Definition is_list (v : pyval) : bool :=
  match v with VList _ => true | _ => false end.

Abbreviation pydict := (list (pykey * pyval)).

(** [d[k]] / [d.get(k)]: the value stored under [k]. *)
Fixpoint dict_get (d : pydict) (k : pykey) : option pyval :=
  match d with
  | [] => None
  | (k', v) :: d' => if decide (k' = k) then Some v else dict_get d' k
  end.

(** [k in d]. *)
Definition dict_in (k : pykey) (d : pydict) : bool :=
  match dict_get d k with Some _ => true | None => false end.

(** [not d] for a dictionary. *)
Definition dict_empty (d : pydict) : bool :=
  match d with [] => true | _ => false end.

(** The double-quote character, and [s] wrapped in double quotes. *)
Definition dq : string := String (ascii_of_nat 34) EmptyString.
Definition quoted (s : string) : string := dq ++ s ++ dq.

(** ** Exceptions *)

(** The exceptions the modelled code raises or handles.
    [ValidationError(message, code=None)] is Django's; the four condition
    errors are those of [djblets.conditions.errors], with the attributes
    the callers read: the message ([str(e)]), [condition_index] and, on
    [InvalidConditionValueError] only, [code]. *)
Inductive exn : Type :=
| ValidationError (message : string) (code : option string)
| NotImplementedError
| AttributeError
| KeyError
| AssertionError
| ConditionChoiceNotFoundError (message : string)
                               (condition_index : option nat)
| ConditionOperatorNotFoundError (message : string)
                                 (condition_index : option nat)
| InvalidConditionModeError (message : string)
| InvalidConditionValueError (message : string) (code : option string)
                             (condition_index : option nat).

Inductive result (A : Type) : Type :=
| Ok (a : A)
| Raise (e : exn).
Arguments Ok {A} a.
Arguments Raise {A} e.

#[global] Instance result_ret : MRet result := fun A a => Ok a.
#[global] Instance result_bind : MBind result := fun A B f m =>
  match m with
  | Ok a => f a
  | Raise e => Raise e
  end.

(** A [for] loop whose body may raise: stops at the first exception. *)
Fixpoint for_each {A : Type} (body : A -> result unit) (l : list A)
  : result unit :=
  match l with
  | [] => Ok tt
  | x :: l' => body x ;; for_each body l'
  end.

(** ** The resource tree *)

(** A resource node: [policy_id] is [None] when the object has no such
    attribute ([hasattr] is false). *)
Inductive Resource : Type :=
| mkResource (policy_id : option pykey)
             (list_child_resources item_child_resources : list Resource).

Definition policy_id (r : Resource) : option pykey :=
  match r with mkResource p _ _ => p end.
Definition list_child_resources (r : Resource) : list Resource :=
  match r with mkResource _ l _ => l end.
Definition item_child_resources (r : Resource) : list Resource :=
  match r with mkResource _ _ i => i end.

(** [_get_valid_policy_ids(resource, result)]: the set [result] is shared
    by every recursive call and returned. *)
Fixpoint _get_valid_policy_ids (resource : Resource) (result : gset pykey)
  : gset pykey :=
  match resource with
  | mkResource pid list_children item_children =>
      let result :=
        match pid with
        | Some p => {[ p ]} ∪ result
        | None => result
        end in
      let result :=
        fold_left (fun acc child_resource =>
                     _get_valid_policy_ids child_resource acc)
                  list_children result in
      fold_left (fun acc child_resource =>
                   _get_valid_policy_ids child_resource acc)
                item_children result
  end.

(** ** [BaseWebAPIToken] *)

(** A token class is determined, for validation, by what its class method
    [get_root_resource] does: return a resource tree or raise. *)
Record TokenClass : Type := {
  get_root_resource : result Resource
}.

(** The abstract base class: [get_root_resource] raises
    [NotImplementedError]. *)
Definition BaseWebAPIToken : TokenClass :=
  {| get_root_resource := Raise NotImplementedError |}.

(** A concrete subclass whose [get_root_resource] returns [root]. *)
Definition TokenWithRoot (root : Resource) : TokenClass :=
  {| get_root_resource := Ok root |}.

(** [_validate_policy_section(parent_section, section_name,
    full_section_name)]. *)
Definition _validate_policy_section (parent_section : pydict)
    (section_name : pykey) (full_section_name : string) : result unit :=
  match dict_get parent_section section_name with
  | None => Raise KeyError
  | Some (VDict section) =>
      if negb (dict_in (KStr "allow") section)
         && negb (dict_in (KStr "block") section) then
        Raise (ValidationError
                 ("The " ++ quoted full_section_name
                  ++ " section must have " ++ quoted "allow" ++ " and/or "
                  ++ quoted "block" ++ " rules.") None)
      else if match dict_get section (KStr "allow") with
              | Some v => negb (is_list v)
              | None => false
              end then
        Raise (ValidationError
                 ("The " ++ quoted full_section_name ++ " section's "
                  ++ quoted "allow" ++ " rule must be a list.") None)
      else if match dict_get section (KStr "block") with
              | Some v => negb (is_list v)
              | None => false
              end then
        Raise (ValidationError
                 ("The " ++ quoted full_section_name ++ " section's "
                  ++ quoted "block" ++ " rule must be a list.") None)
      else Ok tt
  | Some _ =>
      Raise (ValidationError
               ("The " ++ quoted full_section_name
                ++ " section must be a JSON object.") None)
  end.

(** The body of the loop over [section.items()] of one named section. *)
Definition validate_subsection (policy_id : pykey) (section : pydict)
    (item : pykey * pyval) : result unit :=
  let subsection_name := item.1 in
  if negb (is_str subsection_name) then
    Raise (ValidationError
             (str_of_key subsection_name ++ " must be a string in "
              ++ quoted ("resources." ++ str_of_key policy_id)) None)
  else
    _validate_policy_section section subsection_name
      ("resources." ++ str_of_key policy_id ++ "."
       ++ str_of_key subsection_name).

(** The body of the loop over [resource_policies]. *)
Definition validate_resource_policy (valid_policy_ids : gset pykey)
    (item : pykey * pyval) : result unit :=
  let policy_id := item.1 in
  if decide (policy_id ∈ valid_policy_ids) then
    match item.2 with
    | VDict section => for_each (validate_subsection policy_id section) section
    | _ => Raise AttributeError
    end
  else
    Raise (ValidationError
             (quoted (str_of_key policy_id)
              ++ " is not a valid resource policy ID.") None).

(** The list comprehension building [resource_policies]. *)
Definition resource_policies_of (resources_section : pydict) : pydict :=
  filter (fun item => item.1 ≠ KStr "*") resources_section.

(** [validate_policy(cls, policy)]. *)
Definition validate_policy (cls : TokenClass) (policy : pyval)
  : result unit :=
  match policy with
  | VDict policy =>
      if dict_empty policy then Ok tt
      else
        match dict_get policy (KStr "resources") with
        | None =>
            Raise (ValidationError
                     ("The policy is missing a " ++ quoted "resources"
                      ++ " section.") None)
        | Some (VDict resources_section) =>
            if dict_empty resources_section then
              Raise (ValidationError
                       ("The policy's " ++ quoted "resources"
                        ++ " section must not be empty.") None)
            else
              (if dict_in (KStr "*") resources_section then
                 _validate_policy_section resources_section (KStr "*")
                   "resources.*"
               else Ok tt) ;;
              let resource_policies :=
                resource_policies_of resources_section in
              if dict_empty resource_policies then Ok tt
              else
                root ← get_root_resource cls;
                let valid_policy_ids := _get_valid_policy_ids root ∅ in
                for_each (validate_resource_policy valid_policy_ids)
                         resource_policies
        | Some _ =>
            Raise (ValidationError
                     ("The policy's " ++ quoted "resources"
                      ++ " section must be a JSON object.") None)
        end
  | _ => Raise (ValidationError "The policy must be a JSON object." None)
  end.


(** ** Specification-side notions for the policy validator *)

(** [node_of n r]: [n] is [r] or one of its descendants, through list
    children or item children. *)
Inductive node_of : Resource -> Resource -> Prop :=
| node_self r : node_of r r
| node_list_child n c r :
    c ∈ list_child_resources r -> node_of n c -> node_of n r
| node_item_child n c r :
    c ∈ item_child_resources r -> node_of n c -> node_of n r.

(** The shape the specification asks of a section: a mapping holding
    [allow] and/or [block], each of them a list when present. *)
Definition section_shape_ok (v : pyval) : bool :=
  match v with
  | VDict section =>
      (dict_in (KStr "allow") section || dict_in (KStr "block") section)
      && match dict_get section (KStr "allow") with
         | Some a => is_list a
         | None => true
         end
      && match dict_get section (KStr "block") with
         | Some b => is_list b
         | None => true
         end
  | _ => false
  end.

(** What the loop over a named section accepts: every key is a string and
    every value has the section shape. *)
Definition subsections_ok (section : pydict) : Prop :=
  ∀ sk sv, dict_get section sk = Some sv →
           is_str sk = true ∧ section_shape_ok sv = true.

(** The resource tree [A -> [B, C]] with [A.policy_id = "root"],
    [B.policy_id = "b"] and no [policy_id] on [C]; [B] and [C] are list
    children. *)
Definition resourceB : Resource := mkResource (Some (KStr "b")) [] [].
Definition resourceC : Resource := mkResource None [] [].
Definition resourceA : Resource :=
  mkResource (Some (KStr "root")) [resourceB; resourceC] [].

(** Sample policies. *)
Definition allow_x : pyval := VDict [(KStr "allow", VList [VStr "x"])].
Definition allow_y : pyval := VDict [(KStr "allow", VList [VStr "y"])].

Definition policy_of_resources (resources_section : pydict) : pyval :=
  VDict [(KStr "resources", VDict resources_section)].

(** * The conditions widget and field *)

(** ** The condition registry *)

(** Modelled from the spec: the value fields of [djblets.conditions.values]
    are not among the sources; a value field is what the widget reads of
    it (its JavaScript model and view descriptions and
    [prepare_value_for_widget]) and what deserialization asks of it:
    [deserialize_value] parses and validates a raw value or fails. *)
Record BaseConditionValueField : Type := {
  js_model_class : string;
  get_js_model_data : pyval;
  js_view_class : string;
  get_js_view_data : pyval;
  prepare_value_for_widget : pyval -> pyval;
  deserialize_value : pyval -> result pyval
}.

(** A value field given as an instance (or [None]), or as a zero-argument
    callable returning one. *)
Inductive ValueFieldOrCallable : Type :=
| ValueFieldInstance (value_field : option BaseConditionValueField)
| ValueFieldCallable (f : unit -> option BaseConditionValueField).

(** Modelled from the spec: the operators of
    [djblets.conditions.operators] are not among the sources.
    [operator_name] is the attribute [name]. *)
Record BaseConditionOperator : Type := {
  operator_id : option string;
  operator_name : option string;
  has_custom_value_field : bool;
  value_field : ValueFieldOrCallable
}.

(** Modelled from the spec: the choices of [djblets.conditions.choices]
    are not among the sources.  [choice_name] is the attribute [name];
    [operators] may be [None]. *)
Record BaseConditionChoice : Type := {
  choice_id : string;
  choice_name : string;
  default_value_field : ValueFieldOrCallable;
  operators : option (list BaseConditionOperator)
}.

(** Modelled from the spec: the registry [ConditionChoices] is not among
    the sources; it is the ordered collection of its choices. *)
Abbreviation ConditionChoices := (list BaseConditionChoice).

Abbreviation KwargsDict := (list (string * pyval)).

(** [choice.get_operators()]. *)
Definition get_operators (choice : BaseConditionChoice)
  : list BaseConditionOperator :=
  default [] (operators choice).

(** Modelled from the spec: [choice.get_operator(operator_id)] returns the
    operator of that id or fails with [ConditionOperatorNotFoundError].
    The spec does not give the text of the message; nothing below depends
    on it. *)
Definition get_operator (choice : BaseConditionChoice) (id : string)
  : result BaseConditionOperator :=
  match List.find (fun operator =>
                     bool_decide (operator_id operator = Some id))
                  (get_operators choice) with
  | Some operator => Ok operator
  | None =>
      Raise (ConditionOperatorNotFoundError
               ("No operator was found matching " ++ quoted id ++ ".") None)
  end.

(** Modelled from the spec: [choices.get_choice(choice_id, choice_kwargs)]
    returns the choice of that id or fails with
    [ConditionChoiceNotFoundError].  The spec does not give the text of
    the message; nothing below depends on it. *)
Definition get_choice (choices : ConditionChoices) (id : string)
    (choice_kwargs : KwargsDict) : result BaseConditionChoice :=
  match List.find (fun choice => bool_decide (choice_id choice = id))
                  choices with
  | Some choice => Ok choice
  | None =>
      Raise (ConditionChoiceNotFoundError
               ("No condition choice was found matching " ++ quoted id
                ++ ".") None)
  end.

(** [choices.get_choices(choice_kwargs)]. *)
Definition get_choices (choices : ConditionChoices)
    (choice_kwargs : KwargsDict) : list BaseConditionChoice :=
  choices.

(** [ConditionSet.MODE_ALWAYS], [MODE_ALL] and [MODE_ANY]. *)
Definition MODE_ALWAYS : string := "always".
Definition MODE_ALL : string := "all".
Definition MODE_ANY : string := "any".

(** ** Django's choice widgets, as the conditions widget uses them *)

Abbreviation Attrs := (gmap string string).

(** What a widget renders: the element, the [name] and [value] it was
    asked to render, its HTML attributes and, for a choice widget, its
    options.  Rendered fragments are concatenated as lists. *)
Inductive Html : Type :=
| SelectElement (name value : string) (attrs : Attrs)
                (options : list (string * string))
| RadioSelectElement (name value : string) (attrs : Attrs)
                     (options : list (string * string))
| HiddenInputElement (name value : string).

Abbreviation SafeText := (list Html).

(** A [Select] or [RadioSelect]: its own attributes and its choices. *)
Record ChoiceWidget : Type := {
  widget_attrs : Attrs;
  widget_choices : list (string * string)
}.

(** [Widget.build_attrs(base_attrs, extra_attrs)]: [extra_attrs] wins. *)
Definition build_attrs (base_attrs extra_attrs : Attrs) : Attrs :=
  extra_attrs ∪ base_attrs.

(** [Select.render(name, value, attrs)]. *)
Definition Select_render (widget : ChoiceWidget) (name value : string)
    (attrs : Attrs) : SafeText :=
  [SelectElement name value (build_attrs (widget_attrs widget) attrs)
                 (widget_choices widget)].

(** [RadioSelect.render(name, value, attrs)]. *)
Definition RadioSelect_render (widget : ChoiceWidget) (name value : string)
    (attrs : Attrs) : SafeText :=
  [RadioSelectElement name value (build_attrs (widget_attrs widget) attrs)
                      (widget_choices widget)].

(** [HiddenInput().render(name, value)]. *)
Definition HiddenInput_render (name value : string) : SafeText :=
  [HiddenInputElement name value].

(** ** [ConditionsWidget] *)

(** A zero-argument callable producing a registry.  [factory_calls] counts
    the invocations made so far; the [n]-th invocation returns
    [factory_produce n], so that a class or a function building a fresh
    registry on every call is covered. *)
Record ChoicesFactory : Type := {
  factory_calls : nat;
  factory_produce : nat -> ConditionChoices
}.

Definition call_factory (f : ChoicesFactory)
  : ConditionChoices * ChoicesFactory :=
  (factory_produce f (factory_calls f),
   {| factory_calls := S (factory_calls f);
      factory_produce := factory_produce f |}).

(** [ConditionsWidgetChoices]: a registry or a callable returning one. *)
Inductive ConditionsWidgetChoices : Type :=
| ChoicesInstance (choices : ConditionChoices)
| ChoicesCallable (factory : ChoicesFactory).

Record ConditionsWidget : Type := {
  _orig_choices : ConditionsWidgetChoices;
  _choices : option ConditionChoices;
  mode_widget : ChoiceWidget;
  choice_widget : ChoiceWidget;
  operator_widget : ChoiceWidget;
  choice_kwargs : KwargsDict;
  condition_errors : gmap (option nat) string
}.

(** [ConditionsWidget.__init__]. *)
Definition ConditionsWidget__init__ (choices : ConditionsWidgetChoices)
    (mode_widget choice_widget operator_widget : ChoiceWidget)
    (choice_kwargs : option KwargsDict) : ConditionsWidget :=
  {| _orig_choices := choices;
     _choices := None;
     mode_widget := mode_widget;
     choice_widget := choice_widget;
     operator_widget := operator_widget;
     choice_kwargs := default [] choice_kwargs;
     condition_errors := ∅ |}.

Definition set_choices_cache (self : ConditionsWidget)
    (orig : ConditionsWidgetChoices) (cache : option ConditionChoices)
  : ConditionsWidget :=
  {| _orig_choices := orig;
     _choices := cache;
     mode_widget := mode_widget self;
     choice_widget := choice_widget self;
     operator_widget := operator_widget self;
     choice_kwargs := choice_kwargs self;
     condition_errors := condition_errors self |}.

Definition set_condition_errors (self : ConditionsWidget)
    (errors : gmap (option nat) string) : ConditionsWidget :=
  {| _orig_choices := _orig_choices self;
     _choices := _choices self;
     mode_widget := mode_widget self;
     choice_widget := choice_widget self;
     operator_widget := operator_widget self;
     choice_kwargs := choice_kwargs self;
     condition_errors := errors |}.

(** The [choices] property: returns the registry and the widget, whose
    cache it may have filled. *)
Definition choices (self : ConditionsWidget)
  : ConditionChoices * ConditionsWidget :=
  match _choices self with
  | Some choices => (choices, self)
  | None =>
      match _orig_choices self with
      | ChoicesCallable orig_choices =>
          let '(choices, orig_choices) := call_factory orig_choices in
          (choices,
           set_choices_cache self (ChoicesCallable orig_choices)
                             (Some choices))
      | ChoicesInstance orig_choices =>
          (orig_choices,
           set_choices_cache self (ChoicesInstance orig_choices)
                             (Some orig_choices))
      end
  end.

(** The [choices] setter. *)
Definition choices_setter (self : ConditionsWidget)
    (choices : ConditionsWidgetChoices) : ConditionsWidget :=
  set_choices_cache self choices None.

(** The invocations made so far of the callable the widget holds. *)
Definition factory_calls_of (self : ConditionsWidget) : nat :=
  match _orig_choices self with
  | ChoicesCallable f => factory_calls f
  | ChoicesInstance _ => 0
  end.

(** [n] successive reads of the [choices] property. *)
Fixpoint read_choices (n : nat) (self : ConditionsWidget)
  : list ConditionChoices * ConditionsWidget :=
  match n with
  | 0 => ([], self)
  | S n' =>
      let '(c, self) := choices self in
      let '(cs, self) := read_choices n' self in
      (c :: cs, self)
  end.

(** *** Value fields *)

(** [_normalize_value_field]. *)
Definition _normalize_value_field (value_field : ValueFieldOrCallable)
  : option BaseConditionValueField :=
  match value_field with
  | ValueFieldCallable f => f tt
  | ValueFieldInstance value_field => value_field
  end.

(** [_get_value_field]. *)
Definition _get_value_field (operator : BaseConditionOperator)
  : option BaseConditionValueField :=
  _normalize_value_field (value_field operator).

(** The dictionary built by [_serialize_value_field]. *)
Record SerializedValueField : Type := {
  model_className : string;
  model_data : pyval;
  view_className : string;
  view_data : pyval
}.

(** [_serialize_value_field]; [None] stands for the empty dictionary. *)
Definition _serialize_value_field
    (value_field : option BaseConditionValueField)
  : option SerializedValueField :=
  match value_field with
  | Some value_field =>
      Some {| model_className := js_model_class value_field;
              model_data := get_js_model_data value_field;
              view_className := js_view_class value_field;
              view_data := get_js_view_data value_field |}
  | None => None
  end.

(** The dictionary built by [_serialize_operator]; [operator_valueField]
    is [None] when the key ['valueField'] is absent. *)
Record SerializedOperator : Type := {
  operator_id_key : option string;
  operator_name_key : option string;
  useValue : bool;
  operator_valueField : option SerializedValueField
}.

(** [_serialize_operator]. *)
Definition _serialize_operator (operator : BaseConditionOperator)
  : SerializedOperator :=
  let value_field := _get_value_field operator in
  match value_field with
  | None =>
      {| operator_id_key := operator_id operator;
         operator_name_key := operator_name operator;
         useValue := false;
         operator_valueField := None |}
  | Some _ =>
      {| operator_id_key := operator_id operator;
         operator_name_key := operator_name operator;
         useValue := true;
         operator_valueField :=
           if has_custom_value_field operator then
             _serialize_value_field value_field
           else None |}
  end.

(** The dictionary built by [_serialize_choice]. *)
Record SerializedChoice : Type := {
  choice_id_key : string;
  choice_name_key : string;
  choice_valueField : option SerializedValueField;
  choice_operators : list SerializedOperator
}.

(** [_serialize_choice]. *)
Definition _serialize_choice (choice : BaseConditionChoice)
  : SerializedChoice :=
  {| choice_id_key := choice_id choice;
     choice_name_key := choice_name choice;
     choice_valueField :=
       _serialize_value_field
         (_normalize_value_field (default_value_field choice));
     choice_operators := map _serialize_operator (get_operators choice) |}.

(** *** [get_context] *)

(** One row of the serialized condition set: [{'choice': ..., 'op': ...,
    'value': ...}]; [VNone] is what [condition.get('value')] returns when
    the key is missing. *)
Record ConditionData : Type := {
  condition_choice : string;
  condition_op : string;
  condition_value : pyval
}.

(** The serialized condition set; [mode] is [None] when the key is
    missing. *)
Record ConditionSetData : Type := {
  mode : option string;
  conditions : list ConditionData
}.

(** An entry of [rendered_rows]. *)
Record RenderedRow : Type := {
  rendered_choice : SafeText;
  rendered_operator : SafeText;
  rendered_error : option string
}.

(** An entry of [rows] ([serialized_rows] in the context); [row_error] is
    [None] when the key ['error'] is absent. *)
Record RowData : Type := {
  choiceID : string;
  operatorID : string;
  row_value : pyval;
  valid : bool;
  row_error : option string
}.

(** The context returned by [get_context]. *)
Record WidgetContext : Type := {
  field_id : option string;
  field_name : string;
  rendered_mode : SafeText;
  rendered_rows : list RenderedRow;
  serialized_choices : list SerializedChoice;
  serialized_rows : list RowData
}.

(** Truth value of an optional string: neither [None] nor empty. *)
Definition truthy (s : option string) : bool :=
  match s with
  | Some s => negb (String.eqb s EmptyString)
  | None => false
  end.

Definition is_not_None {A : Type} (x : option A) : bool :=
  match x with Some _ => true | None => false end.

Definition choice_gone_message : string :=
  "This choice no longer exists. You will need to delete the condition "
  ++ "in order to make changes.".

Definition operator_gone_message : string :=
  "This operator no longer exists. You will need to delete the condition "
  ++ "in order to make changes.".

(** [dict(attrs, id=...)] when [widget_id] is truthy, [attrs] otherwise. *)
Definition with_id (widget_id : option string) (suffix : string)
    (attrs : Attrs) : Attrs :=
  match widget_id with
  | Some id =>
      if truthy widget_id then <["id" := (id ++ suffix)%string]> attrs
      else attrs
  | None => attrs
  end.

(** [_add_widget_choices]: [body] runs with [choices] appended to the
    widget's own; the widget's list is reset afterwards. *)
Definition _add_widget_choices {A : Type} (widget : ChoiceWidget)
    (choices : list (string * string)) (body : ChoiceWidget -> A) : A :=
  let old_choices := widget_choices widget in
  body {| widget_attrs := widget_attrs widget;
          widget_choices := old_choices ++ choices |}.

(** The [try] block of a row: the choice, the operator and the error the
    row ends up with. *)
Definition resolve_row (self : ConditionsWidget) (choices : ConditionChoices)
    (i : nat) (choice_id operator_id : string)
  : result (option BaseConditionChoice * option BaseConditionOperator
            * option string) :=
  match get_choice choices choice_id (choice_kwargs self) with
  | Ok choice =>
      match get_operator choice operator_id with
      | Ok operator =>
          Ok (Some choice, Some operator, condition_errors self !! Some i)
      | Raise (ConditionChoiceNotFoundError _ _) =>
          Ok (None, None, Some choice_gone_message)
      | Raise (ConditionOperatorNotFoundError _ _) =>
          Ok (Some choice, None, Some operator_gone_message)
      | Raise e => Raise e
      end
  | Raise (ConditionChoiceNotFoundError _ _) =>
      Ok (None, None, Some choice_gone_message)
  | Raise (ConditionOperatorNotFoundError _ _) =>
      Ok (None, None, Some operator_gone_message)
  | Raise e => Raise e
  end.

(** The list comprehension building [operator_items] from the operators
    of a choice: those with an id and a name. *)
Definition operator_items_of (choice : BaseConditionChoice)
  : list (string * string) :=
  omap (fun operator =>
          match operator_id operator, operator_name operator with
          | Some id, Some name => Some (id, name)
          | _, _ => None
          end)
       (default [] (operators choice)).

(** The body of the loop over [enumerate(value['conditions'])]: the entry
    appended to [rendered_rows], the one appended to [rows], and the new
    value of the loop-carried variable [widget_attrs].  The source also
    builds [value_attrs], which nothing reads; it is left out. *)
Definition render_row (self : ConditionsWidget) (choices : ConditionChoices)
    (name : string) (widget_id : option string) (widget_attrs : Attrs)
    (i : nat) (condition : ConditionData)
  : result (RenderedRow * RowData * Attrs) :=
  let choice_id := condition_choice condition in
  let operator_id := condition_op condition in
  let condition_value := condition_value condition in
  resolved ← resolve_row self choices i choice_id operator_id;
  let '(choice, operator, error) := resolved in
  let valid := is_not_None choice && is_not_None operator in
  let widget_attrs :=
    if valid then widget_attrs
    else <["disabled" := "disabled"]> widget_attrs in
  let choice_items :=
    match choice with
    | None => [(choice_id, choice_id)]
    | Some _ => []
    end in
  let operator_items :=
    match operator, choice with
    | Some _, Some choice => operator_items_of choice
    | _, _ => [(operator_id, operator_id)]
    end in
  let choice_name := (name ++ "_choice[" ++ pretty i ++ "]")%string in
  let choice_attrs :=
    with_id widget_id ("_choice_" ++ pretty i)%string widget_attrs in
  let rendered_choice :=
    _add_widget_choices (choice_widget self) choice_items
      (fun widget => Select_render widget choice_name choice_id choice_attrs)
  in
  let operator_name := (name ++ "_operator[" ++ pretty i ++ "]")%string in
  let operator_attrs :=
    with_id widget_id ("_operator_" ++ pretty i)%string widget_attrs in
  let rendered_operator :=
    _add_widget_choices (operator_widget self) operator_items
      (fun widget =>
         Select_render widget operator_name operator_id operator_attrs) in
  rendered ←
    (if valid then
       match operator with
       | None => Raise AssertionError
       | Some operator =>
           Ok (match _get_value_field operator with
               | Some value_field =>
                   prepare_value_for_widget value_field condition_value
               | None => condition_value
               end,
               rendered_choice, rendered_operator)
       end
     else
       Ok (condition_value,
           rendered_choice ++ HiddenInput_render choice_name choice_id,
           rendered_operator
           ++ HiddenInput_render operator_name operator_id));
  let '(condition_value, rendered_choice, rendered_operator) := rendered in
  Ok ({| rendered_choice := rendered_choice;
         rendered_operator := rendered_operator;
         rendered_error := error |},
      {| choiceID := choice_id;
         operatorID := operator_id;
         row_value := condition_value;
         valid := valid;
         row_error := if truthy error then error else None |},
      widget_attrs).

(** The loop itself, from row index [i] on. *)
Fixpoint render_rows (self : ConditionsWidget) (choices : ConditionChoices)
    (name : string) (widget_id : option string) (widget_attrs : Attrs)
    (i : nat) (conditions : list ConditionData)
    (rendered_rows : list RenderedRow) (rows : list RowData)
  : result (list RenderedRow * list RowData) :=
  match conditions with
  | [] => Ok (rendered_rows, rows)
  | condition :: conditions =>
      row ← render_row self choices name widget_id widget_attrs i condition;
      let '(rendered_row, row_data, widget_attrs) := row in
      render_rows self choices name widget_id widget_attrs (S i) conditions
                  (rendered_rows ++ [rendered_row]) (rows ++ [row_data])
  end.

(** [get_context(name, value, attrs)]: the context, and the widget after
    the read of its [choices] property. *)
Definition get_context (self : ConditionsWidget) (name : string)
    (value : ConditionSetData) (attrs : option Attrs)
  : result (WidgetContext * ConditionsWidget) :=
  let widget_attrs := build_attrs (default ∅ attrs) ∅ in
  let widget_id := widget_attrs !! "id" in
  let mode_attrs :=
    if truthy widget_id then
      <["id" := (name ++ "_mode")%string]> widget_attrs
    else widget_attrs in
  let rendered_mode :=
    RadioSelect_render (mode_widget self) (name ++ "_mode")%string
                       (default MODE_ALL (mode value)) mode_attrs in
  let '(choices, self) := choices self in
  loop ← render_rows self choices name widget_id widget_attrs 0
                     (conditions value) [] [];
  let '(rendered_rows, rows) := loop in
  Ok ({| field_id := widget_id;
         field_name := name;
         rendered_mode := rendered_mode;
         rendered_rows := rendered_rows;
         serialized_choices :=
           map _serialize_choice
               (get_choices choices (choice_kwargs self));
         serialized_rows := rows |},
      self).

(** ** [ConditionSet.deserialize] *)

(** Modelled from the spec: a resolved condition, of
    [djblets.conditions.conditions], which is not among the sources. *)
Record Condition : Type := {
  resolved_choice : BaseConditionChoice;
  resolved_operator : BaseConditionOperator;
  resolved_value : pyval
}.

(** Modelled from the spec: a condition set of
    [djblets.conditions.conditions]: a mode and the ordered conditions. *)
Record ConditionSet : Type := {
  set_mode : string;
  set_conditions : list Condition
}.

(** Modelled from the spec: the effective value field is the operator's
    custom value field if present, else the default value field of the
    choice, else none. *)
Definition effective_value_field (choice : BaseConditionChoice)
    (operator : BaseConditionOperator) : option BaseConditionValueField :=
  if has_custom_value_field operator then
    _normalize_value_field (value_field operator)
  else _normalize_value_field (default_value_field choice).

(** Modelled from the spec: deserialization of the row of index [i]:
    the choice id is resolved, then the operator id, each failure carrying
    the row index; with a value field, a missing value fails with
    [InvalidConditionValueError] tagged ['required'], and any other
    failure of the value field is surfaced with its own message. *)
Definition deserialize_condition (choices : ConditionChoices)
    (choice_kwargs : KwargsDict) (i : nat) (data : ConditionData)
  : result Condition :=
  match get_choice choices (condition_choice data) choice_kwargs with
  | Raise (ConditionChoiceNotFoundError msg _) =>
      Raise (ConditionChoiceNotFoundError msg (Some i))
  | Raise e => Raise e
  | Ok choice =>
      match get_operator choice (condition_op data) with
      | Raise (ConditionOperatorNotFoundError msg _) =>
          Raise (ConditionOperatorNotFoundError msg (Some i))
      | Raise e => Raise e
      | Ok operator =>
          match effective_value_field choice operator with
          | None =>
              Ok {| resolved_choice := choice;
                    resolved_operator := operator;
                    resolved_value := VNone |}
          | Some field =>
              match condition_value data with
              | VNone =>
                  Raise (InvalidConditionValueError
                           "A value is required." (Some "required") (Some i))
              | raw =>
                  match deserialize_value field raw with
                  | Ok v =>
                      Ok {| resolved_choice := choice;
                            resolved_operator := operator;
                            resolved_value := v |}
                  | Raise (ValidationError msg _) =>
                      Raise (InvalidConditionValueError msg None (Some i))
                  | Raise e => Raise e
                  end
              end
          end
      end
  end.

(** The rows in ascending index order, stopping at the first failure. *)
Fixpoint deserialize_conditions (choices : ConditionChoices)
    (choice_kwargs : KwargsDict) (i : nat) (rows : list ConditionData)
  : result (list Condition) :=
  match rows with
  | [] => Ok []
  | data :: rows =>
      condition ← deserialize_condition choices choice_kwargs i data;
      rest ← deserialize_conditions choices choice_kwargs (S i) rows;
      Ok (condition :: rest)
  end.

(** Modelled from the spec: [ConditionSet.deserialize(choices, data,
    choice_kwargs)]: every row is resolved, then the mode must be one of
    the three mode constants. *)
Definition deserialize (choices : ConditionChoices) (data : ConditionSetData)
    (choice_kwargs : KwargsDict) : result ConditionSet :=
  conditions ← deserialize_conditions choices choice_kwargs 0
                                      (conditions data);
  match mode data with
  | Some m =>
      if bool_decide (m = MODE_ALWAYS) || bool_decide (m = MODE_ALL)
         || bool_decide (m = MODE_ANY) then
        Ok {| set_mode := m; set_conditions := conditions |}
      else
        Raise (InvalidConditionModeError
                 (quoted m ++ " is not a valid condition mode."))
  | None =>
      Raise (InvalidConditionModeError
               (quoted "None" ++ " is not a valid condition mode."))
  end.

(** ** [ConditionsField] *)

(** The field's [error_messages], by key. *)
Record ErrorMessages : Type := {
  condition_errors_message : string;
  invalid_mode_message : string;
  value_required_message : string
}.

(** [ConditionsField.default_error_messages]. *)
Definition default_error_messages : ErrorMessages :=
  {| condition_errors_message :=
       "There was an error with one of your conditions.";
     invalid_mode_message :=
       "Must select either " ++ quoted "All" ++ " or " ++ quoted "Any" ++ ".";
     value_required_message := "A value is required for this condition." |}.

(** The state of a field that [to_python] reads and writes. *)
Record ConditionsField : Type := {
  widget : ConditionsWidget;
  error_messages : ErrorMessages
}.

Definition set_widget (self : ConditionsField) (widget : ConditionsWidget)
  : ConditionsField :=
  {| widget := widget; error_messages := error_messages self |}.

Section to_python.

(** [ConditionSet.deserialize], of [djblets.conditions.conditions], is
    not among the sources: [to_python] is given over any condition-set
    type and any deserializer. *)
Variable ConditionSetT : Type.
Variable deserialize_set :
  ConditionChoices -> ConditionSetData -> KwargsDict -> result ConditionSetT.

(** [to_python(value)]: what is returned or raised, and the field, whose
    widget it may have written to.  [value = None] stands for every
    false value. *)
Definition to_python (self : ConditionsField)
    (value : option ConditionSetData)
  : result (option ConditionSetT) * ConditionsField :=
  match value with
  | None => (Ok None, self)
  | Some value =>
      let '(choices, widget) := choices (widget self) in
      match deserialize_set choices value (choice_kwargs widget) with
      | Ok condition_set =>
          (Ok (Some condition_set), set_widget self widget)
      | Raise (InvalidConditionModeError msg) =>
          (Raise (ValidationError msg (Some "invalid_mode")),
           set_widget self widget)
      | Raise (ConditionChoiceNotFoundError msg condition_index)
      | Raise (ConditionOperatorNotFoundError msg condition_index) =>
          let message := msg in
          (Raise (ValidationError
                    (condition_errors_message (error_messages self))
                    (Some "condition_errors")),
           set_widget self
             (set_condition_errors widget
                (<[condition_index := message]>
                   (condition_errors widget))))
      | Raise (InvalidConditionValueError msg code condition_index) =>
          let message :=
            if bool_decide (code = Some "required") then
              value_required_message (error_messages self)
            else msg in
          (Raise (ValidationError
                    (condition_errors_message (error_messages self))
                    (Some "condition_errors")),
           set_widget self
             (set_condition_errors widget
                (<[condition_index := message]>
                   (condition_errors widget))))
      | Raise e => (Raise e, set_widget self widget)
      end
  end.

End to_python.

(** ** Sample registry, widget and field *)

Definition text_field : BaseConditionValueField :=
  {| js_model_class := "Djblets.Forms.ConditionValueField";
     get_js_model_data := VDict [];
     js_view_class := "Djblets.Forms.ConditionValueFormFieldView";
     get_js_view_data := VDict [];
     prepare_value_for_widget := fun v => v;
     deserialize_value := fun v => Ok v |}.

Definition is_operator : BaseConditionOperator :=
  {| operator_id := Some "is";
     operator_name := Some "Is";
     has_custom_value_field := false;
     value_field := ValueFieldInstance (Some text_field) |}.

Definition status_choice : BaseConditionChoice :=
  {| choice_id := "status";
     choice_name := "Status";
     default_value_field := ValueFieldInstance (Some text_field);
     operators := Some [is_operator] |}.

Definition sample_choices : ConditionChoices := [status_choice].

(** The widget a field builds: the three modes on the mode widget, the
    registry's choices on the choice widget, nothing on the operator
    widget. *)
Definition sample_widget : ConditionsWidget :=
  ConditionsWidget__init__
    (ChoicesCallable {| factory_calls := 0;
                        factory_produce := fun _ => sample_choices |})
    {| widget_attrs := ∅;
       widget_choices := [(MODE_ALWAYS, "Always match");
                          (MODE_ALL, "Match all of the following:");
                          (MODE_ANY, "Match any of the following:")] |}
    {| widget_attrs := ∅; widget_choices := [("status", "Status")] |}
    {| widget_attrs := ∅; widget_choices := [] |}
    None.

Definition sample_field : ConditionsField :=
  {| widget := sample_widget; error_messages := default_error_messages |}.

Definition row (choice op : string) (value : pyval) : ConditionData :=
  {| condition_choice := choice; condition_op := op;
     condition_value := value |}.

Definition rows_all (rows : list ConditionData) : ConditionSetData :=
  {| mode := Some MODE_ALL; conditions := rows |}.

(** The [disabled] attribute of a rendered choice element, if any. *)
Definition disabled_attr (h : Html) : option string :=
  match h with
  | SelectElement _ _ attrs _ => attrs !! "disabled"
  | RadioSelectElement _ _ attrs _ => attrs !! "disabled"
  | HiddenInputElement _ _ => None
  end.

(** A row is unresolved when its choice id, or else its operator id, is
    not found. *)
Definition unresolved (choices : ConditionChoices)
    (choice_kwargs : KwargsDict) (condition : ConditionData) : Prop :=
  match get_choice choices (condition_choice condition) choice_kwargs with
  | Ok choice =>
      match get_operator choice (condition_op condition) with
      | Ok _ => False
      | Raise _ => True
      end
  | Raise _ => True
  end.

(** The registry a widget resolves to on its first read when nothing is
    cached. *)
Definition first_resolution (self : ConditionsWidget) : ConditionChoices :=
  match _orig_choices self with
  | ChoicesCallable f => factory_produce f (factory_calls f)
  | ChoicesInstance c => c
  end.

(** * Other fields and widgets of [djblets.forms] *)

(** Built-in exceptions raised by the code below. *)
Inductive builtin_error : Type :=
| TypeError
| ValueError
| ZeroDivisionError.

Inductive outcome (A : Type) : Type :=
| Returns (a : A)
| Throws (e : builtin_error).
Arguments Returns {A} a.
Arguments Throws {A} e.

#[global] Instance outcome_ret : MRet outcome := fun A a => Returns a.
#[global] Instance outcome_bind : MBind outcome := fun A B f m =>
  match m with
  | Returns a => f a
  | Throws e => Throws e
  end.

(** [d[k] = v]: the value is replaced in place when [k] is a key of [d],
    and the item is appended otherwise. *)
Fixpoint dict_set (d : pydict) (k : pykey) (v : pyval) : pydict :=
  match d with
  | [] => [(k, v)]
  | (k', v') :: d' =>
      if decide (k' = k) then (k', v) :: d' else (k', v') :: dict_set d' k v
  end.

(** ** [ListEditDictionaryField] *)

Module ListEditDictionaryField.

(** What [prepare_value] may be given: [None], a list of (key, value)
    pairs, a dictionary, or something else. *)
Inductive Data : Type :=
| DataNone
| DataList (items : list (pykey * pyval))
| DataDict (d : pydict)
| DataOther (v : pyval).

(** The loop of [prepare_value] over [data.items()]. *)
Definition items_of (data : pydict) : list (pykey * pyval) :=
  fold_left (fun return_data item => return_data ++ [item]) data [].

(** [prepare_value(data)].  The message of the [ValueError], built from
    [repr(data)], is not represented. *)
Definition prepare_value (data : Data) : outcome (list (pykey * pyval)) :=
  match data with
  | DataNone => Returns (items_of [])
  | DataList items => Returns items
  | DataDict d => Returns (items_of d)
  | DataOther _ => Throws ValueError
  end.

(** The loop of [to_python] over the pairs left, with the dictionary
    built so far; [message] is [error_messages['duplicate_key_errors']]. *)
Fixpoint to_python_loop (message : string) (value : list (pykey * pyval))
    (return_dict : pydict) : result pydict :=
  match value with
  | [] => Ok return_dict
  | (key, val) :: value =>
      if dict_in key return_dict then
        Raise (ValidationError message (Some "duplicate_key_errors"))
      else to_python_loop message value (dict_set return_dict key val)
  end.

(** [to_python(value)]; [None] stands for [None]. *)
Definition to_python (message : string)
    (value : option (list (pykey * pyval))) : result pydict :=
  match value with
  | None | Some [] => Ok []
  | Some value => to_python_loop message value []
  end.

(** [default_error_messages['duplicate_key_errors']]. *)
Definition duplicate_key_errors : string := "All keys must be unique.".

End ListEditDictionaryField.

(** ** [AmountSelectorWidget] *)

Module AmountSelectorWidget.

(** The unit choices of the [Select] sub-widget: a conversion factor, or
    [None], and a name. *)
Abbreviation UnitChoices := (list (option Z * string)).

(** The [for] loop of [decompress] over the choices left (already in
    reversed order), with the current value of [unit_multiplier]; it
    returns the value [unit_multiplier] has when the loop ends or breaks.
    [value % 0] raises [ZeroDivisionError]. *)
Fixpoint decompress_loop (value : Z) (choices : UnitChoices)
    (unit_multiplier : option Z) : outcome (option Z) :=
  match choices with
  | [] => Returns unit_multiplier
  | choice :: choices =>
      let unit_multiplier := choice.1 in
      match unit_multiplier with
      | None => decompress_loop value choices unit_multiplier
      | Some m =>
          if (m =? 0)%Z then Throws ZeroDivisionError
          else if (value mod m =? 0)%Z then Returns unit_multiplier
          else decompress_loop value choices unit_multiplier
      end
  end.

(** [decompress(value)]: [value // None] raises [TypeError] and
    [value // 0] raises [ZeroDivisionError]. *)
Definition decompress (widget_choices : UnitChoices) (value : option Z)
  : outcome (option Z * option Z) :=
  match value with
  | None => Returns (None, None)
  | Some value =>
      unit_multiplier ← decompress_loop value (rev widget_choices) (Some 1%Z);
      match unit_multiplier with
      | None => Throws TypeError
      | Some m =>
          if (m =? 0)%Z then Throws ZeroDivisionError
          else Returns (Some (value / m)%Z, Some m)
      end
  end.

Section value_from_datadict.

(** Python's [int] on a string: the integer read, or [None] where [int]
    raises [ValueError]. *)
Variable int : string -> option Z.

(** [value_from_datadict(data, files, name)]: the two sub-widgets read
    [data.get(name + '_0')] and [data.get(name + '_1')];
    [int(None)] raises [TypeError]. *)
Definition value_from_datadict (data : gmap string string) (name : string)
  : outcome (option Z) :=
  let value := data !! (name ++ "_0")%string in
  let unit_multiplier := data !! (name ++ "_1")%string in
  match unit_multiplier with
  | None => Returns None
  | Some unit =>
      if bool_decide (unit = EmptyString) then Returns None
      else
        match value with
        | None => Throws TypeError
        | Some value =>
            match int value with
            | None => Throws ValueError
            | Some amount =>
                match int unit with
                | None => Throws ValueError
                | Some factor => Returns (Some (amount * factor)%Z)
                end
            end
        end
  end.

End value_from_datadict.

End AmountSelectorWidget.

(** A reader of plain decimal numerals, with an optional leading minus
    sign: what [int] returns on such strings.  It stands for [int] in
    examples. *)
Definition digit_of (c : ascii) : option Z :=
  let n := nat_of_ascii c in
  if (48 <=? n)%nat && (n <=? 57)%nat then Some (Z.of_nat (n - 48)) else None.

Fixpoint read_digits (s : string) (acc : Z) : option Z :=
  match s with
  | EmptyString => Some acc
  | String c s' =>
      match digit_of c with
      | Some d => read_digits s' (10 * acc + d)%Z
      | None => None
      end
  end.

Definition read_decimal (s : string) : option Z :=
  match s with
  | EmptyString => None
  | String c s' =>
      if Ascii.eqb c "-" then
        match s' with
        | EmptyString => None
        | _ => Z.opp <$> read_digits s' 0%Z
        end
      else read_digits s 0%Z
  end.

(** ** [ListEditField] *)

Module ListEditField.

(** Strings are read as sequences of code points below 256.  The
    characters [str.strip()] removes among them: 0x09-0x0D, 0x1C-0x20,
    0x85 and 0xA0. *)
Definition is_space (c : ascii) : bool :=
  let n := nat_of_ascii c in
  ((9 <=? n) && (n <=? 13) || (28 <=? n) && (n <=? 32)
   || (n =? 133) || (n =? 160))%nat.

(** [s.lstrip()]. *)
Fixpoint lstrip (s : string) : string :=
  match s with
  | EmptyString => EmptyString
  | String c s' => if is_space c then lstrip s' else s
  end.

(** [s.rstrip()]. *)
Fixpoint rstrip (s : string) : string :=
  match s with
  | EmptyString => EmptyString
  | String c s' =>
      match rstrip s' with
      | EmptyString => if is_space c then EmptyString else String c EmptyString
      | r => String c r
      end
  end.

(** [s.strip()]. *)
Definition strip (s : string) : string := rstrip (lstrip s).

(** The scan of [s.split(sep)] for a non-empty [sep]: [item] is the piece
    read so far and [skip] the number of characters of a separator just
    found that are still to be passed over. *)
Fixpoint split_from (sep s : string) (skip : nat) (item : string)
  : list string :=
  match s with
  | EmptyString => [item]
  | String c s' =>
      match skip with
      | S skip => split_from sep s' skip item
      | O =>
          if String.prefix sep s then
            item :: split_from sep s' (String.length sep - 1) EmptyString
          else split_from sep s' 0 (item ++ String c EmptyString)%string
      end
  end.

(** [s.split(sep)]: an empty separator raises [ValueError]. *)
Definition split (sep s : string) : outcome (list string) :=
  if bool_decide (sep = EmptyString) then Throws ValueError
  else Returns (split_from sep s 0 EmptyString).

(** [sep.join(items)]. *)
Fixpoint join (sep : string) (items : list string) : string :=
  match items with
  | [] => EmptyString
  | [item] => item
  | item :: items => (item ++ sep ++ join sep items)%string
  end.

(** What [prepare_value] may be given: [None], a list, a string, or
    something else. *)
Inductive Data : Type :=
| DataNone
| DataList (items : list string)
| DataStr (s : string)
| DataOther (v : pyval).

(** [prepare_value(data)], for a field of separator [sep]. *)
Definition prepare_value (sep : string) (data : Data)
  : outcome (list string) :=
  match data with
  | DataNone => items ← split sep EmptyString; Returns (map strip items)
  | DataList items => Returns items
  | DataStr s => items ← split sep s; Returns (map strip items)
  | DataOther _ => Throws ValueError
  end.

(** [to_python(value)] on a list of strings. *)
Definition to_python (sep : string) (value : list string) : string :=
  match value with
  | [] => EmptyString
  | _ => join sep (map strip value)
  end.

(** [c] occurs in [s]. *)
Fixpoint occurs (c : ascii) (s : string) : bool :=
  match s with
  | EmptyString => false
  | String c' s' => Ascii.eqb c c' || occurs c s'
  end.

End ListEditField.

(** ** [ConditionsWidget.value_from_datadict] *)

Section conditions_value_from_datadict.

(** Python's [int] on a string: the integer read, or [None] where [int]
    raises [ValueError]. *)
Variable int : string -> option Z.

(** [value_field.get_from_form_data(data, files, name)], of
    [djblets.conditions.values], which is not among the sources. *)
Variable get_from_form_data :
  BaseConditionValueField -> gmap string string -> string -> pyval.

(** A value read by [data.get(key)]. *)
Definition posted (v : option string) : pyval :=
  match v with
  | Some s => VStr s
  | None => VNone
  end.

(** [last_id]: [int(data[name + '_last_id']) + 1], and 0 when the key is
    missing ([KeyError]) or does not read as an integer ([ValueError]). *)
Definition last_id_of (data : gmap string string) (name : string) : Z :=
  match data !! (name ++ "_last_id")%string with
  | Some s =>
      match int s with
      | Some n => (n + 1)%Z
      | None => 0%Z
      end
  | None => 0%Z
  end.

(** The [try] block of the loop: the value of the row of index [i]. *)
Definition posted_row_value (self : ConditionsWidget)
    (choices : ConditionChoices) (data : gmap string string)
    (value_name choice_id operator_id : string) : result pyval :=
  match get_choice choices choice_id (choice_kwargs self) with
  | Ok choice =>
      match get_operator choice operator_id with
      | Ok operator =>
          match _get_value_field operator with
          | None => Ok VNone
          | Some value_field =>
              Ok (get_from_form_data value_field data value_name)
          end
      | Raise (ConditionChoiceNotFoundError _ _)
      | Raise (ConditionOperatorNotFoundError _ _) =>
          Ok (posted (data !! value_name))
      | Raise e => Raise e
      end
  | Raise (ConditionChoiceNotFoundError _ _)
  | Raise (ConditionOperatorNotFoundError _ _) =>
      Ok (posted (data !! value_name))
  | Raise e => Raise e
  end.

(** The loop over [range(last_id)], on the indices left, with the list
    [conditions] built so far. *)
Fixpoint posted_rows (self : ConditionsWidget) (choices : ConditionChoices)
    (data : gmap string string) (name : string) (indices : list nat)
    (conditions : list ConditionData) : result (list ConditionData) :=
  match indices with
  | [] => Ok conditions
  | i :: indices =>
      match data !! (name ++ "_choice[" ++ pretty i ++ "]")%string with
      | None => posted_rows self choices data name indices conditions
      | Some choice_id =>
          match data !! (name ++ "_operator[" ++ pretty i ++ "]")%string with
          | None => posted_rows self choices data name indices conditions
          | Some operator_id =>
              value ← posted_row_value self choices data
                        (name ++ "_value[" ++ pretty i ++ "]")%string
                        choice_id operator_id;
              posted_rows self choices data name indices
                (conditions ++ [{| condition_choice := choice_id;
                                   condition_op := operator_id;
                                   condition_value := value |}])
          end
      end
  end.

(** [value_from_datadict(data, files, name)]: the value of ['mode'], the
    list of ['conditions'], and the widget after the read of its
    [choices] property. *)
Definition value_from_datadict (self : ConditionsWidget)
    (data : gmap string string) (name : string)
  : result (option string * list ConditionData * ConditionsWidget) :=
  let last_id := last_id_of data name in
  let '(choices, self) := choices self in
  conditions ← posted_rows self choices data name
                           (seq 0 (Z.to_nat last_id)) [];
  Ok (data !! (name ++ "_mode")%string, conditions, self).

End conditions_value_from_datadict.

(** * Properties of the policy validator *)

(** ** Loops in the error monad *)

Lemma for_each_ok {A : Type} (body : A -> result unit) (l : list A) :
  for_each body l = Ok tt ↔ Forall (λ x, body x = Ok tt) l.
Proof.
  induction l as [|x l IH]; simpl.
  - split; [constructor | reflexivity].
  - rewrite Forall_cons, <- IH. unfold mbind, result_bind.
    destruct (body x) as [[]|e]; split; intros H;
      try discriminate; try tauto.
Qed.

Lemma for_each_first_raise {A : Type} (body : A -> result unit)
    (pre post : list A) (x : A) (e : exn) :
  Forall (λ y, body y = Ok tt) pre →
  body x = Raise e →
  for_each body (pre ++ x :: post) = Raise e.
Proof.
  intros Hpre Hx. induction Hpre as [|y pre Hy _ IH]; simpl.
  - unfold mbind, result_bind. now rewrite Hx.
  - unfold mbind, result_bind. now rewrite Hy.
Qed.

Lemma for_each_raise_inv {A : Type} (body : A -> result unit)
    (l : list A) (e : exn) :
  for_each body l = Raise e → ∃ x, x ∈ l ∧ body x = Raise e.
Proof.
  induction l as [|x l IH]; simpl; [discriminate|].
  unfold mbind, result_bind. destruct (body x) as [[]|e'] eqn:Hx.
  - intros H. destruct (IH H) as (y & Hy & Hby).
    exists y. split; [now apply list_elem_of_further | exact Hby].
  - intros [= ->]. exists x. split; [apply list_elem_of_here | exact Hx].
Qed.

(** ** Dictionaries as association lists *)

Lemma dict_get_elem_of (d : pydict) (k : pykey) (v : pyval) :
  dict_get d k = Some v → (k, v) ∈ d.
Proof.
  induction d as [|[k' v'] d IH]; simpl; [discriminate|].
  destruct (decide (k' = k)) as [->|Hne].
  - intros [= ->]. apply list_elem_of_here.
  - intros H. apply list_elem_of_further. auto.
Qed.

Lemma dict_in_true (d : pydict) (k : pykey) :
  dict_in k d = true ↔ ∃ v, dict_get d k = Some v.
Proof.
  unfold dict_in. destruct (dict_get d k) as [v|].
  - split; [eauto | reflexivity].
  - split; [discriminate | intros [v [=]]].
Qed.

Lemma dict_get_is_Some_of_elem (d : pydict) (k : pykey) (v : pyval) :
  (k, v) ∈ d → ∃ v', dict_get d k = Some v'.
Proof.
  induction d as [|[k' v'] d IH]; simpl.
  - intros H. inversion H.
  - intros H. destruct (decide (k' = k)) as [->|Hne]; [eauto|].
    apply IH. inversion H; subst; [congruence | assumption].
Qed.

Lemma dict_empty_true (d : pydict) : dict_empty d = true ↔ d = [].
Proof. destruct d; simpl; split; congruence. Qed.

Lemma elem_of_resource_policies_of (rs : pydict) (item : pykey * pyval) :
  item ∈ resource_policies_of rs ↔ item ∈ rs ∧ item.1 ≠ KStr "*".
Proof.
  unfold resource_policies_of. rewrite list_elem_of_filter. tauto.
Qed.

(** ** Sections *)

(** [_validate_policy_section] accepts exactly the values of the section
    shape, and otherwise raises a [ValidationError]. *)
Lemma validate_policy_section_ok (parent : pydict) (name : pykey)
    (full : string) (v : pyval) :
  dict_get parent name = Some v →
  (_validate_policy_section parent name full = Ok tt
   ↔ section_shape_ok v = true)
  ∧ (_validate_policy_section parent name full = Ok tt
     ∨ ∃ msg, _validate_policy_section parent name full
              = Raise (ValidationError msg None)).
Proof.
  intros Hget. unfold _validate_policy_section, section_shape_ok.
  rewrite Hget. destruct v as [| | | | |section];
    try (split; [split; intros; discriminate | right; eauto]).
  unfold dict_in.
  destruct (dict_get section (KStr "allow")) as [a|];
    destruct (dict_get section (KStr "block")) as [b|]; simpl;
    try destruct (is_list a); try destruct (is_list b); simpl;
    (split; [split; intros; (reflexivity || discriminate)
            | (left; reflexivity) || (right; eauto)]).
Qed.

Lemma validate_subsection_ok (pid : pykey) (section : pydict)
    (item : pykey * pyval) :
  item ∈ section →
  (validate_subsection pid section item = Ok tt
   ↔ is_str item.1 = true
     ∧ ∃ sv, dict_get section item.1 = Some sv ∧ section_shape_ok sv = true)
  ∧ (validate_subsection pid section item = Ok tt
     ∨ ∃ msg, validate_subsection pid section item
              = Raise (ValidationError msg None)).
Proof.
  intros Hin. destruct item as [sk sv0]; simpl in *.
  destruct (dict_get_is_Some_of_elem _ _ _ Hin) as [sv Hsv].
  unfold validate_subsection; simpl.
  destruct (is_str sk); simpl.
  - destruct (validate_policy_section_ok section sk
                ("resources." ++ str_of_key pid ++ "." ++ str_of_key sk)
                sv Hsv) as [Hiff Hcases].
    split; [|exact Hcases]. rewrite Hiff. split.
    + intros H. split; [reflexivity | eauto].
    + intros [_ (sv' & Hsv' & Hok)]. congruence.
  - split; [|right; eauto].
    split; [discriminate | intros [[=] _]].
Qed.

Lemma for_each_subsections_ok (pid : pykey) (section : pydict) :
  (for_each (validate_subsection pid section) section = Ok tt
   ↔ subsections_ok section)
  ∧ (for_each (validate_subsection pid section) section = Ok tt
     ∨ ∃ msg, for_each (validate_subsection pid section) section
              = Raise (ValidationError msg None)).
Proof.
  split.
  - rewrite for_each_ok, Forall_forall. unfold subsections_ok. split.
    + intros H sk sv Hget.
      pose proof (dict_get_elem_of _ _ _ Hget) as Hin.
      destruct (validate_subsection_ok pid section (sk, sv) Hin) as [Hiff _].
      apply Hiff in H; [|exact Hin]. simpl in H.
      destruct H as [Hstr (sv' & Hsv' & Hok)].
      split; [exact Hstr | congruence].
    + intros H [sk sv0] Hin.
      destruct (validate_subsection_ok pid section (sk, sv0) Hin) as [Hiff _].
      apply Hiff. simpl.
      destruct (dict_get_is_Some_of_elem _ _ _ Hin) as [sv Hsv].
      destruct (H sk sv Hsv) as [Hstr Hok]. eauto.
  - destruct (for_each (validate_subsection pid section) section)
      as [[]|e] eqn:Hfe; [left; reflexivity|right].
    destruct (for_each_raise_inv _ _ _ Hfe) as (item & Hin & Hraise).
    destruct (validate_subsection_ok pid section item Hin) as [_ [Hok|[msg Hmsg]]];
      [congruence|].
    exists msg. congruence.
Qed.

Lemma validate_resource_policy_ok (valid : gset pykey)
    (k : pykey) (section : pydict) :
  (validate_resource_policy valid (k, VDict section) = Ok tt
   ↔ k ∈ valid ∧ subsections_ok section)
  ∧ (validate_resource_policy valid (k, VDict section) = Ok tt
     ∨ ∃ msg, validate_resource_policy valid (k, VDict section)
              = Raise (ValidationError msg None)).
Proof.
  unfold validate_resource_policy; simpl.
  destruct (decide (k ∈ valid)) as [Hin|Hnin].
  - destruct (for_each_subsections_ok k section) as [Hiff Hcases].
    split; [rewrite Hiff; tauto | exact Hcases].
  - split; [|right; eauto].
    split; [discriminate | tauto].
Qed.

(** ** The steps of [validate_policy] on a non-empty [resources] section *)

Lemma validate_policy_resources (cls : TokenClass) (policy rs : pydict) :
  dict_get policy (KStr "resources") = Some (VDict rs) →
  rs ≠ [] →
  validate_policy cls (VDict policy) =
    ((if dict_in (KStr "*") rs then
        _validate_policy_section rs (KStr "*") "resources.*"
      else Ok tt) ;;
     if dict_empty (resource_policies_of rs) then Ok tt
     else
       root ← get_root_resource cls;
       for_each (validate_resource_policy (_get_valid_policy_ids root ∅))
                (resource_policies_of rs)).
Proof.
  intros Hget Hne. unfold validate_policy.
  destruct policy as [|item policy]; [discriminate|].
  cbn [dict_empty]. rewrite Hget.
  destruct rs as [|r rs]; [congruence|]. reflexivity.
Qed.

(** ** Induction over resource trees *)

Lemma Resource_tree_ind (P : Resource → Prop) :
  (∀ pid list_children item_children,
      Forall P list_children → Forall P item_children →
      P (mkResource pid list_children item_children)) →
  ∀ r, P r.
Proof.
  intros Hnode. fix IH 1. intros [pid lc ic]. apply Hnode.
  - induction lc as [|c lc IHlc]; constructor; [apply IH | exact IHlc].
  - induction ic as [|c ic IHic]; constructor; [apply IH | exact IHic].
Qed.

Lemma fold_valid_policy_ids (children : list Resource) :
  Forall (λ c, ∀ acc x,
            x ∈ _get_valid_policy_ids c acc
            ↔ x ∈ acc ∨ ∃ n, node_of n c ∧ policy_id n = Some x) children →
  ∀ acc x,
    x ∈ fold_left (λ acc c, _get_valid_policy_ids c acc) children acc
    ↔ x ∈ acc ∨ ∃ c n, c ∈ children ∧ node_of n c ∧ policy_id n = Some x.
Proof.
  induction 1 as [|c children Hc _ IH]; intros acc x; simpl.
  - split; [tauto|]. intros [H|(c & n & Hin & _)]; [exact H|].
    inversion Hin.
  - rewrite IH, Hc. split.
    + intros [[H|(n & Hn & Hid)]|(c' & n & Hin & Hn & Hid)].
      * now left.
      * right. exists c, n. split; [apply list_elem_of_here | tauto].
      * right. exists c', n. split; [now apply list_elem_of_further | tauto].
    + intros [H|(c' & n & Hin & Hn & Hid)]; [tauto|].
      apply elem_of_cons in Hin as [->|Hin].
      * left. right. eauto.
      * right. eauto.
Qed.

(** The set returned holds what the accumulator held and the [policy_id]
    of every node of the tree that has one. *)
Lemma get_valid_policy_ids_elem_of (r : Resource) :
  ∀ acc x,
    x ∈ _get_valid_policy_ids r acc
    ↔ x ∈ acc ∨ ∃ n, node_of n r ∧ policy_id n = Some x.
Proof.
  induction r as [pid lc ic IHlc IHic] using Resource_tree_ind.
  intros acc x. cbn [_get_valid_policy_ids].
  rewrite (fold_valid_policy_ids ic IHic), (fold_valid_policy_ids lc IHlc).
  split.
  - intros [[Hx|(c & n & Hin & Hn & Hid)]|(c & n & Hin & Hn & Hid)].
    + destruct pid as [p|].
      * apply elem_of_union in Hx as [Hx|Hx]; [|now left].
        apply elem_of_singleton in Hx as ->.
        right. exists (mkResource (Some p) lc ic).
        split; [constructor | reflexivity].
      * now left.
    + right. exists n. split; [|exact Hid].
      eapply node_list_child; [exact Hin | exact Hn].
    + right. exists n. split; [|exact Hid].
      eapply node_item_child; [exact Hin | exact Hn].
  - intros [Hx|(n & Hn & Hid)].
    + left. left. destruct pid; [apply elem_of_union; now right | exact Hx].
    + inversion Hn as [r' Heq|n' c r' Hin Hnc Heq|n' c r' Hin Hnc Heq]; subst.
      * left. left. simpl in Hid. subst pid.
        apply elem_of_union. left. now apply elem_of_singleton.
      * left. right. exists c, n. simpl in Hin. tauto.
      * right. exists c, n. simpl in Hin. tauto.
Qed.

(** ** The claims on [validate_policy] *)

(** C3: [_get_valid_policy_ids] collects, by a walk of the resource tree
    through both the list children and the item children, the [policy_id]
    of exactly the nodes that have that attribute; on the tree
    [A -> [B, C]] with ids ["root"], ["b"] and none, the result is
    exactly [{"root", "b"}]. *)
Theorem get_valid_policy_ids_collects :
  (∀ (r : Resource) (x : pykey),
      x ∈ _get_valid_policy_ids r ∅
      ↔ ∃ n, node_of n r ∧ policy_id n = Some x)
  ∧ _get_valid_policy_ids resourceA ∅ = {[ KStr "root"; KStr "b" ]}.
Proof.
  split.
  - intros r x. rewrite get_valid_policy_ids_elem_of.
    split; [intros [H|H]; [set_solver | exact H] | intros H; now right].
  - apply set_eq. intros x. rewrite get_valid_policy_ids_elem_of. split.
    + intros [H|(n & Hn & Hid)]; [set_solver|].
      inversion Hn as [r' Heq|n' c r' Hin Hnc Heq|n' c r' Hin Hnc Heq]; subst.
      * simpl in Hid. injection Hid as <-. set_solver.
      * simpl in Hin. apply elem_of_cons in Hin as [->|Hin].
        -- inversion Hnc as [r' Heq|n' c r' Hin' _ Heq|n' c r' Hin' _ Heq];
             subst; simpl in *; [|inversion Hin'..].
           injection Hid as <-. set_solver.
        -- apply elem_of_cons in Hin as [->|Hin]; [|inversion Hin].
           inversion Hnc as [r' Heq|n' c r' Hin' _ Heq|n' c r' Hin' _ Heq];
             subst; simpl in *; [discriminate|inversion Hin'..].
      * simpl in Hin. inversion Hin.
    + intros Hx. right.
      apply elem_of_union in Hx as [Hx|Hx]; apply elem_of_singleton in Hx as ->.
      * exists resourceA. split; [constructor | reflexivity].
      * exists resourceB. split; [|reflexivity].
        eapply node_list_child; [|constructor]. simpl. apply list_elem_of_here.
Qed.

(** C7: the empty mapping is accepted, whatever the token class: nothing
    else is looked at, not even [get_root_resource]. *)
Theorem validate_policy_empty (cls : TokenClass) :
  validate_policy cls (VDict []) = Ok tt.
Proof. reflexivity. Qed.

(** C8: a non-empty policy is rejected with a [ValidationError] when the
    ["resources"] key is missing, when its value is not a mapping, and when
    it is the empty mapping. *)
Theorem validate_policy_needs_resources (cls : TokenClass) (policy : pydict) :
  policy ≠ [] →
  (dict_get policy (KStr "resources") = None →
   validate_policy cls (VDict policy)
   = Raise (ValidationError
              ("The policy is missing a " ++ quoted "resources"
               ++ " section.") None))
  ∧ (∀ v, dict_get policy (KStr "resources") = Some v →
          (∀ rs, v ≠ VDict rs) →
          validate_policy cls (VDict policy)
          = Raise (ValidationError
                     ("The policy's " ++ quoted "resources"
                      ++ " section must be a JSON object.") None))
  ∧ (dict_get policy (KStr "resources") = Some (VDict []) →
     validate_policy cls (VDict policy)
     = Raise (ValidationError
                ("The policy's " ++ quoted "resources"
                 ++ " section must not be empty.") None))
  ∧ ((¬ ∃ rs, dict_get policy (KStr "resources") = Some (VDict rs)
              ∧ rs ≠ []) →
     ∃ msg, validate_policy cls (VDict policy) = Raise (ValidationError msg None)).
Proof.
  intros Hne. unfold validate_policy.
  destruct policy as [|item policy]; [congruence|]. cbn [dict_empty].
  repeat split.
  - intros ->. reflexivity.
  - intros v -> Hv. destruct v; try reflexivity. now destruct (Hv items).
  - intros ->. reflexivity.
  - intros Hnone.
    destruct (dict_get (item :: policy) (KStr "resources")) as [v|];
      [|eauto].
    destruct v as [| | | | |rs]; eauto.
    destruct rs as [|r rs]; [eauto|].
    destruct Hnone. exists (r :: rs). split; [reflexivity | discriminate].
Qed.

(** C10: when every key of the [resources] section is the wildcard, the
    outcome is the one of the wildcard section alone, for every token
    class: [get_root_resource] plays no part, so the abstract base class,
    whose [get_root_resource] raises [NotImplementedError], accepts a
    well-formed wildcard-only policy and never raises that error. *)
Theorem validate_policy_wildcard_only (cls : TokenClass)
    (policy rs : pydict) :
  dict_get policy (KStr "resources") = Some (VDict rs) →
  rs ≠ [] →
  Forall (λ item, item.1 = KStr "*") rs →
  validate_policy cls (VDict policy)
  = _validate_policy_section rs (KStr "*") "resources.*"
  ∧ validate_policy cls (VDict policy)
    = validate_policy BaseWebAPIToken (VDict policy)
  ∧ validate_policy BaseWebAPIToken (VDict policy) ≠ Raise NotImplementedError
  ∧ (∀ v, dict_get rs (KStr "*") = Some v → section_shape_ok v = true →
          validate_policy BaseWebAPIToken (VDict policy) = Ok tt).
Proof.
  intros Hget Hne Hall.
  assert (Hnamed : resource_policies_of rs = []).
  { apply elem_of_nil_inv. intros item Hin.
    apply elem_of_resource_policies_of in Hin as [Hin Hk].
    rewrite Forall_forall in Hall. apply Hk, Hall, Hin. }
  assert (Hstar : ∃ v, dict_get rs (KStr "*") = Some v).
  { destruct rs as [|[k v] rs]; [congruence|].
    apply Forall_cons in Hall as [Hk _]. simpl in Hk. subst k.
    exists v. cbn [dict_get]. now rewrite decide_True. }
  assert (Heq : ∀ c, validate_policy c (VDict policy)
                     = _validate_policy_section rs (KStr "*") "resources.*").
  { intros c. rewrite (validate_policy_resources c policy rs Hget Hne).
    rewrite Hnamed. cbn [dict_empty].
    rewrite (proj2 (dict_in_true rs (KStr "*")) Hstar).
    unfold mbind, result_bind.
    now destruct (_validate_policy_section rs (KStr "*") "resources.*")
      as [[]|e]. }
  destruct Hstar as [v0 Hv0].
  destruct (validate_policy_section_ok rs (KStr "*") "resources.*" v0 Hv0)
    as [Hiff Hcases].
  repeat split.
  - apply Heq.
  - now rewrite !Heq.
  - rewrite Heq. destruct Hcases as [->|[msg ->]]; discriminate.
  - intros v Hv Hok. rewrite Heq. apply Hiff. congruence.
Qed.

Lemma resource_policies_of_split (pre post : pydict) (k : pykey)
    (v : pyval) :
  k ≠ KStr "*" →
  resource_policies_of (pre ++ (k, v) :: post)
  = resource_policies_of pre ++ (k, v) :: resource_policies_of post.
Proof.
  intros Hk. unfold resource_policies_of.
  now rewrite filter_app, filter_cons_True.
Qed.

(** C2: the wildcard section is validated first, wherever ["*"] sits in
    the mapping, and is not subject to the membership check: a policy
    whose wildcard section passes is accepted as soon as every section
    under another key passes, whether or not ["*"] is a valid policy id;
    every key other than ["*"] of an accepted policy is a valid policy
    id; and the first key other than ["*"] that is not one, once every
    section under another key than ["*"] before it has passed, makes the
    call raise the [ValidationError] that names it. *)
Theorem validate_policy_wildcard_then_named (cls : TokenClass)
    (policy rs : pydict) :
  dict_get policy (KStr "resources") = Some (VDict rs) →
  rs ≠ [] →
  let wildcard :=
    if dict_in (KStr "*") rs then
      _validate_policy_section rs (KStr "*") "resources.*"
    else Ok tt in
  (∀ e, wildcard = Raise e → validate_policy cls (VDict policy) = Raise e)
  ∧ (∀ root,
        get_root_resource cls = Ok root →
        wildcard = Ok tt →
        (∀ k v, (k, v) ∈ rs → k ≠ KStr "*" →
                validate_resource_policy (_get_valid_policy_ids root ∅)
                                         (k, v) = Ok tt) →
        validate_policy cls (VDict policy) = Ok tt)
  ∧ (validate_policy cls (VDict policy) = Ok tt →
     ∀ k v, (k, v) ∈ rs → k ≠ KStr "*" →
            ∃ root, get_root_resource cls = Ok root
                    ∧ k ∈ _get_valid_policy_ids root ∅)
  ∧ (∀ root pre k v post,
        get_root_resource cls = Ok root →
        wildcard = Ok tt →
        rs = pre ++ (k, v) :: post →
        k ≠ KStr "*" →
        (∀ k' v', (k', v') ∈ pre → k' ≠ KStr "*" →
                  validate_resource_policy (_get_valid_policy_ids root ∅)
                                           (k', v') = Ok tt) →
        k ∉ _get_valid_policy_ids root ∅ →
        validate_policy cls (VDict policy)
        = Raise (ValidationError
                   (quoted (str_of_key k)
                    ++ " is not a valid resource policy ID.") None)).
Proof.
  intros Hget Hne wildcard.
  rewrite (validate_policy_resources cls policy rs Hget Hne).
  fold wildcard. unfold mbind, result_bind.
  split; [|split; [|split]].
  - intros e ->. reflexivity.
  - intros root -> -> Hall.
    destruct (dict_empty (resource_policies_of rs)); [reflexivity|].
    apply for_each_ok, Forall_forall. intros [k v] Hin.
    apply elem_of_resource_policies_of in Hin as [Hin Hk].
    now apply Hall.
  - intros Hok k v Hin Hk.
    destruct wildcard as [[]|e]; [|discriminate].
    assert (Hnamed : (k, v) ∈ resource_policies_of rs)
      by now apply elem_of_resource_policies_of.
    destruct (resource_policies_of rs) as [|item named] eqn:Hrp;
      [inversion Hnamed|]. cbn [dict_empty] in Hok.
    destruct (get_root_resource cls) as [root|e]; [|discriminate].
    exists root. split; [reflexivity|].
    apply for_each_ok in Hok. rewrite Forall_forall in Hok.
    specialize (Hok _ Hnamed). unfold validate_resource_policy in Hok.
    simpl in Hok.
    now destruct (decide (k ∈ _get_valid_policy_ids root ∅)).
  - intros root pre k v post -> -> -> Hk Hpre Hnin.
    rewrite (resource_policies_of_split pre post k v Hk).
    replace (dict_empty (resource_policies_of pre
                         ++ (k, v) :: resource_policies_of post))
      with false by now destruct (resource_policies_of pre).
    apply for_each_first_raise.
    + apply Forall_forall. intros [k' v'] Hin.
      apply elem_of_resource_policies_of in Hin as [Hin Hk'].
      now apply Hpre.
    + unfold validate_resource_policy; simpl.
      now rewrite decide_False.
Qed.

(** C6, as the code has it: with every named section a mapping, the
    policy is accepted exactly when the wildcard section, if present, has
    the section shape and every named section has a valid policy id, only
    string keys, and values that each have the section shape; otherwise a
    [ValidationError] is raised. *)
Theorem validate_policy_section_shapes (cls : TokenClass) (root : Resource)
    (policy rs : pydict) :
  dict_get policy (KStr "resources") = Some (VDict rs) →
  rs ≠ [] →
  get_root_resource cls = Ok root →
  (∀ k v, (k, v) ∈ rs → k ≠ KStr "*" → ∃ section, v = VDict section) →
  (validate_policy cls (VDict policy) = Ok tt
   ↔ (∀ v, dict_get rs (KStr "*") = Some v → section_shape_ok v = true)
     ∧ (∀ k section, (k, VDict section) ∈ rs → k ≠ KStr "*" →
                     k ∈ _get_valid_policy_ids root ∅
                     ∧ subsections_ok section))
  ∧ (validate_policy cls (VDict policy) = Ok tt
     ∨ ∃ msg, validate_policy cls (VDict policy)
              = Raise (ValidationError msg None)).
Proof.
  intros Hget Hne Hroot Hdicts.
  rewrite (validate_policy_resources cls policy rs Hget Hne), Hroot.
  set (valid := _get_valid_policy_ids root ∅).
  assert (Hloop :
    (for_each (validate_resource_policy valid) (resource_policies_of rs)
     = Ok tt
     ↔ ∀ k section, (k, VDict section) ∈ rs → k ≠ KStr "*" →
                    k ∈ valid ∧ subsections_ok section)
    ∧ (for_each (validate_resource_policy valid) (resource_policies_of rs)
       = Ok tt
       ∨ ∃ msg, for_each (validate_resource_policy valid)
                         (resource_policies_of rs)
                = Raise (ValidationError msg None))).
  { split.
    - rewrite for_each_ok, Forall_forall. split.
      + intros H k section Hin Hk.
        apply (validate_resource_policy_ok valid k section), H.
        now apply elem_of_resource_policies_of.
      + intros H [k v] Hin.
        apply elem_of_resource_policies_of in Hin as [Hin Hk].
        destruct (Hdicts k v Hin Hk) as [section ->].
        apply validate_resource_policy_ok. now apply H.
    - destruct (for_each (validate_resource_policy valid)
                  (resource_policies_of rs)) as [[]|e] eqn:Hfe;
        [now left | right].
      destruct (for_each_raise_inv _ _ _ Hfe) as ([k v] & Hin & Hraise).
      apply elem_of_resource_policies_of in Hin as [Hin Hk].
      destruct (Hdicts k v Hin Hk) as [section ->].
      destruct (validate_resource_policy_ok valid k section)
        as [_ [Hok|[msg Hmsg]]]; [congruence|].
      exists msg. congruence. }
  destruct Hloop as [Hloop_iff Hloop_cases].
  assert (Hnamed_nil : dict_empty (resource_policies_of rs) = true →
            for_each (validate_resource_policy valid)
                     (resource_policies_of rs) = Ok tt).
  { intros H. apply dict_empty_true in H. now rewrite H. }
  assert (Htail :
    (if dict_empty (resource_policies_of rs) then Ok tt
     else Ok root ≫= λ root0,
            for_each (validate_resource_policy
                        (_get_valid_policy_ids root0 ∅))
                     (resource_policies_of rs))
    = for_each (validate_resource_policy valid) (resource_policies_of rs)).
  { destruct (dict_empty (resource_policies_of rs)) eqn:He;
      [now rewrite Hnamed_nil | reflexivity]. }
  rewrite Htail. clear Htail Hnamed_nil.
  unfold dict_in.
  destruct (dict_get rs (KStr "*")) as [v0|] eqn:Hstar.
  - destruct (validate_policy_section_ok rs (KStr "*") "resources.*" v0 Hstar)
      as [Hiff Hcases].
    unfold mbind, result_bind.
    destruct (_validate_policy_section rs (KStr "*") "resources.*")
      as [[]|e] eqn:Hw.
    + split; [|exact Hloop_cases]. rewrite Hloop_iff. split.
      * intros H. split; [|exact H].
        intros v [= <-]. now apply Hiff.
      * tauto.
    + split.
      * split; [discriminate|]. intros [H _].
        specialize (H v0 eq_refl). apply Hiff in H. discriminate.
      * right. destruct Hcases as [Hc|[msg Hc]]; [discriminate|].
        exists msg. congruence.
  - unfold mbind, result_bind.
    split; [|exact Hloop_cases]. rewrite Hloop_iff. split.
    + intros H. split; [intros v [=] | exact H].
    + tauto.
Qed.

(** ** The claims at concrete policies *)

Lemma bogus_not_valid :
  KStr "bogus" ∉ _get_valid_policy_ids resourceA ∅.
Proof.
  rewrite get_valid_policy_ids_elem_of.
  intros [H|(n & Hn & Hid)]; [set_solver|].
  inversion Hn as [r' Heq|n' c r' Hin Hnc Heq|n' c r' Hin Hnc Heq]; subst;
    simpl in *; [discriminate| |inversion Hin].
  apply elem_of_cons in Hin as [->|Hin];
    [|apply elem_of_cons in Hin as [->|Hin]; [|inversion Hin]];
    inversion Hnc as [r' Heq|n' c r' Hin' _ Heq|n' c r' Hin' _ Heq]; subst;
    simpl in *; try discriminate; inversion Hin'.
Qed.

Lemma root_valid : KStr "root" ∈ _get_valid_policy_ids resourceA ∅.
Proof.
  rewrite get_valid_policy_ids_elem_of. right.
  exists resourceA. split; [constructor | reflexivity].
Qed.

(** A policy with no ["resources"] key is rejected. *)
Lemma validate_policy_needs_resources_witness :
  validate_policy BaseWebAPIToken (VDict [(KStr "rules", VList [])])
  = Raise (ValidationError
             ("The policy is missing a " ++ quoted "resources" ++ " section.")
             None).
Proof.
  destruct (validate_policy_needs_resources BaseWebAPIToken
              [(KStr "rules", VList [])]) as (Hmissing & _);
    [discriminate|].
  apply Hmissing. reflexivity.
Defined.

(** [{"resources": {"*": {"allow": ["x"]}}}] on the abstract base class. *)
Lemma validate_policy_wildcard_only_witness :
  validate_policy BaseWebAPIToken
    (policy_of_resources [(KStr "*", allow_x)]) = Ok tt.
Proof.
  destruct (validate_policy_wildcard_only BaseWebAPIToken
              [(KStr "resources", VDict [(KStr "*", allow_x)])]
              [(KStr "*", allow_x)])
    as (_ & _ & _ & Hok).
  - reflexivity.
  - discriminate.
  - repeat constructor.
  - apply (Hok allow_x); reflexivity.
Defined.

Lemma wildcard_not_valid :
  KStr "*" ∉ _get_valid_policy_ids resourceA ∅.
Proof.
  rewrite get_valid_policy_ids_elem_of.
  intros [H|(n & Hn & Hid)]; [set_solver|].
  inversion Hn as [r' Heq|n' c r' Hin Hnc Heq|n' c r' Hin Hnc Heq]; subst;
    simpl in *; [discriminate| |inversion Hin].
  apply elem_of_cons in Hin as [->|Hin];
    [|apply elem_of_cons in Hin as [->|Hin]; [|inversion Hin]];
    inversion Hnc as [r' Heq|n' c r' Hin' _ Heq|n' c r' Hin' _ Heq]; subst;
    simpl in *; try discriminate; inversion Hin'.
Qed.

(** With ["*"] not a valid policy id of the tree:
    [{"resources": {"*": {"allow": ["x"]}, "bogus": {"allow": ["y"]}}}],
    the wildcard first in iteration order, fails naming ["bogus"], not
    ["*"]; and [{"resources": {"*": {"allow": ["x"]},
    "root": {"*": {"allow": ["y"]}}}}] is accepted. *)
Lemma validate_policy_wildcard_then_named_witness :
  (KStr "*" ∉ _get_valid_policy_ids resourceA ∅)
  ∧ validate_policy (TokenWithRoot resourceA)
      (policy_of_resources [(KStr "*", allow_x); (KStr "bogus", allow_y)])
    = Raise (ValidationError
               (quoted "bogus" ++ " is not a valid resource policy ID.")
               None)
  ∧ validate_policy (TokenWithRoot resourceA)
      (policy_of_resources
         [(KStr "*", allow_x); (KStr "root", VDict [(KStr "*", allow_y)])])
    = Ok tt.
Proof.
  split; [exact wildcard_not_valid|]. split.
  - destruct (validate_policy_wildcard_then_named (TokenWithRoot resourceA)
                [(KStr "resources",
                  VDict [(KStr "*", allow_x); (KStr "bogus", allow_y)])]
                [(KStr "*", allow_x); (KStr "bogus", allow_y)])
      as (_ & _ & _ & Hfirst).
    + reflexivity.
    + discriminate.
    + apply (Hfirst resourceA [(KStr "*", allow_x)] (KStr "bogus")
               allow_y []).
      * reflexivity.
      * reflexivity.
      * reflexivity.
      * discriminate.
      * intros k' v' Hin Hk'. apply list_elem_of_singleton in Hin.
        injection Hin as -> _. congruence.
      * exact bogus_not_valid.
  - destruct (validate_policy_wildcard_then_named (TokenWithRoot resourceA)
                [(KStr "resources",
                  VDict [(KStr "*", allow_x);
                         (KStr "root", VDict [(KStr "*", allow_y)])])]
                [(KStr "*", allow_x);
                 (KStr "root", VDict [(KStr "*", allow_y)])])
      as (_ & Haccept & _).
    + reflexivity.
    + discriminate.
    + apply (Haccept resourceA).
      * reflexivity.
      * reflexivity.
      * intros k v Hin Hk.
        apply elem_of_cons in Hin as [Heq|Hin];
          [injection Heq as -> _; congruence|].
        apply list_elem_of_singleton in Hin. injection Hin as -> ->.
        unfold validate_resource_policy. cbn [fst snd].
        rewrite decide_True by exact root_valid. reflexivity.
Defined.

(** C6 as stated fails on a named section: [{"resources": {"root": {}}}]
    has a section with neither ["allow"] nor ["block"] and is accepted,
    and [{"resources": {"root": {"allow": ["x"]}}}], whose section has the
    shape asked for, is rejected because ["allow"] is read as a subsection
    name. *)
Lemma named_section_shape_counterexample :
  (section_shape_ok (VDict []) = false
   ∧ validate_policy (TokenWithRoot resourceA)
       (policy_of_resources [(KStr "root", VDict [])]) = Ok tt)
  ∧ (section_shape_ok allow_x = true
     ∧ validate_policy (TokenWithRoot resourceA)
         (policy_of_resources [(KStr "root", allow_x)])
       = Raise (ValidationError
                  ("The " ++ quoted "resources.root.allow"
                   ++ " section must be a JSON object.") None)).
Proof.
  repeat split; vm_compute; reflexivity.
Qed.

(** [{"resources": {"root": {"*": {"allow": ["x"]}}}}] is accepted. *)
Lemma validate_policy_section_shapes_witness :
  validate_policy (TokenWithRoot resourceA)
    (policy_of_resources [(KStr "root", VDict [(KStr "*", allow_x)])])
  = Ok tt.
Proof.
  destruct (validate_policy_section_shapes (TokenWithRoot resourceA) resourceA
              [(KStr "resources",
                VDict [(KStr "root", VDict [(KStr "*", allow_x)])])]
              [(KStr "root", VDict [(KStr "*", allow_x)])])
    as [Hiff _].
  - reflexivity.
  - discriminate.
  - reflexivity.
  - intros k v Hin _. apply list_elem_of_singleton in Hin.
    injection Hin as -> ->. eauto.
  - apply Hiff. split.
    + intros v. cbn. discriminate.
    + intros k section Hin _. apply list_elem_of_singleton in Hin.
      injection Hin as -> ->. split; [exact root_valid|].
      intros sk sv. cbn [dict_get].
      destruct (decide (KStr "*" = sk)) as [<-|Hne]; [|discriminate].
      intros [= <-]. split; reflexivity.
Defined.

(** * Properties of the conditions widget *)

(** ** The lazy [choices] binding *)

Lemma choices_fills_cache (self : ConditionsWidget) :
  _choices (choices self).2 = Some (choices self).1.
Proof.
  unfold choices. destruct (_choices self) as [c|] eqn:Hc; [exact Hc|].
  destruct (_orig_choices self) as [c|f]; reflexivity.
Qed.

Lemma choices_cached (self : ConditionsWidget) (c : ConditionChoices) :
  _choices self = Some c → choices self = (c, self).
Proof. intros H. unfold choices. now rewrite H. Qed.

Lemma choices_first (self : ConditionsWidget) :
  _choices self = None →
  (choices self).1 = first_resolution self
  ∧ factory_calls_of (choices self).2
    = match _orig_choices self with
      | ChoicesCallable _ => S (factory_calls_of self)
      | ChoicesInstance _ => factory_calls_of self
      end.
Proof.
  intros H. unfold choices, first_resolution, factory_calls_of. rewrite H.
  destruct (_orig_choices self) as [c|f]; split; reflexivity.
Qed.

Lemma read_choices_cached (n : nat) (self : ConditionsWidget)
    (c : ConditionChoices) :
  _choices self = Some c → read_choices n self = (replicate n c, self).
Proof.
  intros H. induction n as [|n IH]; simpl; [reflexivity|].
  now rewrite (choices_cached self c H), IH.
Qed.

Lemma choices_keeps_widgets (self : ConditionsWidget) :
  mode_widget (choices self).2 = mode_widget self
  ∧ choice_widget (choices self).2 = choice_widget self
  ∧ operator_widget (choices self).2 = operator_widget self
  ∧ choice_kwargs (choices self).2 = choice_kwargs self
  ∧ condition_errors (choices self).2 = condition_errors self.
Proof.
  unfold choices. destruct (_choices self) as [c|]; [tauto|].
  destruct (_orig_choices self) as [c|f]; simpl; tauto.
Qed.

(** C9: from a widget with nothing cached (as [__init__] and the setter
    leave it), any number of reads of [choices] return one and the same
    registry, the one the first read resolved, and invoke a callable
    exactly once in all (an instance: never); with a registry cached, a
    read returns it and leaves the widget, and so the invocation count,
    as they are; the setter stores the new value and empties the cache. *)
Theorem choices_single_evaluation :
  (∀ (self : ConditionsWidget) (n : nat),
      _choices self = None →
      (read_choices (S n) self).1 = replicate (S n) (first_resolution self)
      ∧ _choices (read_choices (S n) self).2 = Some (first_resolution self)
      ∧ factory_calls_of (read_choices (S n) self).2
        = match _orig_choices self with
          | ChoicesCallable _ => S (factory_calls_of self)
          | ChoicesInstance _ => factory_calls_of self
          end)
  ∧ (∀ (self : ConditionsWidget) (n : nat) (c : ConditionChoices),
        _choices self = Some c →
        read_choices n self = (replicate n c, self))
  ∧ (∀ (self : ConditionsWidget) (new : ConditionsWidgetChoices),
        _orig_choices (choices_setter self new) = new
        ∧ _choices (choices_setter self new) = None)
  ∧ (∀ choices mode_widget choice_widget operator_widget choice_kwargs,
        _choices (ConditionsWidget__init__ choices mode_widget choice_widget
                    operator_widget choice_kwargs) = None).
Proof.
  split; [|split; [|split]].
  - intros self n H. cbn [read_choices].
    destruct (choices self) as [c self1] eqn:Hread.
    pose proof (choices_fills_cache self) as Hcache.
    pose proof (choices_first self H) as [Hfirst Hcalls].
    rewrite Hread in Hcache, Hfirst, Hcalls.
    simpl in Hcache, Hfirst, Hcalls. subst c.
    rewrite (read_choices_cached n self1 _ Hcache).
    split; [reflexivity | split; [exact Hcache | exact Hcalls]].
  - intros self n c. apply read_choices_cached.
  - intros self new. split; reflexivity.
  - reflexivity.
Qed.

(** Three reads of a freshly built widget: one registry, one invocation. *)
Lemma choices_single_evaluation_witness :
  (read_choices 3 sample_widget).1
  = [sample_choices; sample_choices; sample_choices]
  ∧ factory_calls_of (read_choices 3 sample_widget).2 = 1.
Proof.
  destruct choices_single_evaluation as (Hfresh & _).
  destruct (Hfresh sample_widget 2) as (Hreads & _ & Hcalls);
    [reflexivity|].
  split; [exact Hreads | exact Hcalls].
Defined.

(** ** Rows of [get_context] *)

Lemma get_choice_raise (choices : ConditionChoices) (id : string)
    (kwargs : KwargsDict) (e : exn) :
  get_choice choices id kwargs = Raise e →
  ∃ msg, e = ConditionChoiceNotFoundError msg None.
Proof.
  unfold get_choice. destruct (List.find _ choices); [discriminate|].
  intros [= <-]. eauto.
Qed.

Lemma get_operator_raise (choice : BaseConditionChoice) (id : string)
    (e : exn) :
  get_operator choice id = Raise e →
  ∃ msg, e = ConditionOperatorNotFoundError msg None.
Proof.
  unfold get_operator. destruct (List.find _ (get_operators choice));
    [discriminate|].
  intros [= <-]. eauto.
Qed.

(** What the [try] block of a row ends with, by what the lookups do. *)
Lemma resolve_row_cases (self : ConditionsWidget)
    (choices : ConditionChoices) (i : nat) (cid oid : string) :
  resolve_row self choices i cid oid
  = match get_choice choices cid (choice_kwargs self) with
    | Ok choice =>
        match get_operator choice oid with
        | Ok operator =>
            Ok (Some choice, Some operator, condition_errors self !! Some i)
        | Raise _ => Ok (Some choice, None, Some operator_gone_message)
        end
    | Raise _ => Ok (None, None, Some choice_gone_message)
    end.
Proof.
  unfold resolve_row.
  destruct (get_choice choices cid (choice_kwargs self)) as [choice|e] eqn:Hc.
  - destruct (get_operator choice oid) as [operator|e] eqn:Ho; [reflexivity|].
    destruct (get_operator_raise _ _ _ Ho) as [msg ->]. reflexivity.
  - destruct (get_choice_raise _ _ _ _ Hc) as [msg ->]. reflexivity.
Qed.

Lemma disabled_survives (base attrs : Attrs) (widget_id : option string)
    (suffix : string) :
  build_attrs base
    (with_id widget_id suffix (<["disabled" := "disabled"]> attrs))
  !! "disabled" = Some "disabled".
Proof.
  unfold build_attrs. apply lookup_union_Some_l.
  unfold with_id. destruct widget_id as [id|]; [|apply lookup_insert_eq].
  destruct (truthy (Some id)); [|apply lookup_insert_eq].
  rewrite lookup_insert_ne by discriminate. apply lookup_insert_eq.
Qed.

(** The row emitted for an unresolved condition, whatever [widget_attrs]
    holds when the row is reached. *)
Lemma render_row_unresolved (self : ConditionsWidget)
    (choices : ConditionChoices) (name : string) (widget_id : option string)
    (attrs : Attrs) (i : nat) (condition : ConditionData) :
  unresolved choices (choice_kwargs self) condition →
  let cid := condition_choice condition in
  let oid := condition_op condition in
  let cname := name +:+ "_choice[" +:+ pretty i +:+ "]" in
  let oname := name +:+ "_operator[" +:+ pretty i +:+ "]" in
  let disabled := <["disabled" := "disabled"]> attrs in
  ∃ message choice_options operator_options,
    render_row self choices name widget_id attrs i condition
    = Ok ({| rendered_choice :=
               [SelectElement cname cid
                  (build_attrs (widget_attrs (choice_widget self))
                     (with_id widget_id ("_choice_" +:+ pretty i) disabled))
                  choice_options;
                HiddenInputElement cname cid];
             rendered_operator :=
               [SelectElement oname oid
                  (build_attrs (widget_attrs (operator_widget self))
                     (with_id widget_id ("_operator_" +:+ pretty i) disabled))
                  operator_options;
                HiddenInputElement oname oid];
             rendered_error := Some message |},
          {| choiceID := cid;
             operatorID := oid;
             row_value := condition_value condition;
             valid := false;
             row_error := Some message |},
          disabled)
    ∧ operator_options
      = widget_choices (operator_widget self) ++ [(oid, oid)]
    ∧ match get_choice choices cid (choice_kwargs self) with
      | Ok _ =>
          message = operator_gone_message
          ∧ choice_options = widget_choices (choice_widget self)
      | Raise _ =>
          message = choice_gone_message
          ∧ choice_options
            = widget_choices (choice_widget self) ++ [(cid, cid)]
      end.
Proof.
  intros Hun. cbv zeta.
  unfold unresolved in Hun. unfold render_row.
  rewrite resolve_row_cases.
  destruct (get_choice choices (condition_choice condition)
              (choice_kwargs self)) as [choice|e].
  - destruct (get_operator choice (condition_op condition))
      as [operator|e]; [contradiction|].
    eexists operator_gone_message, _, _.
    split; [|split; [reflexivity | split; reflexivity]].
    cbn. unfold _add_widget_choices, Select_render, HiddenInput_render.
    cbn. rewrite app_nil_r. reflexivity.
  - eexists choice_gone_message, _, _.
    split; [|split; [reflexivity | split; reflexivity]].
    reflexivity.
Qed.

Lemma render_row_total (self : ConditionsWidget)
    (choices : ConditionChoices) (name : string) (widget_id : option string)
    (attrs : Attrs) (i : nat) (condition : ConditionData) :
  ∃ out, render_row self choices name widget_id attrs i condition = Ok out.
Proof.
  destruct (get_choice choices (condition_choice condition)
              (choice_kwargs self)) as [choice|e] eqn:Hc.
  - destruct (get_operator choice (condition_op condition))
      as [operator|e] eqn:Ho.
    + unfold render_row. rewrite resolve_row_cases, Hc, Ho. cbn. eauto.
    + destruct (render_row_unresolved self choices name widget_id attrs i
                  condition) as (m & co & oo & H & _).
      * unfold unresolved. now rewrite Hc, Ho.
      * eauto.
  - destruct (render_row_unresolved self choices name widget_id attrs i
                condition) as (m & co & oo & H & _).
    + unfold unresolved. now rewrite Hc.
    + eauto.
Qed.

(** The loop emits one entry per condition, in order, each the outcome of
    [render_row] at its index. *)
Lemma render_rows_spec (self : ConditionsWidget)
    (choices : ConditionChoices) (name : string) (widget_id : option string)
    (conds : list ConditionData) :
  ∀ (attrs : Attrs) (i : nat) (R : list RenderedRow) (D : list RowData),
  ∃ R' D',
    render_rows self choices name widget_id attrs i conds R D
    = Ok (R ++ R', D ++ D')
    ∧ length R' = length conds
    ∧ length D' = length conds
    ∧ ∀ j cond,
        conds !! j = Some cond →
        ∃ attrs_j rr rd attrs_j',
          render_row self choices name widget_id attrs_j (i + j) cond
          = Ok (rr, rd, attrs_j')
          ∧ R' !! j = Some rr
          ∧ D' !! j = Some rd.
Proof.
  induction conds as [|cond conds IH]; intros attrs i R D.
  - exists [], []. rewrite !app_nil_r.
    repeat split. intros j c Hj. discriminate.
  - destruct (render_row_total self choices name widget_id attrs i cond)
      as [[[rr rd] attrs'] Hrow].
    destruct (IH attrs' (S i) (R ++ [rr]) (D ++ [rd]))
      as (R' & D' & Hloop & HlenR & HlenD & Hrows).
    exists (rr :: R'), (rd :: D').
    cbn [render_rows]. rewrite Hrow. cbn.
    rewrite Hloop, <- !app_assoc. cbn.
    split; [reflexivity|]. split; [now rewrite HlenR|].
    split; [now rewrite HlenD|].
    intros [|j] c Hj.
    + injection Hj as <-. exists attrs, rr, rd, attrs'.
      rewrite Nat.add_0_r. auto.
    + destruct (Hrows j c Hj) as (aj & rrj & rdj & aj' & Hr & HR & HD).
      exists aj, rrj, rdj, aj'.
      replace (i + S j) with (S i + j) by lia. auto.
Qed.

(** [get_context] returns, and its row lists are those of the loop run on
    the registry the [choices] property resolves to. *)
Lemma get_context_rows (self : ConditionsWidget) (name : string)
    (value : ConditionSetData) (attrs : option Attrs) :
  ∃ ctx,
    get_context self name value attrs = Ok (ctx, (choices self).2)
    ∧ field_name ctx = name
    ∧ length (rendered_rows ctx) = length (conditions value)
    ∧ length (serialized_rows ctx) = length (conditions value)
    ∧ ∀ i condition,
        conditions value !! i = Some condition →
        ∃ attrs_i rendered row_data attrs_i',
          render_row (choices self).2 (choices self).1 name
            (build_attrs (default ∅ attrs) ∅ !! "id") attrs_i i condition
          = Ok (rendered, row_data, attrs_i')
          ∧ rendered_rows ctx !! i = Some rendered
          ∧ serialized_rows ctx !! i = Some row_data.
Proof.
  unfold get_context. destruct (choices self) as [registry self'].
  cbn [fst snd].
  destruct (render_rows_spec self' registry name
              (build_attrs (default ∅ attrs) ∅ !! "id") (conditions value)
              (build_attrs (default ∅ attrs) ∅) 0 [] [])
    as (R & D & Hloop & HlenR & HlenD & Hrows).
  rewrite Hloop. cbn. eexists. split; [reflexivity|]. cbn.
  repeat split; assumption.
Qed.

(** C4: [get_context] returns with one rendered row and one serialized
    row per condition, and the row of a condition whose choice or operator
    is not found keeps the raw choice id, operator id and value, carries
    one of the two explanatory messages, has [valid] false, and has both
    dropdowns rendered disabled, each followed by a hidden input holding
    the raw identifier. *)
Theorem get_context_keeps_unresolved_rows (self : ConditionsWidget)
    (name : string) (value : ConditionSetData) (attrs : option Attrs) :
  ∃ ctx self',
    get_context self name value attrs = Ok (ctx, self')
    ∧ length (rendered_rows ctx) = length (conditions value)
    ∧ length (serialized_rows ctx) = length (conditions value)
    ∧ ∀ i condition,
        conditions value !! i = Some condition →
        unresolved (choices self).1 (choice_kwargs self) condition →
        ∃ rendered row_data message choice_attrs choice_options
          operator_attrs operator_options,
          rendered_rows ctx !! i = Some rendered
          ∧ serialized_rows ctx !! i = Some row_data
          ∧ choiceID row_data = condition_choice condition
          ∧ operatorID row_data = condition_op condition
          ∧ row_value row_data = condition_value condition
          ∧ valid row_data = false
          ∧ row_error row_data = Some message
          ∧ rendered_error rendered = Some message
          ∧ (message = choice_gone_message
             ∨ message = operator_gone_message)
          ∧ rendered_choice rendered
            = [SelectElement (name +:+ "_choice[" +:+ pretty i +:+ "]")
                 (condition_choice condition) choice_attrs choice_options;
               HiddenInputElement (name +:+ "_choice[" +:+ pretty i +:+ "]")
                 (condition_choice condition)]
          ∧ choice_attrs !! "disabled" = Some "disabled"
          ∧ rendered_operator rendered
            = [SelectElement (name +:+ "_operator[" +:+ pretty i +:+ "]")
                 (condition_op condition) operator_attrs operator_options;
               HiddenInputElement
                 (name +:+ "_operator[" +:+ pretty i +:+ "]")
                 (condition_op condition)]
          ∧ operator_attrs !! "disabled" = Some "disabled".
Proof.
  destruct (get_context_rows self name value attrs)
    as (ctx & Hctx & _ & HlenR & HlenD & Hrows).
  exists ctx, (choices self).2.
  split; [exact Hctx|]. split; [exact HlenR|]. split; [exact HlenD|].
  intros i condition Hi Hun.
  destruct (Hrows i condition Hi)
    as (attrs_i & rendered & row_data & attrs_i' & Hrow & HR & HD).
  destruct (choices_keeps_widgets self) as (_ & Hcw & How & Hkw & _).
  rewrite <- Hkw in Hun.
  destruct (render_row_unresolved (choices self).2 (choices self).1 name
              (build_attrs (default ∅ attrs) ∅ !! "id") attrs_i i condition
              Hun) as (message & copts & oopts & Hout & _ & Hmsg).
  cbv zeta in Hout. rewrite Hout in Hrow.
  injection Hrow as <- <- _.
  eexists _, _, message, _, copts, _, oopts. cbn.
  repeat (split; [first [exact HR | exact HD | reflexivity]|]).
  split.
  { destruct (get_choice _ _ _); [right | left]; apply Hmsg. }
  split; [reflexivity|]. split; [apply disabled_survives|].
  split; [reflexivity|]. apply disabled_survives.
Qed.

(** C1, as the code has it: when the choice of a row is found and its
    operator is not, both dropdowns are rendered disabled and followed by
    a hidden input holding the raw identifier; the choice dropdown offers
    the choice widget's own options and nothing more, and the operator
    dropdown the operator widget's own options followed by the raw
    operator id as its own label. *)
Theorem get_context_operator_gone (self : ConditionsWidget)
    (name : string) (value : ConditionSetData) (attrs : option Attrs) :
  ∃ ctx self',
    get_context self name value attrs = Ok (ctx, self')
    ∧ ∀ i condition choice e,
        conditions value !! i = Some condition →
        get_choice (choices self).1 (condition_choice condition)
                   (choice_kwargs self) = Ok choice →
        get_operator choice (condition_op condition) = Raise e →
        ∃ rendered choice_attrs operator_attrs,
          rendered_rows ctx !! i = Some rendered
          ∧ rendered_choice rendered
            = [SelectElement (name +:+ "_choice[" +:+ pretty i +:+ "]")
                 (condition_choice condition) choice_attrs
                 (widget_choices (choice_widget self));
               HiddenInputElement (name +:+ "_choice[" +:+ pretty i +:+ "]")
                 (condition_choice condition)]
          ∧ choice_attrs !! "disabled" = Some "disabled"
          ∧ rendered_operator rendered
            = [SelectElement (name +:+ "_operator[" +:+ pretty i +:+ "]")
                 (condition_op condition) operator_attrs
                 (widget_choices (operator_widget self)
                  ++ [(condition_op condition, condition_op condition)]);
               HiddenInputElement
                 (name +:+ "_operator[" +:+ pretty i +:+ "]")
                 (condition_op condition)]
          ∧ operator_attrs !! "disabled" = Some "disabled"
          ∧ rendered_error rendered = Some operator_gone_message.
Proof.
  destruct (get_context_rows self name value attrs)
    as (ctx & Hctx & _ & _ & _ & Hrows).
  exists ctx, (choices self).2. split; [exact Hctx|].
  intros i condition choice e Hi Hchoice Hop.
  destruct (Hrows i condition Hi)
    as (attrs_i & rendered & row_data & attrs_i' & Hrow & HR & _).
  destruct (choices_keeps_widgets self) as (_ & Hcw & How & Hkw & _).
  rewrite <- Hkw in Hchoice.
  destruct (render_row_unresolved (choices self).2 (choices self).1 name
              (build_attrs (default ∅ attrs) ∅ !! "id") attrs_i i condition)
    as (message & copts & oopts & Hout & Hoopts & Hmsg).
  { unfold unresolved. now rewrite Hchoice, Hop. }
  cbv zeta in Hout. rewrite Hchoice in Hmsg. destruct Hmsg as [-> ->].
  subst oopts. rewrite Hcw, How in Hout.
  rewrite Hout in Hrow. injection Hrow as <- _ _.
  eexists _, _, _. cbn.
  split; [exact HR|]. split; [reflexivity|].
  split; [apply disabled_survives|]. split; [reflexivity|].
  split; [apply disabled_survives | reflexivity].
Qed.

(** ** The claims on [get_context] at a concrete widget *)

(** A row naming the deleted choice ["ghost"] is emitted, with the raw
    identifiers, a message, [valid] false and disabled controls. *)
Lemma get_context_keeps_unresolved_rows_witness :
  ∃ ctx self',
    get_context sample_widget "cond"
      (rows_all [row "ghost" "is" (VStr "y")]) None = Ok (ctx, self')
    ∧ length (serialized_rows ctx) = 1
    ∧ ∃ rendered row_data message,
        rendered_rows ctx !! 0 = Some rendered
        ∧ serialized_rows ctx !! 0 = Some row_data
        ∧ choiceID row_data = "ghost"
        ∧ operatorID row_data = "is"
        ∧ valid row_data = false
        ∧ row_error row_data = Some message
        ∧ map disabled_attr (rendered_choice rendered)
          = [Some "disabled"; None]
        ∧ map disabled_attr (rendered_operator rendered)
          = [Some "disabled"; None].
Proof.
  destruct (get_context_keeps_unresolved_rows sample_widget "cond"
              (rows_all [row "ghost" "is" (VStr "y")]) None)
    as (ctx & self' & Hctx & _ & Hlen & Hrows).
  exists ctx, self'. split; [exact Hctx|]. split; [exact Hlen|].
  destruct (Hrows 0 (row "ghost" "is" (VStr "y")))
    as (rendered & row_data & message & ca & co & oa & oo & HR & HD & Hc
        & Ho & _ & Hvalid & Herr & _ & _ & Hrc & Hca & Hro & Hoa).
  - reflexivity.
  - vm_compute. exact I.
  - exists rendered, row_data, message.
    rewrite Hrc, Hro. cbn. rewrite Hca, Hoa. auto 10.
Defined.

(** C1 as stated fails: for the row [("status", "gone")], whose choice is
    registered and whose operator is not, the choice dropdown is rendered
    with [disabled="disabled"]. *)
Lemma choice_dropdown_disabled_counterexample :
  get_choice sample_choices "status" [] = Ok status_choice
  ∧ (∃ msg index,
        get_operator status_choice "gone"
        = Raise (ConditionOperatorNotFoundError msg index))
  ∧ ∃ ctx self',
      get_context sample_widget "cond"
        (rows_all [row "status" "gone" (VStr "x")]) None = Ok (ctx, self')
      ∧ map rendered_choice (rendered_rows ctx)
        = [[SelectElement "cond_choice[0]" "status"
              {["disabled" := "disabled"]} [("status", "Status")];
            HiddenInputElement "cond_choice[0]" "status"]]
      ∧ map (λ r, map disabled_attr (rendered_choice r)) (rendered_rows ctx)
        = [[Some "disabled"; None]].
Proof.
  split; [reflexivity|]. split; [eexists _, _; reflexivity|].
  eexists _, _. split; [vm_compute; reflexivity|].
  split; vm_compute; reflexivity.
Qed.

(** The row [("status", "gone")]: both dropdowns disabled, the choice
    dropdown with the widget's options, the operator dropdown with the raw
    id as its only option. *)
Lemma get_context_operator_gone_witness :
  ∃ ctx self',
    get_context sample_widget "cond"
      (rows_all [row "status" "gone" (VStr "x")]) None = Ok (ctx, self')
    ∧ ∃ rendered choice_attrs operator_attrs,
        rendered_rows ctx !! 0 = Some rendered
        ∧ rendered_choice rendered
          = [SelectElement "cond_choice[0]" "status" choice_attrs
               [("status", "Status")];
             HiddenInputElement "cond_choice[0]" "status"]
        ∧ choice_attrs !! "disabled" = Some "disabled"
        ∧ rendered_operator rendered
          = [SelectElement "cond_operator[0]" "gone" operator_attrs
               [("gone", "gone")];
             HiddenInputElement "cond_operator[0]" "gone"]
        ∧ operator_attrs !! "disabled" = Some "disabled"
        ∧ rendered_error rendered = Some operator_gone_message.
Proof.
  destruct (get_context_operator_gone sample_widget "cond"
              (rows_all [row "status" "gone" (VStr "x")]) None)
    as (ctx & self' & Hctx & Hrows).
  exists ctx, self'. split; [exact Hctx|].
  eapply (Hrows 0 (row "status" "gone" (VStr "x")) status_choice);
    reflexivity.
Defined.

(** The loop variable [widget_attrs] is reassigned by an unresolved row
    and read by the rows after it: a resolved row that follows an
    unresolved one has [valid] true and no hidden inputs, and its
    dropdowns carry [disabled="disabled"] all the same. *)
Example disabled_carries_over :
  ∃ ctx self',
    get_context sample_widget "cond"
      (rows_all [row "ghost" "is" (VStr "y");
                 row "status" "is" (VStr "open")]) None = Ok (ctx, self')
    ∧ map valid (serialized_rows ctx) = [false; true]
    ∧ map (λ r, map disabled_attr (rendered_choice r)) (rendered_rows ctx)
      = [[Some "disabled"; None]; [Some "disabled"]]
    ∧ map (λ r, map disabled_attr (rendered_operator r)) (rendered_rows ctx)
      = [[Some "disabled"; None]; [Some "disabled"]].
Proof.
  eexists _, _. split; [vm_compute; reflexivity|].
  repeat split; vm_compute; reflexivity.
Qed.

(** * Properties of the conditions field *)

Section to_python_properties.

Variable ConditionSetT : Type.
Variable deserialize_set :
  ConditionChoices -> ConditionSetData -> KwargsDict -> result ConditionSetT.

(** What [to_python] returns, and the field it leaves, when
    deserialization raises one of the four condition errors. *)
Lemma to_python_raises (self : ConditionsField)
    (value : ConditionSetData) (e : exn) :
  let registry := (choices (widget self)).1 in
  let widget' := (choices (widget self)).2 in
  deserialize_set registry value (choice_kwargs (widget self)) = Raise e →
  (∀ msg code index,
      e = ConditionChoiceNotFoundError msg index ∧ code = None
      ∨ e = ConditionOperatorNotFoundError msg index ∧ code = None
      ∨ e = InvalidConditionValueError msg code index →
      let message :=
        if bool_decide (code = Some "required") then
          value_required_message (error_messages self)
        else msg in
      to_python ConditionSetT deserialize_set self (Some value)
      = (Raise (ValidationError
                  (condition_errors_message (error_messages self))
                  (Some "condition_errors")),
         set_widget self
           (set_condition_errors widget'
              (<[index := message]> (condition_errors (widget self))))))
  ∧ (∀ msg,
        e = InvalidConditionModeError msg →
        to_python ConditionSetT deserialize_set self (Some value)
        = (Raise (ValidationError msg (Some "invalid_mode")),
           set_widget self widget')
        ∧ condition_errors widget' = condition_errors (widget self)).
Proof.
  intros registry widget' Hraise.
  destruct (choices_keeps_widgets (widget self))
    as (_ & _ & _ & Hkw & Herrs).
  unfold to_python. subst registry widget'.
  destruct (choices (widget self)) as [registry0 widget0].
  cbn [fst snd] in *. rewrite Hkw, Hraise. split.
  - intros msg code index [[-> ->] | [[-> ->] | ->]].
    + cbn. now rewrite Herrs.
    + cbn. now rewrite Herrs.
    + now rewrite Herrs.
  - intros msg ->. split; [reflexivity | exact Herrs].
Qed.

(** C5: when deserialization raises a choice-not-found,
    operator-not-found or invalid-value error, [to_python] raises a
    [ValidationError] with code ['condition_errors'] and the field's
    message of that key, and the widget's [condition_errors] it leaves
    holds, under the index the error carries, the field's
    ['value_required'] message when the error is tagged ['required'] and
    the error's own message otherwise, every other key being as before
    the call: one row is recorded.  When it raises an invalid-mode error,
    [to_python] raises a [ValidationError] with that message and code
    ['invalid_mode'], and [condition_errors] is as before the call. *)
Theorem to_python_reports_one_row (self : ConditionsField)
    (value : ConditionSetData) (e : exn) :
  deserialize_set (choices (widget self)).1 value
                  (choice_kwargs (widget self)) = Raise e →
  let out := to_python ConditionSetT deserialize_set self (Some value) in
  (∀ msg code index,
      e = ConditionChoiceNotFoundError msg index ∧ code = None
      ∨ e = ConditionOperatorNotFoundError msg index ∧ code = None
      ∨ e = InvalidConditionValueError msg code index →
      out.1 = Raise (ValidationError
                       (condition_errors_message (error_messages self))
                       (Some "condition_errors"))
      ∧ condition_errors (widget out.2) !! index
        = Some (if bool_decide (code = Some "required") then
                  value_required_message (error_messages self)
                else msg)
      ∧ ∀ k, k ≠ index →
             condition_errors (widget out.2) !! k
             = condition_errors (widget self) !! k)
  ∧ (∀ msg,
        e = InvalidConditionModeError msg →
        out.1 = Raise (ValidationError msg (Some "invalid_mode"))
        ∧ condition_errors (widget out.2) = condition_errors (widget self)).
Proof.
  intros Hraise out.
  destruct (to_python_raises self value e Hraise) as [Hrow Hmode].
  split.
  - intros msg code index He. unfold out.
    rewrite (Hrow msg code index He). cbn.
    split; [reflexivity|]. split.
    + apply lookup_insert_eq.
    + intros k Hk. now apply lookup_insert_ne.
  - intros msg He. unfold out.
    destruct (Hmode msg He) as [-> Herrs]. cbn.
    split; [reflexivity | exact Herrs].
Qed.

End to_python_properties.

(** A document whose row 0 lacks its value and whose row 1 names the
    deleted choice ["ghost"]: one [ValidationError] is raised, row 0 is
    recorded with the field's ['value_required'] message, and nothing is
    recorded for row 1. *)
Lemma to_python_reports_one_row_witness :
  fst (to_python ConditionSet deserialize sample_field
         (Some (rows_all [row "status" "is" VNone;
                          row "ghost" "is" (VStr "y")])))
  = Raise (ValidationError
             "There was an error with one of your conditions."
             (Some "condition_errors"))
  ∧ condition_errors
      (widget (to_python ConditionSet deserialize sample_field
                 (Some (rows_all [row "status" "is" VNone;
                                  row "ghost" "is" (VStr "y")]))).2)
    !! Some 0 = Some "A value is required for this condition."
  ∧ condition_errors
      (widget (to_python ConditionSet deserialize sample_field
                 (Some (rows_all [row "status" "is" VNone;
                                  row "ghost" "is" (VStr "y")]))).2)
    !! Some 1 = None.
Proof.
  destruct (to_python_reports_one_row ConditionSet deserialize sample_field
              (rows_all [row "status" "is" VNone;
                         row "ghost" "is" (VStr "y")])
              (InvalidConditionValueError "A value is required."
                 (Some "required") (Some 0)))
    as [Hrow _].
  - reflexivity.
  - destruct (Hrow "A value is required." (Some "required") (Some 0))
      as (Hraise & Hrecorded & Hothers).
    + right. right. reflexivity.
    + split; [exact Hraise|]. split; [exact Hrecorded|].
      rewrite (Hothers (Some 1)) by discriminate. reflexivity.
Defined.

(** * Further properties of the policy validator *)

Lemma validate_resource_policy_outcomes (valid : gset pykey)
    (item : pykey * pyval) :
  validate_resource_policy valid item = Ok tt
  ∨ (∃ msg, validate_resource_policy valid item
            = Raise (ValidationError msg None))
  ∨ validate_resource_policy valid item = Raise AttributeError.
Proof.
  destruct item as [k v].
  destruct v as [| | | | |section];
    try (unfold validate_resource_policy; cbn [fst snd];
         destruct (decide (k ∈ valid)); [right; right|right; left];
         eauto; fail).
  destruct (validate_resource_policy_ok valid k section) as [_ [H|H]];
    [left | right; left]; exact H.
Qed.

(** The wildcard step of [validate_policy]. *)
Lemma wildcard_step_outcomes (rs : pydict) :
  (if dict_in (KStr "*") rs then
     _validate_policy_section rs (KStr "*") "resources.*"
   else Ok tt) = Ok tt
  ∨ ∃ msg, (if dict_in (KStr "*") rs then
              _validate_policy_section rs (KStr "*") "resources.*"
            else Ok tt) = Raise (ValidationError msg None).
Proof.
  destruct (dict_in (KStr "*") rs) eqn:Hin; [|now left].
  apply dict_in_true in Hin as [v Hv].
  destruct (validate_policy_section_ok rs (KStr "*") "resources.*" v Hv)
    as [_ H]. exact H.
Qed.

(** When a policy with a non-empty [resources] section is accepted. *)
Lemma validate_policy_accepts (cls : TokenClass) (policy rs : pydict) :
  dict_get policy (KStr "resources") = Some (VDict rs) →
  rs ≠ [] →
  validate_policy cls (VDict policy) = Ok tt
  ↔ (∀ v, dict_get rs (KStr "*") = Some v → section_shape_ok v = true)
    ∧ (resource_policies_of rs = []
       ∨ ∃ root, get_root_resource cls = Ok root
                 ∧ Forall (λ item, validate_resource_policy
                                     (_get_valid_policy_ids root ∅) item
                                   = Ok tt)
                          (resource_policies_of rs)).
Proof.
  intros Hget Hne.
  rewrite (validate_policy_resources cls policy rs Hget Hne).
  assert (Hw : (if dict_in (KStr "*") rs then
                  _validate_policy_section rs (KStr "*") "resources.*"
                else Ok tt) = Ok tt
               ↔ ∀ v, dict_get rs (KStr "*") = Some v →
                      section_shape_ok v = true).
  { unfold dict_in. destruct (dict_get rs (KStr "*")) as [v0|] eqn:Hstar.
    - destruct (validate_policy_section_ok rs (KStr "*") "resources.*"
                  v0 Hstar) as [Hiff _].
      rewrite Hiff. split; [intros H v [= <-]; exact H | auto].
    - split; [intros _ v [=] | reflexivity]. }
  rewrite <- Hw. unfold mbind, result_bind.
  destruct (if dict_in (KStr "*") rs then _ else _) as [[]|e].
  - destruct (resource_policies_of rs) as [|item named] eqn:Hnamed.
    + cbn. split; [intros _; split; [reflexivity | now left] | reflexivity].
    + cbn [dict_empty].
      destruct (get_root_resource cls) as [root|e].
      * rewrite for_each_ok. split.
        -- intros H. split; [reflexivity|]. right. eauto.
        -- intros [_ [H|(root' & [= <-] & H)]]; [discriminate | exact H].
      * split; [discriminate|].
        intros [_ [H|(root' & H & _)]]; discriminate.
  - split; [discriminate | intros [H _]; discriminate].
Qed.

(** X1: [validate_policy] returns, raises a [ValidationError] without a
    code, raises [AttributeError], or lets through what
    [get_root_resource] raised; in particular its own subscripting never
    raises [KeyError]. *)
Theorem validate_policy_outcomes (cls : TokenClass) (policy : pyval) :
  validate_policy cls policy = Ok tt
  ∨ (∃ msg, validate_policy cls policy = Raise (ValidationError msg None))
  ∨ validate_policy cls policy = Raise AttributeError
  ∨ (∃ e, get_root_resource cls = Raise e
          ∧ validate_policy cls policy = Raise e).
Proof.
  destruct policy as [| | | | |policy];
    try (right; left; eexists; reflexivity).
  destruct policy as [|item policy]; [now left|].
  destruct (dict_get (item :: policy) (KStr "resources")) as [v|] eqn:Hget.
  2: { right; left. unfold validate_policy. cbn [dict_empty].
       rewrite Hget. eauto. }
  destruct v as [| | | | |rs];
    try (right; left; unfold validate_policy; cbn [dict_empty];
         rewrite Hget; eauto; fail).
  destruct rs as [|r rs].
  { right; left. unfold validate_policy. cbn [dict_empty].
    rewrite Hget. eauto. }
  rewrite (validate_policy_resources cls (item :: policy) (r :: rs) Hget)
    by discriminate.
  unfold mbind, result_bind.
  destruct (wildcard_step_outcomes (r :: rs)) as [->|[msg ->]];
    [|right; left; eauto].
  destruct (dict_empty (resource_policies_of (r :: rs))); [now left|].
  destruct (get_root_resource cls) as [root|e]; [|do 3 right; eauto].
  destruct (for_each (validate_resource_policy
                        (_get_valid_policy_ids root ∅))
                     (resource_policies_of (r :: rs)))
    as [[]|e] eqn:Hfe; [now left|].
  destruct (for_each_raise_inv _ _ _ Hfe) as (x & _ & Hx).
  destruct (validate_resource_policy_outcomes
              (_get_valid_policy_ids root ∅) x) as [H|[[msg H]|H]];
    rewrite Hx in H; try discriminate.
  - injection H as ->. right; left; eauto.
  - injection H as ->. right; right; left. reflexivity.
Qed.

(** X2: the abstract base class accepts a policy only if it is empty or
    every key of its [resources] section is the wildcard: any named
    section reaches [get_root_resource]. *)
Theorem base_class_accepts_wildcard_only (policy : pydict) :
  validate_policy BaseWebAPIToken (VDict policy) = Ok tt →
  policy = []
  ∨ ∃ rs, dict_get policy (KStr "resources") = Some (VDict rs)
          ∧ Forall (λ item, item.1 = KStr "*") rs.
Proof.
  intros Hok. destruct policy as [|item policy]; [now left|]. right.
  destruct (dict_get (item :: policy) (KStr "resources")) as [v|] eqn:Hget;
    [|unfold validate_policy in Hok; cbn [dict_empty] in Hok;
      rewrite Hget in Hok; discriminate].
  destruct v as [| | | | |rs];
    try (unfold validate_policy in Hok; cbn [dict_empty] in Hok;
         rewrite Hget in Hok; discriminate).
  destruct rs as [|r rs];
    [unfold validate_policy in Hok; cbn [dict_empty] in Hok;
     rewrite Hget in Hok; discriminate|].
  exists (r :: rs). split; [reflexivity|].
  assert (Hrs : r :: rs ≠ []) by discriminate.
  destruct (proj1 (validate_policy_accepts BaseWebAPIToken _ _ Hget Hrs) Hok)
    as [_ [Hnil|(root & Hroot & _)]]; [|discriminate].
  apply Forall_forall. intros x Hx.
  destruct (decide (x.1 = KStr "*")) as [Heq|Hne]; [exact Heq|].
  assert (Hin : x ∈ resource_policies_of (r :: rs))
    by now apply elem_of_resource_policies_of.
  rewrite Hnil in Hin. inversion Hin.
Qed.

(** X3: a named section that is not a mapping, reached with a valid
    policy id after everything before it has passed, makes the call raise
    [AttributeError], not a [ValidationError]. *)
Theorem named_section_not_mapping_raises_AttributeError (cls : TokenClass)
    (root : Resource) (policy rs pre post : pydict) (k : pykey) (v : pyval) :
  dict_get policy (KStr "resources") = Some (VDict rs) →
  (∀ w, dict_get rs (KStr "*") = Some w → section_shape_ok w = true) →
  get_root_resource cls = Ok root →
  resource_policies_of rs = pre ++ (k, v) :: post →
  Forall (λ item, validate_resource_policy
                    (_get_valid_policy_ids root ∅) item = Ok tt) pre →
  k ∈ _get_valid_policy_ids root ∅ →
  (∀ section, v ≠ VDict section) →
  validate_policy cls (VDict policy) = Raise AttributeError.
Proof.
  intros Hget Hwild Hroot Hnamed Hpre Hk Hv.
  assert (Hne : rs ≠ []).
  { intros ->. destruct pre; discriminate. }
  rewrite (validate_policy_resources cls policy rs Hget Hne), Hroot, Hnamed.
  assert (Hw : (if dict_in (KStr "*") rs then
                  _validate_policy_section rs (KStr "*") "resources.*"
                else Ok tt) = Ok tt).
  { unfold dict_in. destruct (dict_get rs (KStr "*")) as [w|] eqn:Hstar;
      [|reflexivity].
    apply (validate_policy_section_ok rs (KStr "*") "resources.*" w Hstar).
    now apply Hwild. }
  rewrite Hw. unfold mbind, result_bind.
  replace (dict_empty (pre ++ (k, v) :: post)) with false by now destruct pre.
  apply for_each_first_raise; [exact Hpre|].
  unfold validate_resource_policy. cbn [fst snd].
  rewrite decide_True by exact Hk.
  destruct v; try reflexivity. now destruct (Hv items).
Qed.

Lemma named_section_not_mapping_raises_AttributeError_witness :
  validate_policy (TokenWithRoot resourceA)
    (policy_of_resources [(KStr "root", VList [VStr "allow"])])
  = Raise AttributeError.
Proof.
  apply (named_section_not_mapping_raises_AttributeError
           (TokenWithRoot resourceA) resourceA
           [(KStr "resources", VDict [(KStr "root", VList [VStr "allow"])])]
           [(KStr "root", VList [VStr "allow"])] [] []
           (KStr "root") (VList [VStr "allow"])).
  - reflexivity.
  - intros w. cbn. discriminate.
  - reflexivity.
  - reflexivity.
  - constructor.
  - exact root_valid.
  - discriminate.
Defined.

Lemma base_class_accepts_wildcard_only_witness :
  [(KStr "resources", VDict [(KStr "*", allow_x)])] = []
  ∨ ∃ rs, dict_get [(KStr "resources", VDict [(KStr "*", allow_x)])]
                   (KStr "resources") = Some (VDict rs)
          ∧ Forall (λ item, item.1 = KStr "*") rs.
Proof.
  apply (base_class_accepts_wildcard_only
           [(KStr "resources", VDict [(KStr "*", allow_x)])]).
  reflexivity.
Defined.

(** With distinct keys, [dict_get] finds exactly the items of the
    dictionary. *)
Lemma dict_get_Some_NoDup (d : pydict) (k : pykey) (v : pyval) :
  NoDup d.*1 → (dict_get d k = Some v ↔ (k, v) ∈ d).
Proof.
  intros Hnd. split; [apply dict_get_elem_of|].
  induction d as [|[k' v'] d IH]; intros Hin; [inversion Hin|].
  cbn [fmap list_fmap] in Hnd. apply NoDup_cons in Hnd as [Hk' Hnd].
  cbn [dict_get]. apply elem_of_cons in Hin as [[= <- <-]|Hin].
  - now rewrite decide_True.
  - destruct (decide (k' = k)) as [->|Hne]; [|now apply IH].
    destruct Hk'. apply list_elem_of_fmap. now exists (k, v).
Qed.

Lemma dict_get_Permutation (d d' : pydict) (k : pykey) :
  NoDup d.*1 → d ≡ₚ d' → dict_get d k = dict_get d' k.
Proof.
  intros Hnd Hperm.
  assert (Hnd' : NoDup d'.*1) by now rewrite <- Hperm.
  destruct (dict_get d k) as [v|] eqn:Hd.
  - symmetry. apply dict_get_Some_NoDup; [exact Hnd'|].
    rewrite <- Hperm. now apply dict_get_Some_NoDup.
  - destruct (dict_get d' k) as [v'|] eqn:Hd'; [|reflexivity].
    apply dict_get_Some_NoDup in Hd'; [|exact Hnd'].
    rewrite <- Hperm in Hd'. apply dict_get_Some_NoDup in Hd'; [|exact Hnd].
    congruence.
Qed.

(** X4: whether a policy is accepted does not depend on the order in
    which the [resources] mapping lists its sections. *)
Theorem validate_policy_order_independent (cls : TokenClass)
    (policy policy' rs rs' : pydict) :
  dict_get policy (KStr "resources") = Some (VDict rs) →
  dict_get policy' (KStr "resources") = Some (VDict rs') →
  NoDup rs.*1 →
  rs ≡ₚ rs' →
  validate_policy cls (VDict policy) = Ok tt
  ↔ validate_policy cls (VDict policy') = Ok tt.
Proof.
  intros Hget Hget' Hnd Hperm.
  destruct rs as [|r rs].
  { apply Permutation_nil_l in Hperm as <-.
    unfold validate_policy.
    destruct policy as [|i p]; [discriminate|].
    destruct policy' as [|i' p']; [discriminate|].
    cbn [dict_empty]. rewrite Hget, Hget'. reflexivity. }
  assert (Hne : r :: rs ≠ []) by discriminate.
  assert (Hne' : rs' ≠ []).
  { intros ->. apply Permutation_nil_r in Hperm. discriminate. }
  rewrite (validate_policy_accepts cls policy _ Hget Hne).
  rewrite (validate_policy_accepts cls policy' _ Hget' Hne').
  assert (Hnamed : resource_policies_of (r :: rs)
                   ≡ₚ resource_policies_of rs').
  { unfold resource_policies_of. now rewrite Hperm. }
  rewrite (dict_get_Permutation _ _ (KStr "*") Hnd Hperm).
  assert (Hnil : resource_policies_of (r :: rs) = []
                 ↔ resource_policies_of rs' = []).
  { split; intros H; rewrite H in Hnamed.
    - apply Permutation_nil_l in Hnamed. congruence.
    - apply Permutation_nil_r in Hnamed. congruence. }
  rewrite Hnil.
  assert (Hall : ∀ root,
    Forall (λ item, validate_resource_policy
                      (_get_valid_policy_ids root ∅) item = Ok tt)
           (resource_policies_of (r :: rs))
    ↔ Forall (λ item, validate_resource_policy
                        (_get_valid_policy_ids root ∅) item = Ok tt)
             (resource_policies_of rs')).
  { intros root. now rewrite Hnamed. }
  split; intros [Hw [H|(root & Hroot & H)]]; (split; [exact Hw|]);
    try (now left); right; exists root; (split; [exact Hroot|]);
    now apply Hall.
Qed.

Lemma validate_policy_order_independent_witness :
  validate_policy (TokenWithRoot resourceA)
    (policy_of_resources
       [(KStr "*", allow_x); (KStr "root", VDict [(KStr "*", allow_y)])])
  = Ok tt
  ↔ validate_policy (TokenWithRoot resourceA)
      (policy_of_resources
         [(KStr "root", VDict [(KStr "*", allow_y)]); (KStr "*", allow_x)])
    = Ok tt.
Proof.
  apply (validate_policy_order_independent (TokenWithRoot resourceA)
           _ _
           [(KStr "*", allow_x); (KStr "root", VDict [(KStr "*", allow_y)])]
           [(KStr "root", VDict [(KStr "*", allow_y)]); (KStr "*", allow_x)]).
  - reflexivity.
  - reflexivity.
  - cbn. apply NoDup_cons. split.
    + intros H. apply list_elem_of_singleton in H. discriminate.
    + apply NoDup_singleton.
  - apply Permutation_swap.
Defined.

Lemma validate_resource_policy_mono (valid valid' : gset pykey)
    (item : pykey * pyval) :
  valid ⊆ valid' →
  validate_resource_policy valid item = Ok tt →
  validate_resource_policy valid' item = Ok tt.
Proof.
  intros Hsub. unfold validate_resource_policy.
  destruct (decide (item.1 ∈ valid)) as [Hin|Hnin]; [|discriminate].
  rewrite decide_True by now apply Hsub. auto.
Qed.

(** X5: a policy accepted against one resource tree is accepted against
    every tree whose policy ids include those of the first. *)
Theorem validate_policy_monotone (cls cls' : TokenClass)
    (root root' : Resource) (policy : pyval) :
  get_root_resource cls = Ok root →
  get_root_resource cls' = Ok root' →
  _get_valid_policy_ids root ∅ ⊆ _get_valid_policy_ids root' ∅ →
  validate_policy cls policy = Ok tt →
  validate_policy cls' policy = Ok tt.
Proof.
  intros Hroot Hroot' Hsub Hok.
  destruct policy as [| | | | |policy]; try discriminate.
  destruct policy as [|item policy]; [reflexivity|].
  destruct (dict_get (item :: policy) (KStr "resources")) as [v|] eqn:Hget;
    [|unfold validate_policy in Hok; cbn [dict_empty] in Hok;
      rewrite Hget in Hok; discriminate].
  destruct v as [| | | | |rs];
    try (unfold validate_policy in Hok; cbn [dict_empty] in Hok;
         rewrite Hget in Hok; discriminate).
  destruct rs as [|r rs];
    [unfold validate_policy in Hok; cbn [dict_empty] in Hok;
     rewrite Hget in Hok; discriminate|].
  assert (Hne : r :: rs ≠ []) by discriminate.
  apply (validate_policy_accepts cls' _ _ Hget Hne).
  destruct (proj1 (validate_policy_accepts cls _ _ Hget Hne) Hok)
    as [Hw Hnamed].
  split; [exact Hw|].
  destruct Hnamed as [Hnil|(root0 & Hroot0 & Hall)]; [now left|right].
  rewrite Hroot in Hroot0. injection Hroot0 as <-.
  exists root'. split; [exact Hroot'|].
  eapply Forall_impl; [exact Hall|].
  intros x. now apply validate_resource_policy_mono.
Qed.

Lemma validate_policy_monotone_witness :
  validate_policy
    (TokenWithRoot (mkResource (Some (KStr "top")) [resourceA] []))
    (policy_of_resources [(KStr "root", VDict [(KStr "*", allow_x)])])
  = Ok tt.
Proof.
  apply (validate_policy_monotone (TokenWithRoot resourceA)
           (TokenWithRoot (mkResource (Some (KStr "top")) [resourceA] []))
           resourceA (mkResource (Some (KStr "top")) [resourceA] [])).
  - reflexivity.
  - reflexivity.
  - intros x. rewrite !get_valid_policy_ids_elem_of.
    intros [H|(n & Hn & Hid)]; [now left|]. right. exists n.
    split; [|exact Hid].
    eapply node_list_child; [|exact Hn]. cbn. apply list_elem_of_here.
  - vm_compute. reflexivity.
Defined.

(** X6: the shared [result] set only grows: a call returns what the set
    held together with the ids of the tree, and the ids of a child's
    subtree are among those of its parent's. *)
Theorem get_valid_policy_ids_accumulates :
  (∀ (r : Resource) (acc : gset pykey),
      _get_valid_policy_ids r acc = acc ∪ _get_valid_policy_ids r ∅)
  ∧ (∀ (r c : Resource),
        c ∈ list_child_resources r ∨ c ∈ item_child_resources r →
        _get_valid_policy_ids c ∅ ⊆ _get_valid_policy_ids r ∅).
Proof.
  split.
  - intros r acc. apply set_eq. intros x.
    rewrite elem_of_union, !get_valid_policy_ids_elem_of. split.
    + intros [H|H]; [now left | right; now right].
    + intros [H|[H|H]]; [now left | | now right].
      now apply not_elem_of_empty in H.
  - intros r c Hc x. rewrite !get_valid_policy_ids_elem_of.
    intros [H|(n & Hn & Hid)]; [now left|]. right. exists n.
    split; [|exact Hid].
    destruct Hc as [Hc|Hc];
      [eapply node_list_child | eapply node_item_child]; eauto.
Qed.

Lemma get_valid_policy_ids_accumulates_witness :
  _get_valid_policy_ids resourceB ∅ ⊆ _get_valid_policy_ids resourceA ∅.
Proof.
  destruct get_valid_policy_ids_accumulates as [_ Hchild].
  apply (Hchild resourceA resourceB). left. cbn. apply list_elem_of_here.
Defined.

(** * Further properties of the conditions widget *)

(** The row emitted for a condition whose choice and operator are found. *)
Lemma render_row_resolved (self : ConditionsWidget)
    (choices : ConditionChoices) (name : string) (widget_id : option string)
    (attrs : Attrs) (i : nat) (condition : ConditionData)
    (choice : BaseConditionChoice) (operator : BaseConditionOperator) :
  get_choice choices (condition_choice condition) (choice_kwargs self)
  = Ok choice →
  get_operator choice (condition_op condition) = Ok operator →
  render_row self choices name widget_id attrs i condition
  = Ok ({| rendered_choice :=
             [SelectElement (name +:+ "_choice[" +:+ pretty i +:+ "]")
                (condition_choice condition)
                (build_attrs (widget_attrs (choice_widget self))
                   (with_id widget_id ("_choice_" +:+ pretty i) attrs))
                (widget_choices (choice_widget self))];
           rendered_operator :=
             [SelectElement (name +:+ "_operator[" +:+ pretty i +:+ "]")
                (condition_op condition)
                (build_attrs (widget_attrs (operator_widget self))
                   (with_id widget_id ("_operator_" +:+ pretty i) attrs))
                (widget_choices (operator_widget self)
                 ++ operator_items_of choice)];
           rendered_error := condition_errors self !! Some i |},
        {| choiceID := condition_choice condition;
           operatorID := condition_op condition;
           row_value :=
             match _get_value_field operator with
             | Some value_field =>
                 prepare_value_for_widget value_field
                   (condition_value condition)
             | None => condition_value condition
             end;
           valid := true;
           row_error :=
             if truthy (condition_errors self !! Some i) then
               condition_errors self !! Some i
             else None |},
        attrs).
Proof.
  intros Hc Ho. unfold render_row. rewrite resolve_row_cases, Hc, Ho.
  cbn. unfold _add_widget_choices, Select_render. cbn.
  rewrite app_nil_r. reflexivity.
Qed.

(** The row [get_context] emits for a condition whose choice and
    operator are found. *)
Lemma get_context_row_of_resolved (self : ConditionsWidget) (name : string)
    (value : ConditionSetData) (attrs : option Attrs) (i : nat)
    (condition : ConditionData) (choice : BaseConditionChoice)
    (operator : BaseConditionOperator) :
  conditions value !! i = Some condition →
  get_choice (choices self).1 (condition_choice condition)
             (choice_kwargs self) = Ok choice →
  get_operator choice (condition_op condition) = Ok operator →
  ∃ ctx self' rendered row_data choice_attrs operator_attrs,
    get_context self name value attrs = Ok (ctx, self')
    ∧ rendered_rows ctx !! i = Some rendered
    ∧ serialized_rows ctx !! i = Some row_data
    ∧ rendered_choice rendered
      = [SelectElement (name +:+ "_choice[" +:+ pretty i +:+ "]")
           (condition_choice condition) choice_attrs
           (widget_choices (choice_widget self))]
    ∧ rendered_operator rendered
      = [SelectElement (name +:+ "_operator[" +:+ pretty i +:+ "]")
           (condition_op condition) operator_attrs
           (widget_choices (operator_widget self)
            ++ operator_items_of choice)]
    ∧ rendered_error rendered = condition_errors self !! Some i
    ∧ choiceID row_data = condition_choice condition
    ∧ operatorID row_data = condition_op condition
    ∧ valid row_data = true
    ∧ row_value row_data
      = match _get_value_field operator with
        | Some value_field =>
            prepare_value_for_widget value_field (condition_value condition)
        | None => condition_value condition
        end
    ∧ row_error row_data
      = if truthy (condition_errors self !! Some i) then
          condition_errors self !! Some i
        else None.
Proof.
  intros Hi Hc Ho.
  destruct (get_context_rows self name value attrs)
    as (ctx & Hctx & _ & _ & _ & Hrows).
  destruct (Hrows i condition Hi)
    as (attrs_i & rendered & row_data & attrs_i' & Hrow & HR & HD).
  destruct (choices_keeps_widgets self) as (_ & Hcw & How & Hkw & Herr).
  rewrite <- Hkw in Hc.
  rewrite (render_row_resolved _ _ name _ attrs_i i condition choice operator
             Hc Ho) in Hrow.
  rewrite Hcw, How, Herr in Hrow. injection Hrow as <- <- _.
  eexists ctx, _, _, _, _, _. cbn.
  split; [exact Hctx|]. split; [exact HR|]. split; [exact HD|].
  repeat (split; [reflexivity|]). reflexivity.
Qed.



(** X8: rendering fills the cache of the lazy [choices] binding, and
    rendering again from the widget it leaves returns the same context
    and the same widget: a second rendering does not invoke the callable
    again. *)
Theorem get_context_twice (self : ConditionsWidget) (name : string)
    (value : ConditionSetData) (attrs : option Attrs) :
  ∃ ctx self',
    get_context self name value attrs = Ok (ctx, self')
    ∧ _choices self' = Some (choices self).1
    ∧ get_context self' name value attrs = Ok (ctx, self')
    ∧ (factory_calls_of self' ≤ S (factory_calls_of self))%nat.
Proof.
  destruct (get_context_rows self name value attrs)
    as (ctx & Hctx & _).
  exists ctx, (choices self).2.
  pose proof (choices_fills_cache self) as Hcache.
  split; [exact Hctx|]. split; [exact Hcache|]. split.
  - pose proof (choices_keeps_widgets self) as (Hmw & _).
    unfold get_context in *.
    rewrite (choices_cached _ _ Hcache).
    destruct (choices self) as [registry self1]. cbn [fst snd] in *.
    rewrite Hmw. exact Hctx.
  - destruct (_choices self) as [c|] eqn:Hc.
    + rewrite (choices_cached self c Hc). cbn. lia.
    + destruct (choices_first self Hc) as [_ ->].
      destruct (_orig_choices self); lia.
Qed.

Lemma unresolved_dec (choices : ConditionChoices) (kwargs : KwargsDict)
    (condition : ConditionData) :
  unresolved choices kwargs condition ∨ ¬ unresolved choices kwargs condition.
Proof.
  unfold unresolved.
  destruct (get_choice choices (condition_choice condition) kwargs)
    as [choice|e]; [|now left].
  destruct (get_operator choice (condition_op condition)); [right|left]; auto.
Qed.

(** What a row does to the loop variable [widget_attrs]. *)
Lemma render_row_attrs (self : ConditionsWidget)
    (choices : ConditionChoices) (name : string) (widget_id : option string)
    (attrs attrs' : Attrs) (i : nat) (condition : ConditionData)
    (rendered : RenderedRow) (row_data : RowData) :
  render_row self choices name widget_id attrs i condition
  = Ok (rendered, row_data, attrs') →
  (unresolved choices (choice_kwargs self) condition →
   attrs' = <["disabled" := "disabled"]> attrs)
  ∧ (¬ unresolved choices (choice_kwargs self) condition → attrs' = attrs).
Proof.
  intros Hrow. split.
  - intros Hun.
    destruct (render_row_unresolved self choices name widget_id attrs i
                condition Hun) as (m & co & oo & Hout & _).
    cbv zeta in Hout. rewrite Hout in Hrow. now injection Hrow as _ _ <-.
  - intros Hres. unfold unresolved in Hres.
    destruct (get_choice choices (condition_choice condition)
                (choice_kwargs self)) as [choice|e] eqn:Hc; [|now destruct Hres].
    destruct (get_operator choice (condition_op condition))
      as [operator|e] eqn:Ho; [|now destruct Hres].
    rewrite (render_row_resolved self choices name widget_id attrs i
               condition choice operator Hc Ho) in Hrow.
    now injection Hrow as _ _ <-.
Qed.

(** The loop, with the value of [widget_attrs] each row is rendered
    with: the initial one up to and including the first unresolved row,
    and the initial one with [disabled] set from the next row on. *)
Lemma render_rows_attrs (self : ConditionsWidget)
    (choices : ConditionChoices) (name : string) (widget_id : option string)
    (conds : list ConditionData) :
  ∀ (attrs : Attrs) (i : nat) (R : list RenderedRow) (D : list RowData),
  ∃ R' D',
    render_rows self choices name widget_id attrs i conds R D
    = Ok (R ++ R', D ++ D')
    ∧ ∀ j cond,
        conds !! j = Some cond →
        ∃ attrs_j rr rd attrs_j',
          render_row self choices name widget_id attrs_j (i + j) cond
          = Ok (rr, rd, attrs_j')
          ∧ R' !! j = Some rr
          ∧ D' !! j = Some rd
          ∧ (attrs_j = attrs
             ∨ attrs_j = <["disabled" := "disabled"]> attrs)
          ∧ ((∃ j' c', j' < j ∧ conds !! j' = Some c'
                       ∧ unresolved choices (choice_kwargs self) c') →
             attrs_j = <["disabled" := "disabled"]> attrs)
          ∧ ((∀ j' c', j' < j → conds !! j' = Some c' →
                       ¬ unresolved choices (choice_kwargs self) c') →
             attrs_j = attrs).
Proof.
  induction conds as [|cond conds IH]; intros attrs i R D.
  - exists [], []. rewrite !app_nil_r. split; [reflexivity|].
    intros j c Hj. discriminate.
  - destruct (render_row_total self choices name widget_id attrs i cond)
      as [[[rr rd] attrs'] Hrow].
    destruct (render_row_attrs _ _ _ _ _ _ _ _ _ _ Hrow) as [Hun Hres].
    destruct (IH attrs' (S i) (R ++ [rr]) (D ++ [rd]))
      as (R' & D' & Hloop & Hrows).
    exists (rr :: R'), (rd :: D').
    cbn [render_rows]. rewrite Hrow. cbn.
    rewrite Hloop, <- !app_assoc. cbn.
    split; [reflexivity|].
    intros [|j] c Hj.
    + injection Hj as <-. exists attrs, rr, rd, attrs'.
      rewrite Nat.add_0_r.
      split; [exact Hrow|]. split; [reflexivity|]. split; [reflexivity|].
      split; [now left|]. split; [|reflexivity].
      intros (j' & c' & Hlt & _). lia.
    + destruct (Hrows j c Hj)
        as (aj & rrj & rdj & aj' & Hr & HR & HD & Hor & Hdis & Hen).
      exists aj, rrj, rdj, aj'.
      replace (i + S j) with (S i + j) by lia.
      split; [exact Hr|]. split; [exact HR|]. split; [exact HD|].
      destruct (unresolved_dec choices (choice_kwargs self) cond)
        as [Hcond|Hcond].
      * specialize (Hun Hcond). subst attrs'.
        assert (Haj : aj = <["disabled" := "disabled"]> attrs).
        { destruct Hor as [->| ->]; [reflexivity|].
          apply insert_insert_eq. }
        split; [now right|]. split; [intros _; exact Haj|].
        intros Hall. destruct (Hall 0 cond); [lia|reflexivity|exact Hcond].
      * specialize (Hres Hcond). subst attrs'.
        split; [exact Hor|]. split.
        -- intros ([|j'] & c' & Hlt & Hc' & Hun').
           ++ injection Hc' as <-. contradiction.
           ++ apply Hdis. exists j', c'. split; [lia|]. split; assumption.
        -- intros Hall. apply Hen. intros j' c' Hlt Hc'.
           apply (Hall (S j') c'); [lia | exact Hc'].
Qed.

Lemma get_context_rows_attrs (self : ConditionsWidget) (name : string)
    (value : ConditionSetData) (attrs : option Attrs) :
  ∃ ctx,
    get_context self name value attrs = Ok (ctx, (choices self).2)
    ∧ ∀ j cond,
        conditions value !! j = Some cond →
        ∃ attrs_j rr rd attrs_j',
          render_row (choices self).2 (choices self).1 name
            (build_attrs (default ∅ attrs) ∅ !! "id") attrs_j j cond
          = Ok (rr, rd, attrs_j')
          ∧ rendered_rows ctx !! j = Some rr
          ∧ serialized_rows ctx !! j = Some rd
          ∧ ((∃ j' c', j' < j ∧ conditions value !! j' = Some c'
                       ∧ unresolved (choices self).1 (choice_kwargs self)
                                    c') →
             attrs_j = <["disabled" := "disabled"]>
                         (build_attrs (default ∅ attrs) ∅))
          ∧ ((∀ j' c', j' < j → conditions value !! j' = Some c' →
                       ¬ unresolved (choices self).1 (choice_kwargs self)
                                    c') →
             attrs_j = build_attrs (default ∅ attrs) ∅).
Proof.
  destruct (choices_keeps_widgets self) as (_ & _ & _ & Hkw & _).
  unfold get_context. destruct (choices self) as [registry self'].
  cbn [fst snd] in *.
  destruct (render_rows_attrs self' registry name
              (build_attrs (default ∅ attrs) ∅ !! "id") (conditions value)
              (build_attrs (default ∅ attrs) ∅) 0 [] [])
    as (R & D & Hloop & Hrows).
  rewrite Hloop. cbn. eexists. split; [reflexivity|]. cbn.
  intros j cond Hj.
  destruct (Hrows j cond Hj)
    as (aj & rr & rd & aj' & Hr & HR & HD & _ & Hdis & Hen).
  rewrite Hkw in Hdis, Hen.
  exists aj, rr, rd, aj'. cbn in Hr. auto 10.
Qed.

(** The first element of each rendered dropdown of a row, by what the
    lookups do. *)
Lemma render_row_heads (self : ConditionsWidget)
    (choices : ConditionChoices) (name : string) (widget_id : option string)
    (attrs attrs' : Attrs) (i : nat) (condition : ConditionData)
    (rendered : RenderedRow) (row_data : RowData) :
  render_row self choices name widget_id attrs i condition
  = Ok (rendered, row_data, attrs') →
  head (rendered_choice rendered) ≫= disabled_attr
  = build_attrs (widget_attrs (choice_widget self))
      (with_id widget_id ("_choice_" +:+ pretty i) attrs') !! "disabled"
  ∧ head (rendered_operator rendered) ≫= disabled_attr
    = build_attrs (widget_attrs (operator_widget self))
        (with_id widget_id ("_operator_" +:+ pretty i) attrs') !! "disabled".
Proof.
  intros Hrow.
  destruct (unresolved_dec choices (choice_kwargs self) condition)
    as [Hun|Hres].
  - destruct (render_row_unresolved self choices name widget_id attrs i
                condition Hun) as (m & co & oo & Hout & _).
    cbv zeta in Hout. rewrite Hout in Hrow.
    injection Hrow as <- _ <-. split; reflexivity.
  - unfold unresolved in Hres.
    destruct (get_choice choices (condition_choice condition)
                (choice_kwargs self)) as [choice|e] eqn:Hc; [|now destruct Hres].
    destruct (get_operator choice (condition_op condition))
      as [operator|e] eqn:Ho; [|now destruct Hres].
    rewrite (render_row_resolved self choices name widget_id attrs i
               condition choice operator Hc Ho) in Hrow.
    injection Hrow as <- _ <-. split; reflexivity.
Qed.

Lemma disabled_absent (base attrs : Attrs) (widget_id : option string)
    (suffix : string) :
  base !! "disabled" = None →
  attrs !! "disabled" = None →
  build_attrs base (with_id widget_id suffix attrs) !! "disabled" = None.
Proof.
  intros Hbase Hattrs. unfold build_attrs.
  apply lookup_union_None. split; [|exact Hbase].
  unfold with_id. destruct widget_id as [id|]; [|exact Hattrs].
  destruct (truthy (Some id)); [|exact Hattrs].
  now rewrite lookup_insert_ne by discriminate.
Qed.

(** X9: once a row is unresolved, every later row, resolved or not, is
    rendered with both dropdowns disabled: the loop reassigns
    [widget_attrs] and never resets it. *)
Theorem get_context_disabled_after_unresolved (self : ConditionsWidget)
    (name : string) (value : ConditionSetData) (attrs : option Attrs)
    (j i : nat) (cj ci : ConditionData) :
  conditions value !! j = Some cj →
  unresolved (choices self).1 (choice_kwargs self) cj →
  j < i →
  conditions value !! i = Some ci →
  ∃ ctx self' rendered,
    get_context self name value attrs = Ok (ctx, self')
    ∧ rendered_rows ctx !! i = Some rendered
    ∧ head (rendered_choice rendered) ≫= disabled_attr = Some "disabled"
    ∧ head (rendered_operator rendered) ≫= disabled_attr = Some "disabled".
Proof.
  intros Hj Hun Hlt Hi.
  destruct (get_context_rows_attrs self name value attrs)
    as (ctx & Hctx & Hrows).
  destruct (Hrows i ci Hi)
    as (ai & rr & rd & ai' & Hrow & HR & _ & Hdis & _).
  exists ctx, (choices self).2, rr.
  split; [exact Hctx|]. split; [exact HR|].
  assert (Hai : ai = <["disabled" := "disabled"]>
                       (build_attrs (default ∅ attrs) ∅)).
  { apply Hdis. exists j, cj. auto. }
  destruct (render_row_heads _ _ _ _ _ _ _ _ _ _ Hrow) as [-> ->].
  destruct (render_row_attrs _ _ _ _ _ _ _ _ _ _ Hrow) as [Hu Hr].
  assert (Hai' : ai' = <["disabled" := "disabled"]>
                         (build_attrs (default ∅ attrs) ∅)).
  { destruct (unresolved_dec (choices self).1 (choice_kwargs (choices self).2)
                ci) as [H|H].
    - rewrite (Hu H), Hai. apply insert_insert_eq.
    - now rewrite (Hr H). }
  rewrite Hai'. split; apply disabled_survives.
Qed.

Lemma get_context_disabled_after_unresolved_witness :
  ∃ ctx self' rendered,
    get_context sample_widget "cond"
      (rows_all [row "ghost" "is" (VStr "y");
                 row "status" "is" (VStr "open")]) None = Ok (ctx, self')
    ∧ rendered_rows ctx !! 1 = Some rendered
    ∧ head (rendered_choice rendered) ≫= disabled_attr = Some "disabled"
    ∧ head (rendered_operator rendered) ≫= disabled_attr = Some "disabled".
Proof.
  apply (get_context_disabled_after_unresolved sample_widget "cond"
           (rows_all [row "ghost" "is" (VStr "y");
                      row "status" "is" (VStr "open")]) None 0 1
           (row "ghost" "is" (VStr "y")) (row "status" "is" (VStr "open"))).
  - reflexivity.
  - vm_compute. exact I.
  - lia.
  - reflexivity.
Defined.

(** X10: when neither the attributes passed in nor the two dropdown
    widgets set [disabled], a row is rendered with both dropdowns enabled
    as long as it and every row before it are resolved. *)
Theorem get_context_enabled_until_unresolved (self : ConditionsWidget)
    (name : string) (value : ConditionSetData) (attrs : option Attrs)
    (i : nat) (ci : ConditionData) :
  default ∅ attrs !! "disabled" = None →
  widget_attrs (choice_widget self) !! "disabled" = None →
  widget_attrs (operator_widget self) !! "disabled" = None →
  (∀ (j : nat) c, (j ≤ i)%nat → conditions value !! j = Some c →
          ¬ unresolved (choices self).1 (choice_kwargs self) c) →
  conditions value !! i = Some ci →
  ∃ ctx self' rendered,
    get_context self name value attrs = Ok (ctx, self')
    ∧ rendered_rows ctx !! i = Some rendered
    ∧ head (rendered_choice rendered) ≫= disabled_attr = None
    ∧ head (rendered_operator rendered) ≫= disabled_attr = None.
Proof.
  intros Hattrs Hcw How Hall Hi.
  destruct (get_context_rows_attrs self name value attrs)
    as (ctx & Hctx & Hrows).
  destruct (Hrows i ci Hi)
    as (ai & rr & rd & ai' & Hrow & HR & _ & _ & Hen).
  exists ctx, (choices self).2, rr.
  split; [exact Hctx|]. split; [exact HR|].
  destruct (choices_keeps_widgets self) as (_ & Hcw' & How' & Hkw & _).
  assert (Hai : ai = build_attrs (default ∅ attrs) ∅).
  { apply Hen. intros j' c' Hlt Hc'. apply (Hall j' c'); [lia | exact Hc']. }
  destruct (render_row_heads _ _ _ _ _ _ _ _ _ _ Hrow) as [-> ->].
  destruct (render_row_attrs _ _ _ _ _ _ _ _ _ _ Hrow) as [_ Hr].
  rewrite Hkw in Hr. rewrite (Hr (Hall i ci (Nat.le_refl i) Hi)), Hai.
  rewrite Hcw', How'.
  assert (Hbase : build_attrs (default ∅ attrs) ∅ !! "disabled" = None).
  { unfold build_attrs. apply lookup_union_None. split; [|exact Hattrs].
    apply lookup_empty. }
  split; now apply disabled_absent.
Qed.

Lemma get_context_enabled_until_unresolved_witness :
  ∃ ctx self' rendered,
    get_context sample_widget "cond"
      (rows_all [row "status" "is" (VStr "open");
                 row "ghost" "is" (VStr "y")]) None = Ok (ctx, self')
    ∧ rendered_rows ctx !! 0 = Some rendered
    ∧ head (rendered_choice rendered) ≫= disabled_attr = None
    ∧ head (rendered_operator rendered) ≫= disabled_attr = None.
Proof.
  apply (get_context_enabled_until_unresolved sample_widget "cond"
           (rows_all [row "status" "is" (VStr "open");
                      row "ghost" "is" (VStr "y")]) None 0
           (row "status" "is" (VStr "open"))).
  - reflexivity.
  - reflexivity.
  - reflexivity.
  - intros j c Hle Hc. assert (j = 0) as -> by lia.
    injection Hc as <-. vm_compute. tauto.
  - reflexivity.
Defined.

(** * Further properties of the conditions field *)

Section to_python_more.

Variable ConditionSetT : Type.
Variable deserialize_set :
  ConditionChoices -> ConditionSetData -> KwargsDict -> result ConditionSetT.

(** X11: [to_python] never removes an entry of the widget's
    [condition_errors]; a call that returns leaves the dictionary exactly
    as it was, so what an earlier failing call recorded stays recorded. *)
Theorem to_python_keeps_recorded_errors (self : ConditionsField)
    (value : option ConditionSetData) :
  (∀ k m,
      condition_errors (widget self) !! k = Some m →
      is_Some (condition_errors
                 (widget (to_python ConditionSetT deserialize_set self
                            value).2) !! k))
  ∧ (∀ r,
        (to_python ConditionSetT deserialize_set self value).1 = Ok r →
        condition_errors
          (widget (to_python ConditionSetT deserialize_set self value).2)
        = condition_errors (widget self)).
Proof.
  destruct (choices_keeps_widgets (widget self)) as (_ & _ & _ & _ & Herrs).
  unfold to_python. destruct value as [value|]; [|cbn; split; eauto].
  destruct (choices (widget self)) as [registry widget0].
  cbn [fst snd] in Herrs.
  assert (Hins : ∀ (index : option nat) (message : string) k m,
            condition_errors (widget self) !! k = Some m →
            is_Some (<[index := message]> (condition_errors widget0) !! k)).
  { intros index message k m Hk. rewrite Herrs.
    destruct (decide (index = k)) as [->|Hne].
    - rewrite lookup_insert_eq. eauto.
    - rewrite lookup_insert_ne by exact Hne. eauto. }
  assert (Hsame : ∀ k m,
            condition_errors (widget self) !! k = Some m →
            is_Some (condition_errors widget0 !! k)).
  { intros k m Hk. rewrite Herrs. eauto. }
  destruct (deserialize_set registry value (choice_kwargs widget0))
    as [cs|e]; [cbn; split; [exact Hsame | intros; exact Herrs]|].
  destruct e; cbn;
    (split; [first [exact Hsame | apply Hins]
            | intros r Hr; first [discriminate | exact Herrs]]).
Qed.

(** X12: after [to_python] has failed on an invalid value at row [i],
    rendering the same data shows the recorded message on that row when
    its choice and operator are found: the row stays valid and editable
    data, with the message as its error. *)
Theorem to_python_error_is_displayed (self : ConditionsField)
    (value : ConditionSetData) (msg : string) (code : option string)
    (i : nat) (condition : ConditionData) (choice : BaseConditionChoice)
    (operator : BaseConditionOperator) (name : string)
    (attrs : option Attrs) :
  deserialize_set (choices (widget self)).1 value
                  (choice_kwargs (widget self))
  = Raise (InvalidConditionValueError msg code (Some i)) →
  conditions value !! i = Some condition →
  get_choice (choices (widget self)).1 (condition_choice condition)
             (choice_kwargs (widget self)) = Ok choice →
  get_operator choice (condition_op condition) = Ok operator →
  ∃ ctx widget' rendered row_data,
    get_context
      (widget (to_python ConditionSetT deserialize_set self
                 (Some value)).2) name value attrs = Ok (ctx, widget')
    ∧ rendered_rows ctx !! i = Some rendered
    ∧ serialized_rows ctx !! i = Some row_data
    ∧ valid row_data = true
    ∧ length (rendered_choice rendered) = 1
    ∧ rendered_error rendered
      = Some (if bool_decide (code = Some "required") then
                value_required_message (error_messages self)
              else msg).
Proof.
  intros Hraise Hi Hc Ho.
  destruct (to_python_raises ConditionSetT deserialize_set self
              value _ Hraise) as [Hrow _].
  rewrite (Hrow msg code (Some i)) by auto. cbn [snd widget set_widget].
  set (message := if bool_decide (code = Some "required")
                  then value_required_message (error_messages self)
                  else msg).
  set (w := set_condition_errors (choices (widget self)).2
              (<[Some i := message]> (condition_errors (widget self)))).
  assert (Hcache : _choices w = Some (choices (widget self)).1)
    by apply choices_fills_cache.
  destruct (choices_keeps_widgets (widget self)) as (_ & _ & _ & Hkw & _).
  assert (Hreg : choices w = ((choices (widget self)).1, w))
    by now apply choices_cached.
  destruct (get_context_row_of_resolved w name value attrs i condition
              choice operator)
    as (ctx & w' & rendered & row_data & ca & oa & Hctx & HR & HD & Hrc
        & _ & Herr & _ & _ & Hvalid & _).
  - exact Hi.
  - rewrite Hreg. cbn [fst]. subst w. cbn. now rewrite Hkw.
  - exact Ho.
  - exists ctx, w', rendered, row_data.
    split; [exact Hctx|]. split; [exact HR|]. split; [exact HD|].
    split; [exact Hvalid|]. split; [now rewrite Hrc|].
    rewrite Herr. subst w. cbn. apply lookup_insert_eq.
Qed.

End to_python_more.

Lemma to_python_keeps_recorded_errors_witness :
  is_Some (condition_errors
             (widget (to_python ConditionSet deserialize
                        (set_widget sample_field
                           (set_condition_errors sample_widget
                              {[ Some 3 := "stale" ]}))
                        (Some (rows_all [row "status" "is" (VStr "open")]))).2)
           !! Some 3).
Proof.
  destruct (to_python_keeps_recorded_errors ConditionSet deserialize
              (set_widget sample_field
                 (set_condition_errors sample_widget {[ Some 3 := "stale" ]}))
              (Some (rows_all [row "status" "is" (VStr "open")])))
    as [Hkeep _].
  apply (Hkeep (Some 3) "stale"). reflexivity.
Defined.

Lemma to_python_error_is_displayed_witness :
  ∃ ctx widget' rendered row_data,
    get_context
      (widget (to_python ConditionSet deserialize sample_field
                 (Some (rows_all [row "status" "is" VNone]))).2)
      "cond" (rows_all [row "status" "is" VNone]) None = Ok (ctx, widget')
    ∧ rendered_rows ctx !! 0 = Some rendered
    ∧ serialized_rows ctx !! 0 = Some row_data
    ∧ valid row_data = true
    ∧ length (rendered_choice rendered) = 1
    ∧ rendered_error rendered
      = Some "A value is required for this condition.".
Proof.
  apply (to_python_error_is_displayed ConditionSet deserialize sample_field
           (rows_all [row "status" "is" VNone]) "A value is required."
           (Some "required") 0 (row "status" "is" VNone) status_choice
           is_operator "cond" None); reflexivity.
Defined.

(** * Properties of the list-edit dictionary field *)

Lemma dict_in_keys (d : pydict) (k : pykey) :
  dict_in k d = true ↔ k ∈ d.*1.
Proof.
  rewrite dict_in_true. split.
  - intros [v Hv]. apply dict_get_elem_of in Hv.
    apply list_elem_of_fmap. now exists (k, v).
  - intros Hk. apply list_elem_of_fmap in Hk as ([k' v] & -> & Hin).
    now apply (dict_get_is_Some_of_elem d k' v).
Qed.

Lemma dict_set_fresh (d : pydict) (k : pykey) (v : pyval) :
  k ∉ d.*1 → dict_set d k v = d ++ [(k, v)].
Proof.
  induction d as [|[k' v'] d IH]; intros Hk; [reflexivity|].
  cbn [fmap list_fmap] in Hk. apply not_elem_of_cons in Hk as [Hne Hk].
  cbn in Hne. cbn [dict_set]. rewrite decide_False by congruence.
  cbn. now rewrite IH.
Qed.

Lemma items_of_id (d : pydict) :
  ListEditDictionaryField.items_of d = d.
Proof.
  unfold ListEditDictionaryField.items_of.
  assert (H : ∀ acc : list (pykey * pyval),
            fold_left (λ return_data item, return_data ++ [item]) d acc
            = acc ++ d).
  { induction d as [|x d IH]; intros acc; cbn.
    - now rewrite app_nil_r.
    - now rewrite IH, <- app_assoc. }
  apply (H []).
Qed.

(** The loop of [to_python]: with distinct keys throughout, the pairs are
    appended in order; otherwise the loop raises. *)
Lemma to_python_loop_spec (message : string) (l : list (pykey * pyval)) :
  ∀ acc : pydict,
    NoDup acc.*1 →
    (NoDup (acc ++ l).*1 →
     ListEditDictionaryField.to_python_loop message l acc = Ok (acc ++ l))
    ∧ (¬ NoDup (acc ++ l).*1 →
       ListEditDictionaryField.to_python_loop message l acc
       = Raise (ValidationError message (Some "duplicate_key_errors"))).
Proof.
  induction l as [|[k v] l IH]; intros acc Hacc.
  - rewrite app_nil_r. split; [reflexivity | contradiction].
  - cbn [ListEditDictionaryField.to_python_loop].
    destruct (dict_in k acc) eqn:Hin.
    + apply dict_in_keys in Hin. split; [|reflexivity].
      intros Hnd. rewrite fmap_app in Hnd.
      apply NoDup_app in Hnd as (_ & Hdisj & _).
      destruct (Hdisj k Hin). cbn. apply list_elem_of_here.
    + assert (Hk : k ∉ acc.*1).
      { intros H. apply dict_in_keys in H. congruence. }
      rewrite (dict_set_fresh acc k v Hk).
      assert (Hacc' : NoDup (acc ++ [(k, v)]).*1).
      { rewrite fmap_app. apply NoDup_app. split; [exact Hacc|].
        split; [|apply NoDup_singleton].
        intros x Hx Hx'. cbn in Hx'. apply list_elem_of_singleton in Hx'.
        now subst x. }
      destruct (IH (acc ++ [(k, v)]) Hacc') as [Hok Hdup].
      rewrite <- app_assoc in Hok, Hdup. cbn in Hok, Hdup.
      split; assumption.
Qed.

(** [to_python] on a list of pairs, by whether its keys are distinct. *)
Lemma dictionary_to_python_cases (message : string)
    (l : list (pykey * pyval)) :
  (NoDup l.*1 →
   ListEditDictionaryField.to_python message (Some l) = Ok l
   ∧ ∀ k v, (k, v) ∈ l ↔ dict_get l k = Some v)
  ∧ (¬ NoDup l.*1 →
     ListEditDictionaryField.to_python message (Some l)
     = Raise (ValidationError message (Some "duplicate_key_errors"))).
Proof.
  destruct (to_python_loop_spec message l [] (NoDup_nil_2)) as [Hok Hdup].
  cbn [app] in Hok, Hdup. unfold ListEditDictionaryField.to_python.
  split.
  - intros Hnd. split.
    + destruct l; [reflexivity | now apply Hok].
    + intros k v. symmetry. now apply dict_get_Some_NoDup.
  - intros Hnd. destruct l; [|now apply Hdup].
    destruct Hnd. constructor.
Qed.

(** X13: [ListEditDictionaryField.to_python] accepts exactly the lists
    of pairs whose keys are pairwise distinct: it then returns the
    dictionary holding these pairs in their order, in which every pair is
    found under its key; with a repeated key it raises the
    [ValidationError] of code ['duplicate_key_errors']. *)
Theorem dictionary_to_python_distinct_keys (message : string)
    (l : list (pykey * pyval)) :
  (NoDup l.*1 →
   ListEditDictionaryField.to_python message (Some l) = Ok l
   ∧ ∀ k v, (k, v) ∈ l ↔ dict_get l k = Some v)
  ∧ (¬ NoDup l.*1 →
     ListEditDictionaryField.to_python message (Some l)
     = Raise (ValidationError message (Some "duplicate_key_errors"))).
Proof. apply dictionary_to_python_cases. Qed.

Lemma dictionary_to_python_distinct_keys_witness :
  ListEditDictionaryField.to_python
    ListEditDictionaryField.duplicate_key_errors
    (Some [(KStr "a", VStr "1"); (KStr "b", VStr "2")])
  = Ok [(KStr "a", VStr "1"); (KStr "b", VStr "2")].
Proof.
  destruct (dictionary_to_python_distinct_keys
              ListEditDictionaryField.duplicate_key_errors
              [(KStr "a", VStr "1"); (KStr "b", VStr "2")]) as [Hok _].
  apply Hok. cbn. apply NoDup_cons. split.
  - intros H. apply list_elem_of_singleton in H. discriminate.
  - apply NoDup_singleton.
Defined.

(** X14: [prepare_value] and [to_python] of the dictionary field are
    inverse to each other: a dictionary goes to its pairs and back to
    itself, and the pairs [to_python] accepted are those [prepare_value]
    gives back for its result; [None] goes to no pairs and to the empty
    dictionary. *)
Theorem dictionary_round_trip (message : string) :
  (∀ d : pydict,
      NoDup d.*1 →
      ∃ items,
        ListEditDictionaryField.prepare_value
          (ListEditDictionaryField.DataDict d) = Returns items
        ∧ ListEditDictionaryField.to_python message (Some items) = Ok d)
  ∧ (∀ (l : list (pykey * pyval)) (d : pydict),
        ListEditDictionaryField.to_python message (Some l) = Ok d →
        ListEditDictionaryField.prepare_value
          (ListEditDictionaryField.DataDict d) = Returns l)
  ∧ (ListEditDictionaryField.prepare_value ListEditDictionaryField.DataNone
     = Returns []
     ∧ ListEditDictionaryField.to_python message (Some []) = Ok []).
Proof.
  split; [|split; [|split; reflexivity]].
  - intros d Hnd. exists d. cbn. rewrite items_of_id. split; [reflexivity|].
    now apply dictionary_to_python_cases.
  - intros l d Hok. cbn. rewrite items_of_id.
    destruct (dictionary_to_python_cases message l) as [Hnd Hdup].
    destruct (decide (NoDup l.*1)) as [H|H].
    + destruct (Hnd H) as [Heq _]. congruence.
    + rewrite (Hdup H) in Hok. discriminate.
Qed.

Lemma dictionary_round_trip_witness :
  ∃ items,
    ListEditDictionaryField.prepare_value
      (ListEditDictionaryField.DataDict [(KStr "a", VStr "1")])
    = Returns items
    ∧ ListEditDictionaryField.to_python
        ListEditDictionaryField.duplicate_key_errors (Some items)
      = Ok [(KStr "a", VStr "1")].
Proof.
  destruct (dictionary_round_trip
              ListEditDictionaryField.duplicate_key_errors) as [Hthere _].
  apply (Hthere [(KStr "a", VStr "1")]). cbn. apply NoDup_singleton.
Defined.

(** * Properties of the amount selector widget *)

Lemma exact_division (v m : Z) :
  m ≠ 0%Z → (v mod m = 0)%Z → (v / m * m = v)%Z.
Proof.
  intros Hm Hmod. pose proof (Z.div_mod v m Hm) as H.
  rewrite Hmod in H. lia.
Qed.

Lemma elem_of_rev {A : Type} (x : A) (l : list A) : x ∈ rev l ↔ x ∈ l.
Proof. rewrite !list_elem_of_In. symmetry. apply in_rev. Qed.

(** A unit the loop returns sits at or before every dividing unit of the
    list it scans, and divides the value. *)
Lemma decompress_loop_first_dividing (v : Z)
    (cs : AmountSelectorWidget.UnitChoices) :
  ∀ (init : option Z) (m m' : Z) (n' : string)
    (cs1 cs2 : AmountSelectorWidget.UnitChoices),
    AmountSelectorWidget.decompress_loop v cs init = Returns (Some m) →
    cs = cs1 ++ (Some m', n') :: cs2 →
    (v mod m' = 0)%Z →
    m ≠ 0%Z ∧ (v mod m = 0)%Z
    ∧ ∃ n, (Some m, n) ∈ cs1 ++ [(Some m', n')].
Proof.
  induction cs as [|[u name] cs IH];
    intros init m m' n' cs1 cs2 Hloop Hsplit Hdiv.
  - destruct cs1; discriminate.
  - cbn [AmountSelectorWidget.decompress_loop fst] in Hloop.
    destruct cs1 as [|c1 cs1].
    + cbn in Hsplit. injection Hsplit as -> -> ->.
      destruct (Z.eqb_spec m' 0) as [Hz|Hz]; [discriminate|].
      rewrite (proj2 (Z.eqb_eq _ _) Hdiv) in Hloop.
      injection Hloop as <-. split; [exact Hz|]. split; [exact Hdiv|].
      exists n'. apply list_elem_of_here.
    + cbn in Hsplit. injection Hsplit as <- ->.
      destruct u as [m1|].
      * destruct (Z.eqb_spec m1 0) as [Hz|Hz]; [discriminate|].
        destruct (Z.eqb_spec (v mod m1) 0) as [Hd|Hd].
        -- injection Hloop as <-. split; [exact Hz|]. split; [exact Hd|].
           exists name. apply list_elem_of_here.
        -- destruct (IH _ _ _ _ _ _ Hloop eq_refl Hdiv)
             as (Hm & Hmod & n & Hn).
           split; [exact Hm|]. split; [exact Hmod|].
           exists n. now apply list_elem_of_further.
      * destruct (IH _ _ _ _ _ _ Hloop eq_refl Hdiv)
          as (Hm & Hmod & n & Hn).
        split; [exact Hm|]. split; [exact Hmod|].
        exists n. now apply list_elem_of_further.
Qed.

(** With no zero factor and some dividing unit, the loop returns. *)
Lemma decompress_loop_returns (v : Z)
    (cs : AmountSelectorWidget.UnitChoices) :
  ∀ init : option Z,
    (∀ m n, (Some m, n) ∈ cs → m ≠ 0%Z) →
    (∃ m n, (Some m, n) ∈ cs ∧ (v mod m = 0)%Z) →
    ∃ m, AmountSelectorWidget.decompress_loop v cs init = Returns (Some m).
Proof.
  induction cs as [|[u name] cs IH]; intros init Hnz (m & n & Hin & Hdiv).
  - inversion Hin.
  - cbn [AmountSelectorWidget.decompress_loop fst].
    assert (Hnz' : ∀ m n, (Some m, n) ∈ cs → m ≠ 0%Z).
    { intros m0 n0 H0. apply (Hnz m0 n0). now apply list_elem_of_further. }
    apply elem_of_cons in Hin as [[= <- <-]|Hin].
    + rewrite (proj2 (Z.eqb_neq _ _) (Hnz m n (list_elem_of_here _ _))).
      rewrite (proj2 (Z.eqb_eq _ _) Hdiv). eauto.
    + destruct u as [m1|]; [|apply IH; eauto].
      rewrite (proj2 (Z.eqb_neq _ _) (Hnz m1 name (list_elem_of_here _ _))).
      destruct (v mod m1 =? 0)%Z; [eauto|]. apply IH; eauto.
Qed.

(** With no zero factor and no dividing unit, the loop runs to its end
    and returns the factor of the last choice it scanned. *)
Lemma decompress_loop_no_dividing (v : Z)
    (cs : AmountSelectorWidget.UnitChoices) :
  ∀ init : option Z,
    (∀ m n, (Some m, n) ∈ cs → m ≠ 0%Z ∧ (v mod m)%Z ≠ 0%Z) →
    AmountSelectorWidget.decompress_loop v cs init
    = Returns (match last cs with Some c => c.1 | None => init end).
Proof.
  induction cs as [|[u name] cs IH]; intros init Hall; [reflexivity|].
  cbn [AmountSelectorWidget.decompress_loop fst].
  assert (Hall' : ∀ m n, (Some m, n) ∈ cs → m ≠ 0%Z ∧ (v mod m)%Z ≠ 0%Z).
  { intros m0 n0 H0. apply (Hall m0 n0). now apply list_elem_of_further. }
  assert (Hlast : match last ((u, name) :: cs) with
                  | Some c => c.1 | None => init end
                  = match last cs with Some c => c.1 | None => u end).
  { destruct cs as [|c cs]; [reflexivity|].
    change (last ((u, name) :: c :: cs)) with (last (c :: cs)).
    destruct (last (c :: cs)) eqn:Hl; [reflexivity|].
    apply last_None in Hl. discriminate. }
  rewrite Hlast.
  destruct u as [m1|]; [|now apply IH].
  destruct (Hall m1 name (list_elem_of_here _ _)) as [Hz Hd].
  rewrite (proj2 (Z.eqb_neq _ _) Hz), (proj2 (Z.eqb_neq _ _) Hd).
  now apply IH.
Qed.

(** The unit [decompress] returns, against a dividing unit of the list. *)
Lemma decompress_returned_unit
    (choices pre post : AmountSelectorWidget.UnitChoices)
    (v a m m' : Z) (n' : string) :
  AmountSelectorWidget.decompress choices (Some v)
  = Returns (Some a, Some m) →
  choices = pre ++ (Some m', n') :: post →
  (v mod m' = 0)%Z →
  (a * m = v)%Z
  ∧ (v mod m = 0)%Z
  ∧ ∃ n, (Some m, n) ∈ (Some m', n') :: post.
Proof.
  intros Hdec Hsplit Hdiv. unfold AmountSelectorWidget.decompress in Hdec.
  destruct (AmountSelectorWidget.decompress_loop v (rev choices) (Some 1%Z))
    as [[m0|]|e] eqn:Hloop; cbn in Hdec; try discriminate.
  destruct (Z.eqb_spec m0 0) as [Hz|Hz]; [discriminate|].
  injection Hdec as <- <-.
  assert (Hrev : rev choices = rev post ++ (Some m', n') :: rev pre).
  { rewrite Hsplit, rev_app_distr. cbn. now rewrite <- app_assoc. }
  destruct (decompress_loop_first_dividing v (rev choices) _ _ _ _ _ _
              Hloop Hrev Hdiv) as (_ & Hmod & n & Hn).
  split; [now apply exact_division|]. split; [exact Hmod|].
  exists n. apply elem_of_app in Hn as [Hn|Hn].
  - apply list_elem_of_further. exact (proj1 (elem_of_rev _ _) Hn).
  - apply list_elem_of_singleton in Hn. rewrite Hn. apply list_elem_of_here.
Qed.

(** X15: when [decompress] returns an amount and a unit for a value that
    some listed unit divides, the unit returned divides the value too,
    the amount times the unit is the value, and the unit is listed at or
    after that dividing unit: it is the last unit of the list that
    divides the value. *)
Theorem decompress_last_dividing_unit
    (choices pre post : AmountSelectorWidget.UnitChoices)
    (v a m m' : Z) (n' : string) :
  AmountSelectorWidget.decompress choices (Some v)
  = Returns (Some a, Some m) →
  choices = pre ++ (Some m', n') :: post →
  (v mod m' = 0)%Z →
  (a * m = v)%Z
  ∧ (v mod m = 0)%Z
  ∧ ∃ n, (Some m, n) ∈ (Some m', n') :: post.
Proof. apply decompress_returned_unit. Qed.

Lemma decompress_last_dividing_unit_witness :
  (2 * 60 = 120)%Z
  ∧ (120 mod 60 = 0)%Z
  ∧ ∃ n, (Some 60%Z, n) ∈ [(Some 1%Z, "seconds"); (Some 60%Z, "minutes");
                            (Some 3600%Z, "hours")].
Proof.
  apply (decompress_last_dividing_unit
           [(Some 1%Z, "seconds"); (Some 60%Z, "minutes");
            (Some 3600%Z, "hours")]
           []
           [(Some 60%Z, "minutes"); (Some 3600%Z, "hours")]
           120 2 60 1 "seconds"); reflexivity.
Defined.

(** X16: with the base unit 1 among the choices and no zero factor,
    [decompress] returns for every value, and what it returns converts
    back to the value exactly. *)
Theorem decompress_exact_with_base_unit
    (choices : AmountSelectorWidget.UnitChoices) (v : Z) (base : string) :
  (Some 1%Z, base) ∈ choices →
  (∀ m n, (Some m, n) ∈ choices → m ≠ 0%Z) →
  ∃ a m n,
    AmountSelectorWidget.decompress choices (Some v)
    = Returns (Some a, Some m)
    ∧ (Some m, n) ∈ choices
    ∧ (a * m = v)%Z.
Proof.
  intros Hbase Hnz.
  destruct (decompress_loop_returns v (rev choices) (Some 1%Z)) as [m Hloop].
  - intros m n Hin. apply (Hnz m n). exact (proj1 (elem_of_rev _ _) Hin).
  - exists 1%Z, base.
    split; [exact (proj2 (elem_of_rev _ _) Hbase) | apply Z.mod_1_r].
  - apply list_elem_of_split in Hbase as (pre & post & Hsplit).
    assert (Hrev : rev choices = rev post ++ (Some 1%Z, base) :: rev pre).
    { rewrite Hsplit, rev_app_distr. cbn. now rewrite <- app_assoc. }
    destruct (decompress_loop_first_dividing v (rev choices) _ _ _ _ _ _
                Hloop Hrev (Z.mod_1_r v)) as (Hm & Hmod & n & Hn).
    exists (v / m)%Z, m, n. unfold AmountSelectorWidget.decompress.
    rewrite Hloop. cbn. rewrite (proj2 (Z.eqb_neq _ _) Hm).
    split; [reflexivity|]. split; [|now apply exact_division].
    rewrite Hsplit. apply elem_of_app in Hn as [Hn|Hn].
    + apply elem_of_app. right. apply list_elem_of_further.
      exact (proj1 (elem_of_rev _ _) Hn).
    + apply list_elem_of_singleton in Hn. rewrite Hn.
      apply elem_of_app. right. apply list_elem_of_here.
Qed.

Lemma decompress_exact_with_base_unit_witness :
  ∃ a m n,
    AmountSelectorWidget.decompress
      [(Some 1%Z, "seconds"); (Some 60%Z, "minutes"); (None, "never")]
      (Some 90%Z)
    = Returns (Some a, Some m)
    ∧ (Some m, n) ∈ [(Some 1%Z, "seconds"); (Some 60%Z, "minutes");
                     (None, "never")]
    ∧ (a * m = 90)%Z.
Proof.
  apply (decompress_exact_with_base_unit
           [(Some 1%Z, "seconds"); (Some 60%Z, "minutes"); (None, "never")]
           90 "seconds").
  - apply list_elem_of_here.
  - intros m n Hin.
    apply elem_of_cons in Hin as [H|Hin]; [injection H as -> _; lia|].
    apply elem_of_cons in Hin as [H|Hin]; [injection H as -> _; lia|].
    apply elem_of_cons in Hin as [H|Hin]; [discriminate | inversion Hin].
Defined.

(** X17: when no listed unit divides the value (and none is zero), the
    loop ends on the first choice of the list: [decompress] returns the
    floor of the value by that choice's factor, which no longer converts
    back to the value, and raises [TypeError] when that factor is
    [None]. *)
Theorem decompress_without_dividing_unit
    (first : option Z * string) (rest : AmountSelectorWidget.UnitChoices)
    (v : Z) :
  (∀ m n, (Some m, n) ∈ first :: rest → m ≠ 0%Z ∧ (v mod m)%Z ≠ 0%Z) →
  match first.1 with
  | Some m =>
      AmountSelectorWidget.decompress (first :: rest) (Some v)
      = Returns (Some (v / m)%Z, Some m)
      ∧ (v / m * m)%Z ≠ v
  | None =>
      AmountSelectorWidget.decompress (first :: rest) (Some v)
      = Throws TypeError
  end.
Proof.
  intros Hall. unfold AmountSelectorWidget.decompress.
  rewrite (decompress_loop_no_dividing v (rev (first :: rest)) (Some 1%Z)).
  2: { intros m n Hin. apply (Hall m n). exact (proj1 (elem_of_rev _ _) Hin). }
  cbn [rev]. rewrite last_snoc. destruct first as [[m|] name]; cbn.
  - destruct (Hall m name (list_elem_of_here _ _)) as [Hz Hd].
    rewrite (proj2 (Z.eqb_neq _ _) Hz). split; [reflexivity|].
    intros Heq. apply Hd. rewrite <- Heq. apply Z.mod_mul. exact Hz.
  - reflexivity.
Qed.

Lemma decompress_without_dividing_unit_witness :
  AmountSelectorWidget.decompress
    [(Some 60%Z, "minutes"); (Some 3600%Z, "hours")] (Some 90%Z)
  = Returns (Some (90 / 60)%Z, Some 60%Z)
  ∧ (90 / 60 * 60)%Z ≠ 90%Z.
Proof.
  apply (decompress_without_dividing_unit (Some 60%Z, "minutes")
           [(Some 3600%Z, "hours")] 90).
  intros m n Hin.
  apply elem_of_cons in Hin as [H|Hin];
    [injection H as -> _; split; [lia | vm_compute; discriminate]|].
  apply elem_of_cons in Hin as [H|Hin];
    [injection H as -> _; split; [lia | vm_compute; discriminate]|].
  inversion Hin.
Defined.

(** X20: [value_from_datadict] undoes [decompress]: when some listed unit
    divides the value and the amount and unit submitted read, by [int],
    as the pair [decompress] returned, the value comes back; and with the
    unit missing or empty the result is [None], whatever the amount
    field holds. *)
Theorem amount_round_trip (int : string → option Z)
    (choices : AmountSelectorWidget.UnitChoices)
    (data : gmap string string) (name : string) :
  (∀ (v a m m' : Z) (n' sa sm : string),
      AmountSelectorWidget.decompress choices (Some v)
      = Returns (Some a, Some m) →
      (Some m', n') ∈ choices →
      (v mod m' = 0)%Z →
      data !! (name +:+ "_0") = Some sa →
      int sa = Some a →
      data !! (name +:+ "_1") = Some sm →
      sm ≠ EmptyString →
      int sm = Some m →
      AmountSelectorWidget.value_from_datadict int data name
      = Returns (Some v))
  ∧ (data !! (name +:+ "_1") = None
     ∨ data !! (name +:+ "_1") = Some EmptyString →
     AmountSelectorWidget.value_from_datadict int data name = Returns None).
Proof.
  split.
  - intros v a m m' n' sa sm Hdec Hin Hdiv Hsa Ha Hsm Hne Hm.
    apply list_elem_of_split in Hin as (pre & post & Hsplit).
    destruct (decompress_returned_unit choices pre post v a m m' n'
                Hdec Hsplit Hdiv) as (Hexact & _).
    unfold AmountSelectorWidget.value_from_datadict.
    rewrite Hsa, Hsm, bool_decide_eq_false_2 by exact Hne.
    rewrite Ha, Hm. now rewrite Hexact.
  - unfold AmountSelectorWidget.value_from_datadict.
    intros [-> | ->]; reflexivity.
Qed.

Lemma amount_round_trip_witness :
  AmountSelectorWidget.value_from_datadict read_decimal
    {[ "ttl_0" := "2"; "ttl_1" := "60" ]} "ttl"
  = Returns (Some 120%Z).
Proof.
  destruct (amount_round_trip read_decimal
              [(Some 1%Z, "seconds"); (Some 60%Z, "minutes");
               (Some 3600%Z, "hours")]
              {[ "ttl_0" := "2"; "ttl_1" := "60" ]} "ttl") as [Hback _].
  apply (Hback 120%Z 2%Z 60%Z 1%Z "seconds" "2" "60");
    try reflexivity.
  - apply list_elem_of_here.
  - discriminate.
Defined.

(** * Properties of the list-edit field *)

Lemma string_app_cons (c : ascii) (s t : string) :
  (String c s ++ t)%string = String c (s ++ t)%string.
Proof. reflexivity. Qed.

Lemma string_app_nil_l (s : string) : (EmptyString ++ s)%string = s.
Proof. reflexivity. Qed.

Lemma string_app_nil_r (s : string) : (s ++ EmptyString)%string = s.
Proof.
  induction s as [|c s IH]; [reflexivity|].
  now rewrite string_app_cons, IH.
Qed.

Lemma string_app_assoc (s t u : string) :
  ((s ++ t) ++ u)%string = (s ++ (t ++ u))%string.
Proof.
  induction s as [|c s IH]; [reflexivity|].
  now rewrite !string_app_cons, IH.
Qed.

Section single_character_separator.

Variable c : ascii.

Local Abbreviation sep := (String c EmptyString).

(** The scan for a one-character separator, step by step. *)
Lemma split_from_cons (c' : ascii) (s item : string) :
  ListEditField.split_from sep (String c' s) 0 item
  = if Ascii.eqb c c' then
      item :: ListEditField.split_from sep s 0 EmptyString
    else
      ListEditField.split_from sep s 0 (item ++ String c' EmptyString)%string.
Proof.
  cbn [ListEditField.split_from String.prefix String.length].
  destruct (Ascii.eqb_spec c c') as [<-|Hne].
  - destruct (ascii_dec c c) as [_|H]; [|congruence].
    now destruct s.
  - destruct (ascii_dec c c') as [H|_]; [congruence | reflexivity].
Qed.

Lemma split_from_nonempty (s item : string) :
  ListEditField.split_from sep s 0 item ≠ [].
Proof.
  revert item. induction s as [|c' s IH]; intros item; [discriminate|].
  rewrite split_from_cons. destruct (Ascii.eqb c c'); [discriminate|].
  apply IH.
Qed.

Lemma join_cons (item : string) (items : list string) :
  items ≠ [] →
  ListEditField.join sep (item :: items)
  = (item ++ sep ++ ListEditField.join sep items)%string.
Proof. destruct items; [congruence | reflexivity]. Qed.

(** Joining the pieces of a string gives the string back. *)
Lemma join_split_from (s item : string) :
  ListEditField.join sep (ListEditField.split_from sep s 0 item)
  = (item ++ s)%string.
Proof.
  revert item. induction s as [|c' s IH]; intros item.
  - cbn [ListEditField.split_from ListEditField.join].
    now rewrite string_app_nil_r.
  - rewrite split_from_cons. destruct (Ascii.eqb_spec c c') as [<-|Hne].
    + rewrite join_cons by apply split_from_nonempty.
      rewrite IH. reflexivity.
    + rewrite IH, string_app_assoc. reflexivity.
Qed.

Lemma occurs_app (x y : string) :
  ListEditField.occurs c (x ++ y)%string
  = ListEditField.occurs c x || ListEditField.occurs c y.
Proof.
  induction x as [|d x IH]; [reflexivity|].
  rewrite string_app_cons. cbn [ListEditField.occurs].
  now rewrite IH, orb_assoc.
Qed.

(** A piece without the separator is read through in one go. *)
Lemma split_from_app (x rest item : string) :
  ListEditField.occurs c x = false →
  ListEditField.split_from sep (x ++ rest)%string 0 item
  = ListEditField.split_from sep rest 0 (item ++ x)%string.
Proof.
  revert item. induction x as [|d x IH]; intros item Hx.
  - now rewrite string_app_nil_l, string_app_nil_r.
  - cbn [ListEditField.occurs] in Hx. apply orb_false_iff in Hx as [Hd Hx].
    rewrite string_app_cons, split_from_cons, Hd, IH by exact Hx.
    now rewrite string_app_assoc.
Qed.

(** Splitting the join of pieces without the separator gives the pieces
    back. *)
Lemma split_from_join (items : list string) :
  items ≠ [] →
  Forall (λ x, ListEditField.occurs c x = false) items →
  ListEditField.split_from sep (ListEditField.join sep items) 0 EmptyString
  = items.
Proof.
  intros Hne Hall. induction Hall as [|x items Hx Hall IH]; [congruence|].
  destruct items as [|y items].
  - cbn [ListEditField.join].
    rewrite <- (string_app_nil_r x) at 1.
    rewrite split_from_app by exact Hx. reflexivity.
  - rewrite join_cons by discriminate.
    rewrite split_from_app by exact Hx.
    rewrite string_app_cons, string_app_nil_l.
    rewrite split_from_cons, Ascii.eqb_refl, string_app_nil_l.
    f_equal. apply IH. discriminate.
Qed.

(** No piece of a split holds the separator. *)
Lemma split_from_pieces (s item : string) :
  ListEditField.occurs c item = false →
  Forall (λ x, ListEditField.occurs c x = false)
         (ListEditField.split_from sep s 0 item).
Proof.
  revert item. induction s as [|c' s IH]; intros item Hitem.
  - repeat constructor. exact Hitem.
  - rewrite split_from_cons. destruct (Ascii.eqb c c') eqn:Hc.
    + constructor; [exact Hitem | now apply IH].
    + apply IH. rewrite occurs_app, Hitem.
      cbn [ListEditField.occurs]. now rewrite Hc.
Qed.

End single_character_separator.

(** Stripping. *)
Lemma occurs_lstrip (c : ascii) (s : string) :
  ListEditField.occurs c (ListEditField.lstrip s) = true →
  ListEditField.occurs c s = true.
Proof.
  induction s as [|d s IH]; cbn; [discriminate|].
  destruct (ListEditField.is_space d); [|exact id].
  intros H. rewrite (IH H). apply orb_true_r.
Qed.

Lemma occurs_rstrip (c : ascii) (s : string) :
  ListEditField.occurs c (ListEditField.rstrip s) = true →
  ListEditField.occurs c s = true.
Proof.
  induction s as [|d s IH]; cbn; [discriminate|].
  destruct (ListEditField.rstrip s) as [|e r].
  - destruct (ListEditField.is_space d); cbn; [discriminate|].
    rewrite orb_false_r. intros ->. reflexivity.
  - cbn [ListEditField.occurs] in *.
    destruct (Ascii.eqb c d); [reflexivity|]. cbn. exact IH.
Qed.

Lemma occurs_strip (c : ascii) (s : string) :
  ListEditField.occurs c s = false →
  ListEditField.occurs c (ListEditField.strip s) = false.
Proof.
  intros Hs. unfold ListEditField.strip.
  destruct (ListEditField.occurs c
              (ListEditField.rstrip (ListEditField.lstrip s))) eqn:H;
    [|reflexivity].
  apply occurs_rstrip, occurs_lstrip in H. congruence.
Qed.

Lemma rstrip_idempotent (s : string) :
  ListEditField.rstrip (ListEditField.rstrip s) = ListEditField.rstrip s.
Proof.
  induction s as [|d s IH]; [reflexivity|].
  cbn [ListEditField.rstrip].
  destruct (ListEditField.rstrip s) as [|e r] eqn:Hr.
  - destruct (ListEditField.is_space d) eqn:Hd; [reflexivity|].
    cbn. now rewrite Hd.
  - cbn [ListEditField.rstrip] in *. now rewrite IH.
Qed.

(** A string that does not start with a space is left alone by
    [lstrip], and [rstrip] keeps it so. *)
Lemma lstrip_rstrip_lstrip (s : string) :
  ListEditField.lstrip (ListEditField.rstrip (ListEditField.lstrip s))
  = ListEditField.rstrip (ListEditField.lstrip s).
Proof.
  induction s as [|d s IH]; [reflexivity|].
  cbn [ListEditField.lstrip].
  destruct (ListEditField.is_space d) eqn:Hd; [exact IH|].
  cbn [ListEditField.rstrip].
  destruct (ListEditField.rstrip s) as [|e r]; rewrite ?Hd; cbn;
    now rewrite Hd.
Qed.

Lemma strip_idempotent (s : string) :
  ListEditField.strip (ListEditField.strip s) = ListEditField.strip s.
Proof.
  unfold ListEditField.strip.
  now rewrite lstrip_rstrip_lstrip, rstrip_idempotent.
Qed.

Lemma map_strip_idempotent (items : list string) :
  map ListEditField.strip (map ListEditField.strip items)
  = map ListEditField.strip items.
Proof.
  induction items as [|x items IH]; cbn; [reflexivity|].
  now rewrite strip_idempotent, IH.
Qed.

Lemma split_single (c : ascii) (s : string) :
  ListEditField.split (String c EmptyString) s
  = Returns (ListEditField.split_from (String c EmptyString) s 0 EmptyString).
Proof. reflexivity. Qed.

(** What the model computes on a few strings, as Python does. *)
Example list_edit_samples :
  ListEditField.prepare_value "," (ListEditField.DataStr " a , b,, c ")
  = Returns ["a"; "b"; EmptyString; "c"]
  ∧ ListEditField.to_python "," [" a "; "b "; EmptyString] = "a,b,"
  ∧ ListEditField.split "ab" "1ab2abab3"
    = Returns ["1"; "2"; EmptyString; "3"]
  ∧ ListEditField.split "aa" "aaa" = Returns [EmptyString; "a"].
Proof. repeat split; vm_compute; reflexivity. Qed.

(** [to_python] followed by [prepare_value]. *)
Lemma list_edit_items_round_trip_aux (c : ascii) (items : list string) :
  items ≠ [] →
  Forall (λ x, ListEditField.occurs c (ListEditField.strip x) = false)
         items →
  ListEditField.prepare_value (String c EmptyString)
    (ListEditField.DataStr
       (ListEditField.to_python (String c EmptyString) items))
  = Returns (map ListEditField.strip items)
  ∧ ListEditField.prepare_value (String c EmptyString)
      (ListEditField.DataStr
         (ListEditField.to_python (String c EmptyString) []))
    = Returns [EmptyString].
Proof.
  intros Hne Hall. split; [|reflexivity].
  unfold ListEditField.prepare_value, ListEditField.to_python.
  destruct items as [|x items]; [congruence|].
  rewrite split_single. cbn [mbind outcome_bind].
  rewrite split_from_join.
  - now rewrite map_strip_idempotent.
  - discriminate.
  - apply Forall_forall. intros y Hy.
    apply list_elem_of_In, in_map_iff in Hy as (z & <- & Hz).
    rewrite Forall_forall in Hall. apply Hall. now apply list_elem_of_In.
Qed.

(** X18: for a one-character separator, a non-empty list of items none
    of which, once stripped, holds the separator comes back from
    [to_python] followed by [prepare_value] as the list of its stripped
    items; the empty list comes back as one empty item. *)
Theorem list_edit_items_round_trip (c : ascii) (items : list string) :
  items ≠ [] →
  Forall (λ x, ListEditField.occurs c (ListEditField.strip x) = false)
         items →
  ListEditField.prepare_value (String c EmptyString)
    (ListEditField.DataStr
       (ListEditField.to_python (String c EmptyString) items))
  = Returns (map ListEditField.strip items)
  ∧ ListEditField.prepare_value (String c EmptyString)
      (ListEditField.DataStr
         (ListEditField.to_python (String c EmptyString) []))
    = Returns [EmptyString].
Proof. apply list_edit_items_round_trip_aux. Qed.

Lemma list_edit_items_round_trip_witness :
  ListEditField.prepare_value ","
    (ListEditField.DataStr (ListEditField.to_python "," [" a"; "b "]))
  = Returns ["a"; "b"].
Proof.
  destruct (list_edit_items_round_trip "," [" a"; "b "]) as [H _].
  - discriminate.
  - repeat constructor.
  - exact H.
Defined.

(** X19: for a one-character separator, [prepare_value] turns every
    string into a non-empty list of items that are stripped and hold no
    separator; saving these items with [to_python] and preparing the
    result again gives the same items; and when no piece of the string
    has white space at its ends, [to_python] gives the string itself
    back. *)
Theorem list_edit_prepare_value_normalises (c : ascii) (s : string) :
  ∃ items,
    ListEditField.prepare_value (String c EmptyString)
      (ListEditField.DataStr s) = Returns items
    ∧ items ≠ []
    ∧ Forall (λ x, ListEditField.strip x = x
                   ∧ ListEditField.occurs c x = false) items
    ∧ ListEditField.prepare_value (String c EmptyString)
        (ListEditField.DataStr
           (ListEditField.to_python (String c EmptyString) items))
      = Returns items
    ∧ (∀ pieces,
          ListEditField.split (String c EmptyString) s = Returns pieces →
          Forall (λ x, ListEditField.strip x = x) pieces →
          ListEditField.to_python (String c EmptyString) items = s).
Proof.
  set (pieces := ListEditField.split_from (String c EmptyString) s 0
                   EmptyString).
  exists (map ListEditField.strip pieces).
  assert (Hne : pieces ≠ []) by apply split_from_nonempty.
  assert (Hpieces : Forall (λ x, ListEditField.occurs c x = false) pieces)
    by now apply split_from_pieces.
  assert (Hne' : map ListEditField.strip pieces ≠ []).
  { destruct pieces; [congruence | discriminate]. }
  split; [reflexivity|]. split; [exact Hne'|]. split; [|split].
  - apply Forall_forall. intros y Hy.
    apply list_elem_of_In, in_map_iff in Hy as (z & <- & Hz).
    split; [apply strip_idempotent|].
    apply occurs_strip. rewrite Forall_forall in Hpieces.
    apply Hpieces. now apply list_elem_of_In.
  - destruct (list_edit_items_round_trip_aux c
                (map ListEditField.strip pieces)) as [H _].
    + exact Hne'.
    + apply Forall_forall. intros y Hy.
      apply list_elem_of_In, in_map_iff in Hy as (z & <- & Hz).
      rewrite strip_idempotent. apply occurs_strip.
      rewrite Forall_forall in Hpieces. apply Hpieces.
      now apply list_elem_of_In.
    + now rewrite map_strip_idempotent in H.
  - intros pieces' Hsplit Hstripped. rewrite split_single in Hsplit.
    injection Hsplit as <-. fold pieces in Hstripped.
    assert (Hid : map ListEditField.strip pieces = pieces).
    { clear -Hstripped. induction Hstripped as [|x l Hx _ IH];
        [reflexivity|]. cbn. now rewrite Hx, IH. }
    rewrite Hid. unfold ListEditField.to_python.
    destruct pieces as [|p ps] eqn:Hp; [congruence|].
    rewrite Hid, <- Hp. unfold pieces. rewrite join_split_from.
    apply string_app_nil_l.
Qed.

Lemma list_edit_prepare_value_normalises_witness :
  ∃ items,
    ListEditField.prepare_value "," (ListEditField.DataStr "a,b")
    = Returns items
    ∧ ListEditField.to_python "," items = "a,b".
Proof.
  destruct (list_edit_prepare_value_normalises "," "a,b")
    as (items & Hprep & _ & _ & _ & Hback).
  exists items. split; [exact Hprep|].
  apply (Hback ["a"; "b"]); [reflexivity | repeat constructor].
Defined.

(** * Properties of [ConditionsWidget.value_from_datadict] *)

Section value_from_datadict_properties.

Variable int : string -> option Z.
Variable get_from_form_data :
  BaseConditionValueField -> gmap string string -> string -> pyval.




End value_from_datadict_properties.

